(** * Call-retry and business-hours scheduling: a shallow embedding

    The development follows three services of the voice assistant:
    [timezone-detector.js], [calling-hours-validator.js] and
    [smart-retry-calculator.js].  JavaScript values are modelled just far
    enough for those files: strings are sequences of code units below 256,
    numbers are integers or [NaN], a [Date] is a time value in milliseconds
    since the epoch or an invalid date, and a thrown exception is an explicit
    outcome.  Arithmetic on numbers is exact: the model agrees with
    JavaScript wherever the integers involved are ones a number holds exactly
    (below 2^53 in absolute value), and the statements that depend on it say
    so. *)

From Stdlib Require Import ZArith List String Ascii Bool Lia.
From Stdlib Require Import Sorting.Sorted Sorting.Permutation.
Import ListNotations.

Local Open Scope string_scope.
Local Open Scope Z_scope.

(** ** JavaScript values and built-ins used by the services *)

Module Js.

(** Errors that the modelled code can raise. *)
Inductive error : Type :=
| InvalidArgumentError       (* luxon: a unit value that is not a number *)
| RangeError                 (* [toISOString] of an invalid date *)
| SyntaxError.               (* a module whose source does not parse *)

(** A call either returns a value or throws. *)
Inductive outcome (A : Type) : Type :=
| Returned (a : A)
| Thrown (e : error).
Arguments Returned {A} a.
Arguments Thrown {A} e.

Definition bind {A B : Type} (m : outcome A) (k : A -> outcome B) : outcome B :=
  match m with
  | Returned a => k a
  | Thrown e => Thrown e
  end.

(** A number: an integer, or [NaN] as produced by [parseInt]. *)
Inductive num : Type :=
| NaN
| Num (z : Z).

(** The argument a caller passes where a string is expected. *)
Inductive arg : Type :=
| Undefined
| Null
| Str (s : string).

(** [!x] for such an argument: absent, null and the empty string are falsy. *)
Definition falsy (x : arg) : bool :=
  match x with
  | Undefined | Null => true
  | Str s => String.eqb s ""
  end.

(** [a || b] on an optional string. *)
Definition orElse (a : option string) (b : string) : string :=
  match a with
  | Some s => if String.eqb s "" then b else s
  | None => b
  end.

(** [\s] restricted to code units below 256. *)
Definition isWhiteSpace (c : ascii) : bool :=
  let n := nat_of_ascii c in
  (Nat.eqb n 9 || Nat.eqb n 10 || Nat.eqb n 11 || Nat.eqb n 12
   || Nat.eqb n 13 || Nat.eqb n 32 || Nat.eqb n 160)%bool.

(** [s.replace(re, '')] with a global character-class pattern. *)
Fixpoint removeAll (cls : ascii -> bool) (s : string) : string :=
  match s with
  | EmptyString => EmptyString
  | String c r => if cls c then removeAll cls r else String c (removeAll cls r)
  end.

(** [s.startsWith(p)]. *)
Definition startsWith (s p : string) : bool := String.prefix p s.

(** [\d] *)
Definition isDigit (c : ascii) : bool :=
  let n := nat_of_ascii c in (Nat.leb 48 n && Nat.leb n 57)%bool.

(** [Array.prototype.sort(cmp)]: a stable sort. *)
Fixpoint insertSorted {A : Type} (cmp : A -> A -> Z) (x : A) (l : list A) : list A :=
  match l with
  | [] => [x]
  | y :: r => if 0 <? cmp x y then y :: insertSorted cmp x r else x :: y :: r
  end.

Definition sort {A : Type} (cmp : A -> A -> Z) (l : list A) : list A :=
  fold_right (insertSorted cmp) [] l.

(** An object with string-valued properties: its own properties, in the
    order in which they were created. *)
Definition object : Type := list (string * string).

(** Defining the own property [k]: an existing property keeps its
    position. *)
Fixpoint defineProp (o : object) (k v : string) : object :=
  match o with
  | [] => [(k, v)]
  | (k', v') :: r =>
      if String.eqb k' k then (k', v) :: r else (k', v') :: defineProp r k v
  end.

(** [o[k] = v] for a string [v].  The name [__proto__] reaches the setter
    that every object inherits, which ignores a value that is no object:
    nothing is stored.  Any other name defines or updates an own
    property. *)
Definition setProp (o : object) (k v : string) : object :=
  if String.eqb k "__proto__" then o else defineProp o k v.

(** An object literal [{ 'k': 'v', ... }] with string values, once
    parsed: the properties are defined left to right, so a repeated name
    silently takes the later value.  Under the name [__proto__] a literal
    defines no property: the name stands for the prototype, which a value
    that is no object does not replace. *)
Definition literal (entries : list (string * string)) : object :=
  fold_left
    (fun o kv =>
       if String.eqb (fst kv) "__proto__" then o
       else defineProp o (fst kv) (snd kv))
    entries [].

(** The value of a run of decimal digits. *)
Fixpoint decimal (s : string) (acc : Z) : option Z :=
  match s with
  | EmptyString => Some acc
  | String c r =>
      if isDigit c then decimal r (acc * 10 + (Z.of_nat (nat_of_ascii c) - 48))
      else None
  end.

(** An array index: the canonical decimal text of an integer from 0 to
    2^32 - 2. *)
Definition arrayIndex (k : string) : option Z :=
  match k with
  | EmptyString => None
  | String c r =>
      if (Ascii.eqb c "0" && negb (String.eqb r ""))%bool then None
      else match decimal k 0 with
           | Some v => if v <=? 4294967294 then Some v else None
           | None => None
           end
  end.

Definition isArrayIndex (k : string) : bool :=
  match arrayIndex k with Some _ => true | None => false end.

Definition byIndex (a b : string) : Z :=
  match arrayIndex a, arrayIndex b with
  | Some x, Some y => x - y
  | _, _ => 0
  end.

(** [Object.keys(o)]: the array indices in ascending order, then the other
    names in the order of their creation. *)
Definition keys (o : object) : list string :=
  let names := map fst o in
  (sort byIndex (filter isArrayIndex names)
   ++ filter (fun k => negb (isArrayIndex k)) names)%list.

(** The own property [k], as [o[k]] reads it when [k] is one of the keys. *)
Fixpoint getProp (o : object) (k : string) : option string :=
  match o with
  | [] => None
  | (k', v) :: r => if String.eqb k' k then Some v else getProp r k
  end.

(** The names that every object inherits from [Object.prototype]; [o[k]]
    finds a function under each of them, and the prototype itself under
    [__proto__]. *)
Definition inheritedNames : list string :=
  ["constructor"; "__defineGetter__"; "__defineSetter__"; "hasOwnProperty";
   "__lookupGetter__"; "__lookupSetter__"; "isPrototypeOf";
   "propertyIsEnumerable"; "toString"; "valueOf"; "__proto__";
   "toLocaleString"].

Definition inherited (k : string) : bool := existsb (String.eqb k) inheritedNames.

(** [s.split(sep)] for a one-character separator. *)
Fixpoint split (sep : ascii) (s : string) : list string :=
  match s with
  | EmptyString => [EmptyString]
  | String c r =>
      if Ascii.eqb c sep then EmptyString :: split sep r
      else match split sep r with
           | h :: rest => String c h :: rest
           | [] => [String c EmptyString]
           end
  end.

Fixpoint trimStart (s : string) : string :=
  match s with
  | String c r => if isWhiteSpace c then trimStart r else s
  | EmptyString => EmptyString
  end.

Fixpoint trimEnd (s : string) : string :=
  match s with
  | EmptyString => EmptyString
  | String c r =>
      let r' := trimEnd r in
      if (isWhiteSpace c && String.eqb r' "")%bool then EmptyString else String c r'
  end.

Definition trim (s : string) : string := trimEnd (trimStart s).

Definition digitValue (c : ascii) : option Z :=
  let n := Z.of_nat (nat_of_ascii c) in
  if ((48 <=? n) && (n <=? 57))%bool then Some (n - 48)
  else if ((97 <=? n) && (n <=? 102))%bool then Some (n - 87)
  else if ((65 <=? n) && (n <=? 70))%bool then Some (n - 55)
  else None.

(** The longest run of digits of the radix, read left to right. *)
Fixpoint parseDigits (radix : Z) (s : string) (acc : num) : num :=
  match s with
  | EmptyString => acc
  | String c r =>
      match digitValue c with
      | Some d =>
          if d <? radix
          then parseDigits radix r
                 (Num (match acc with Num a => a * radix + d | NaN => d end))
          else acc
      | None => acc
      end
  end.

(** [parseInt(s)] without a radix argument: leading white space, a sign,
    an optional [0x] prefix, then digits; [NaN] when there is no digit.
    The digits are read exactly, where JavaScript rounds a value beyond
    2^53 to the nearest number it can hold. *)
Definition parseInt (s : string) : num :=
  let s := trimStart s in
  let '(sign, s) :=
    match s with
    | String "-" r => (-1, r)
    | String "+" r => (1, r)
    | _ => (1, s)
    end in
  let '(radix, s) :=
    match s with
    | String "0" (String "x" r) => (16, r)
    | String "0" (String "X" r) => (16, r)
    | _ => (10, s)
    end in
  match parseDigits radix s NaN with
  | Num v => Num (sign * v)
  | NaN => NaN
  end.

(** SameValueZero, the equality of [Array.prototype.includes]. *)
Definition sameValueZero (a b : num) : bool :=
  match a, b with
  | NaN, NaN => true
  | Num x, Num y => x =? y
  | _, _ => false
  end.

Definition includes (l : list num) (x : num) : bool := existsb (sameValueZero x) l.

(** [a[i]]: [None] stands for [undefined]. *)
Definition index {A : Type} (a : list A) (i : Z) : option A :=
  if i <? 0 then None else nth_error a (Z.to_nat i).

(** [Math.round(n / d)] for integers [n] and [d > 0]: halves round up.
    The quotient is exact, where JavaScript divides in floating point; the
    two agree while [n] is below 2^53 in absolute value and [d] is one of
    the divisors used here (60, 1440 and 60000). *)
Definition roundDiv (n d : Z) : Z := (2 * n + d) / (2 * d).

(** [s.substring(1)] *)
Definition substring1 (s : string) : string :=
  match s with
  | String _ r => r
  | EmptyString => EmptyString
  end.

Definition digitChar (d : Z) : ascii := ascii_of_nat (48 + Z.to_nat d).

(** The decimal digits of [n >= 0], written in front of [rest]; [fuel]
    bounds the number of digits. *)
Fixpoint showDigits (fuel : nat) (n : Z) (rest : string) : string :=
  match fuel with
  | O => rest
  | S f =>
      if n <? 10 then String (digitChar n) rest
      else showDigits f (n / 10) (String (digitChar (n mod 10)) rest)
  end.

Definition showNat (n : Z) : string :=
  showDigits (S (Z.to_nat (Z.log2 n))) n "".

(** [String(n)] for an integer that a number holds exactly. *)
Definition intToString (n : Z) : string :=
  if n <? 0 then String "-" (showNat (- n)) else showNat n.

(** [String(v)], [v.toString()] and [v] inside a template literal. *)
Definition toString (v : num) : string :=
  match v with
  | NaN => "NaN"
  | Num z => intToString z
  end.

Fixpoint fillChars (k : nat) (fill : ascii) (s : string) : string :=
  match k with
  | O => s
  | S k' => String fill (fillChars k' fill s)
  end.

(** [s.padStart(targetLength, fill)] for a one-character fill. *)
Definition padStart (s : string) (targetLength : nat) (fill : ascii) : string :=
  fillChars (targetLength - String.length s) fill s.

(** A [Date]: a time value, or the invalid date. *)
Inductive date : Type :=
| InvalidDate
| Date (t : Z).

(** The largest time value, in milliseconds either side of the epoch. *)
Definition maxTime : Z := 8640000000000000.

Definition inRange (t : Z) : bool := ((- maxTime <=? t) && (t <=? maxTime))%bool.

(** [new Date(t)] for a number [t]. *)
Definition timeClip (t : Z) : date := if inRange t then Date t else InvalidDate.

(** [d.toISOString()], which throws on the invalid date.  The text is kept
    as the instant it prints. *)
Definition toISOString (d : date) : outcome Z :=
  match d with
  | Date t => Returned t
  | InvalidDate => Thrown RangeError
  end.

End Js.

Notation "x <- m ;; k" := (Js.bind m (fun x => k))
  (at level 61, m at next level, right associativity).

(** ** timezone-detector.js *)

Module TimezoneDetector.
Import Js.

(** The entries of the [TIMEZONE_MAP] literal, in source order. *)
Definition TIMEZONE_MAP_entries : list (string * string) := [
  ("+44", "Europe/London");
  ("+353", "Europe/Dublin");
  ("+33", "Europe/Paris");
  ("+49", "Europe/Berlin");
  ("+34", "Europe/Madrid");
  ("+39", "Europe/Rome");
  ("+31", "Europe/Amsterdam");
  ("+32", "Europe/Brussels");
  ("+41", "Europe/Zurich");
  ("+43", "Europe/Vienna");
  ("+48", "Europe/Warsaw");
  ("+46", "Europe/Stockholm");
  ("+47", "Europe/Oslo");
  ("+45", "Europe/Copenhagen");
  ("+358", "Europe/Helsinki");
  ("+30", "Europe/Athens");
  ("+90", "Europe/Istanbul");
  ("+355", "Europe/Tirane");
  ("+381", "Europe/Belgrade");
  ("+385", "Europe/Zagreb");
  ("+380", "Europe/Kiev");
  ("+375", "Europe/Minsk");
  ("+40", "Europe/Bucharest");
  ("+359", "Europe/Sofia");
  ("+36", "Europe/Budapest");
  ("+420", "Europe/Prague");
  ("+421", "Europe/Bratislava");
  ("+386", "Europe/Ljubljana");
  ("+382", "Europe/Podgorica");
  ("+389", "Europe/Skopje");
  ("+387", "Europe/Sarajevo");
  ("+383", "Europe/Pristina");
  ("+373", "Europe/Chisinau");
  ("+370", "Europe/Vilnius");
  ("+371", "Europe/Riga");
  ("+372", "Europe/Tallinn");
  ("+93", "Asia/Kabul");
  ("+963", "Asia/Damascus");
  ("+964", "Asia/Baghdad");
  ("+98", "Asia/Tehran");
  ("+967", "Asia/Aden");
  ("+970", "Asia/Gaza");
  ("+962", "Asia/Amman");
  ("+961", "Asia/Beirut");
  ("+972", "Asia/Jerusalem");
  ("+966", "Asia/Riyadh");
  ("+971", "Asia/Dubai");
  ("+974", "Asia/Qatar");
  ("+973", "Asia/Bahrain");
  ("+965", "Asia/Kuwait");
  ("+968", "Asia/Muscat");
  ("+92", "Asia/Karachi");
  ("+91", "Asia/Kolkata");
  ("+880", "Asia/Dhaka");
  ("+94", "Asia/Colombo");
  ("+95", "Asia/Yangon");
  ("+977", "Asia/Kathmandu");
  ("+975", "Asia/Thimphu");
  ("+93", "Asia/Kabul");
  ("+992", "Asia/Dushanbe");
  ("+998", "Asia/Tashkent");
  ("+996", "Asia/Bishkek");
  ("+993", "Asia/Ashgabat");
  ("+7", "Asia/Almaty");
  ("+86", "Asia/Shanghai");
  ("+852", "Asia/Hong_Kong");
  ("+853", "Asia/Macau");
  ("+84", "Asia/Ho_Chi_Minh");
  ("+66", "Asia/Bangkok");
  ("+855", "Asia/Phnom_Penh");
  ("+856", "Asia/Vientiane");
  ("+60", "Asia/Kuala_Lumpur");
  ("+65", "Asia/Singapore");
  ("+62", "Asia/Jakarta");
  ("+63", "Asia/Manila");
  ("+82", "Asia/Seoul");
  ("+850", "Asia/Pyongyang");
  ("+81", "Asia/Tokyo");
  ("+886", "Asia/Taipei");
  ("+249", "Africa/Khartoum");
  ("+211", "Africa/Juba");
  ("+252", "Africa/Mogadishu");
  ("+291", "Africa/Asmara");
  ("+251", "Africa/Addis_Ababa");
  ("+234", "Africa/Lagos");
  ("+233", "Africa/Accra");
  ("+225", "Africa/Abidjan");
  ("+221", "Africa/Dakar");
  ("+220", "Africa/Banjul");
  ("+224", "Africa/Conakry");
  ("+232", "Africa/Freetown");
  ("+231", "Africa/Monrovia");
  ("+237", "Africa/Douala");
  ("+243", "Africa/Kinshasa");
  ("+242", "Africa/Brazzaville");
  ("+256", "Africa/Kampala");
  ("+250", "Africa/Kigali");
  ("+257", "Africa/Bujumbura");
  ("+254", "Africa/Nairobi");
  ("+255", "Africa/Dar_es_Salaam");
  ("+263", "Africa/Harare");
  ("+27", "Africa/Johannesburg");
  ("+20", "Africa/Cairo");
  ("+218", "Africa/Tripoli");
  ("+216", "Africa/Tunis");
  ("+213", "Africa/Algiers");
  ("+212", "Africa/Casablanca");
  ("+1", "America/New_York");
  ("+52", "America/Mexico_City");
  ("+55", "America/Sao_Paulo");
  ("+54", "America/Buenos_Aires");
  ("+56", "America/Santiago");
  ("+57", "America/Bogota");
  ("+51", "America/Lima");
  ("+58", "America/Caracas");
  ("+593", "America/Guayaquil");
  ("+591", "America/La_Paz");
  ("+595", "America/Asuncion");
  ("+598", "America/Montevideo");
  ("+53", "America/Havana");
  ("+509", "America/Port-au-Prince");
  ("+1809", "America/Santo_Domingo");
  ("+502", "America/Guatemala");
  ("+503", "America/El_Salvador");
  ("+504", "America/Tegucigalpa");
  ("+505", "America/Managua");
  ("+507", "America/Panama");
  ("+506", "America/Costa_Rica");
  ("+61", "Australia/Sydney");
  ("+64", "Pacific/Auckland");
  ("+679", "Pacific/Fiji")
].

Definition TIMEZONE_MAP : object := Eval vm_compute in literal TIMEZONE_MAP_entries.

(** [process.env.DEFAULT_TIMEZONE || 'Europe/London'] *)
Definition defaultTimezone (DEFAULT_TIMEZONE : option string) : string :=
  orElse DEFAULT_TIMEZONE "Europe/London".

(** The class [[\s\-\(\)]]. *)
Definition separator (c : ascii) : bool :=
  (isWhiteSpace c || Ascii.eqb c "-" || Ascii.eqb c "(" || Ascii.eqb c ")")%bool.

Definition clean (phoneNumber : string) : string := removeAll separator phoneNumber.

(** The comparator [(a, b) => b.length - a.length]. *)
Definition longestFirst (a b : string) : Z :=
  Z.of_nat (String.length b) - Z.of_nat (String.length a).

Definition sortedCodes (table : object) : list string :=
  sort longestFirst (keys table).

(** The order that comparator asks for. *)
Definition longerFirst (a b : string) : Prop :=
  (String.length b <= String.length a)%nat.

(** [table] is the current content of [TIMEZONE_MAP], which [addMapping]
    may extend at run time. *)
Definition detectTimezone (DEFAULT_TIMEZONE : option string) (table : object)
    (phoneNumber : arg) : string :=
  match phoneNumber with
  | Str s =>
      if falsy phoneNumber then defaultTimezone DEFAULT_TIMEZONE
      else
        let cleaned := clean s in
        match find (startsWith cleaned) (sortedCodes table) with
        | Some code =>
            match getProp table code with
            | Some timezone => timezone
            | None => ""          (* not reached: [code] is a key of [table] *)
            end
        | None => defaultTimezone DEFAULT_TIMEZONE
        end
  | _ => defaultTimezone DEFAULT_TIMEZONE
  end.

Definition getCountryCode (table : object) (phoneNumber : arg) : option string :=
  match phoneNumber with
  | Str s =>
      if falsy phoneNumber then None
      else find (startsWith (clean s)) (sortedCodes table)
  | _ => None
  end.

Definition isUKNumber (table : object) (phoneNumber : arg) : bool :=
  match getCountryCode table phoneNumber with
  | Some code => String.eqb code "+44"
  | None => false
  end.

(** [TIMEZONE_MAP[countryCode] = timezone] *)
Definition addMapping (table : object) (countryCode timezone : string) : object :=
  setProp table countryCode timezone.

Definition getSupportedCountryCodes (table : object) : list string := keys table.

End TimezoneDetector.

(** ** The part of luxon the validator relies on

    A [DateTime] is an instant together with a zone, or it is invalid; its
    offset and its calendar fields are derived from the two, as luxon
    recomputes them whenever it builds a [DateTime].  Only fields of the time
    of day are ever set and only whole days are added to the date, so the
    local calendar is carried as local milliseconds, not as year, month and
    day.  Where luxon computes with [NaN] the model has [None]. *)

Module Luxon.

(** The two kinds of zone that a zone identifier can resolve to. *)
Inductive Zone : Type :=
| IANAZone (offsetOf : Z -> Z)     (* a zone of the time zone database *)
| FixedOffsetZone (minutes : Z).   (* [utc], [UTC+5], ... *)

(** Minutes east of UTC in force at the instant [t]. *)
Definition offset (z : Zone) (t : Z) : Z :=
  match z with
  | IANAZone offsetOf => offsetOf t
  | FixedOffsetZone minutes => minutes
  end.

(** [zone.offset(ts)]: an IANA zone formats [new Date(ts)] and answers
    [NaN] when that is no date; a fixed zone does not look at [ts]. *)
Definition offsetAt (z : Zone) (t : Z) : option Z :=
  match z with
  | IANAZone offsetOf => if Js.inRange t then Some (offsetOf t) else None
  | FixedOffsetZone minutes => Some minutes
  end.

(** British clocks around 2024: one hour ahead of UTC from 31 March 01:00
    UTC until 27 October 01:00 UTC.  Used for worked examples. *)
Definition britishTime2024 : Zone :=
  IANAZone (fun t =>
    if ((1711846800000 <=? t) && (t <? 1729990800000))%bool then 60 else 0).

Inductive DateTime : Type :=
| Invalid
| Valid (ts : Z) (zone : Zone).

Definition msPerDay : Z := 86400000.

(** The constructor: the offset is looked up at [ts], and the calendar is
    that of [new Date(ts + offset)]; the [DateTime] is invalid when either
    is [NaN]. *)
Definition make (ts : Z) (z : Zone) : DateTime :=
  match offsetAt z ts with
  | Some o => if Js.inRange (ts + o * 60000) then Valid ts z else Invalid
  | None => Invalid
  end.

(** [DateTime.fromJSDate(date).setZone(zone)]; [zone] is [None] for an
    identifier that luxon does not know.  A time value out of range is no
    date. *)
Definition fromJSDate (date : Js.date) (zone : option Zone) : DateTime :=
  match date, zone with
  | Js.Date t, Some z => if Js.inRange t then make t z else Invalid
  | _, _ => Invalid
  end.

Definition toJSDate (dt : DateTime) : Js.date :=
  match dt with
  | Valid ts _ => Js.timeClip ts
  | Invalid => Js.InvalidDate
  end.

(** [a < b] and [a >= b] compare the instants; with an invalid operand both
    are false. *)
Definition lt (a b : DateTime) : bool :=
  match a, b with
  | Valid ta _, Valid tb _ => ta <? tb
  | _, _ => false
  end.

Definition ge (a b : DateTime) : bool :=
  match a, b with
  | Valid ta _, Valid tb _ => tb <=? ta
  | _, _ => false
  end.

(** The local time line: what the clock on the wall shows at the instant
    [t], in milliseconds. *)
Definition localTS (z : Zone) (t : Z) : Z := t + offset z t * 60000.

Definition timeOfDay (z : Zone) (t : Z) : Z := localTS z t mod msPerDay.

(** ISO weekday, 1 = Monday ... 7 = Sunday; 1 January 1970 was a Thursday. *)
Definition weekdayOf (z : Zone) (t : Z) : Z :=
  let js := (localTS z t / msPerDay + 4) mod 7 in
  if js =? 0 then 7 else js.

(** [dt.weekday] *)
Definition weekday (dt : DateTime) : Js.num :=
  match dt with
  | Valid ts z => Js.Num (weekdayOf z ts)
  | Invalid => Js.NaN
  end.

(** luxon's [fixOffset(localTS, o, tz)]: find the instant at which the zone
    shows the local time [localTS], starting from the guess that offset [o]
    applies.  A local time that a clock change skips is resolved with the
    smaller of the two offsets, which moves it forward past the gap. *)
Definition fixOffset (localTS o : Z) (tz : Zone) : option Z :=
  let utcGuess := localTS - o * 60000 in
  match offsetAt tz utcGuess with
  | None => None
  | Some o2 =>
      if o =? o2 then Some utcGuess
      else
        let utcGuess := utcGuess - (o2 - o) * 60000 in
        match offsetAt tz utcGuess with
        | None => None
        | Some o3 =>
            if o2 =? o3 then Some utcGuess
            else Some (localTS - Z.min o2 o3 * 60000)
        end
  end.

(** The [DateTime] for the local time [l]: [Date.UTC] gives [NaN] beyond
    the range of dates. *)
Definition resolve (l o : Z) (z : Zone) (millisToAdd : Z) : DateTime :=
  if Js.inRange l then
    match fixOffset l o z with
    | Some ts => make (ts + millisToAdd) z
    | None => Invalid
    end
  else Invalid.

(** [dt.set({ hour, minute, second })]: the fields are replaced on the
    same local day, the millisecond is kept, and the result goes through
    [fixOffset] with the offset of [dt] as the guess.  An invalid
    [DateTime] is returned as it is. *)
Definition set (dt : DateTime) (hour minute second : Z) : DateTime :=
  match dt with
  | Invalid => Invalid
  | Valid ts z =>
      let l := localTS z ts in
      let l' := l - l mod msPerDay
                + hour * 3600000 + minute * 60000 + second * 1000 + l mod 1000 in
      resolve l' (offset z ts) z 0
  end.

(** [dt.plus({ days, minutes })], luxon's [adjustTime]: days move the local
    date and go through [fixOffset]; minutes are then added to the
    instant. *)
Definition plus (dt : DateTime) (days minutes : Z) : DateTime :=
  match dt with
  | Invalid => Invalid
  | Valid ts z =>
      resolve (localTS z ts + days * msPerDay) (offset z ts) z (minutes * 60000)
  end.

(** The instant that the offset now in force assigns to the wall-clock time
    [hour:minute] of the local day of [t]; the zone is settled there when
    it still shows that offset, that is, when no clock change separates the
    two instants. *)
Definition sameDayInstant (z : Zone) (t hour minute : Z) : Z :=
  let l := localTS z t in
  l - l mod msPerDay + hour * 3600000 + minute * 60000 + l mod 1000
  - offset z t * 60000.

Definition settledAt (dt : DateTime) (hour minute : Z) : Prop :=
  match dt with
  | Valid t z => offset z (sameDayInstant z t hour minute) = offset z t
  | Invalid => True
  end.

(** A unit value must be a number. *)
Definition asNumber (v : Js.num) : Js.outcome Z :=
  match v with
  | Js.Num z => Js.Returned z
  | Js.NaN => Js.Thrown Js.InvalidArgumentError
  end.

(** [set] looks at its argument only when the [DateTime] is valid. *)
Definition setTime (dt : DateTime) (hour minute : Js.num) (second : Z)
  : Js.outcome DateTime :=
  match dt with
  | Invalid => Js.Returned Invalid
  | Valid _ _ =>
      h <- asNumber hour ;;
      m <- asNumber minute ;;
      Js.Returned (set dt h m second)
  end.

End Luxon.

(** ** calling-hours-validator.js *)

Module CallingHoursValidator.
Import Js Luxon.

Record Env : Type := {
  BUSINESS_HOURS_START : option string;
  BUSINESS_HOURS_END : option string;
  BUSINESS_DAYS : option string
}.

Record t : Type := {
  startHour : num;
  startMinute : num;
  endHour : num;
  endMinute : num;
  businessDays : list num
}.

(** Every time field holds a number, as it does whenever the environment
    gives the hours as digits. *)
Definition numeric (v : t) : bool :=
  match startHour v, startMinute v, endHour v, endMinute v with
  | Num _, Num _, Num _, Num _ => true
  | _, _, _, _ => false
  end.

(** [env?.split(':')[i] || dflt] *)
Definition field (v : option string) (i : nat) (dflt : string) : string :=
  match v with
  | None => dflt
  | Some s => orElse (nth_error (split ":"%char s) i) dflt
  end.

Definition constructor (env : Env) : t :=
  let daysString := orElse (BUSINESS_DAYS env) "1,2,3,4,5" in
  {| startHour := parseInt (field (BUSINESS_HOURS_START env) 0 "9");
     startMinute := parseInt (field (BUSINESS_HOURS_START env) 1 "0");
     endHour := parseInt (field (BUSINESS_HOURS_END env) 0 "19");
     endMinute := parseInt (field (BUSINESS_HOURS_END env) 1 "0");
     businessDays := map (fun d => parseInt (trim d)) (split ","%char daysString) |}.

(** The instance built when no variable is set: 09:00 to 19:00, Monday to
    Friday. *)
Definition byDefault : t :=
  Eval vm_compute in
    constructor {| BUSINESS_HOURS_START := None;
                   BUSINESS_HOURS_END := None;
                   BUSINESS_DAYS := None |}.

Section Methods.
(** luxon's resolution of a zone identifier: [None] for one it does not
    know. *)
Variable zones : string -> option Zone.
Variable this : t.

(** [this.businessDays.includes(dt.weekday)] *)
Definition isBusinessDay (dt : DateTime) : bool :=
  includes (businessDays this) (weekday dt).

(** [dateTime] is the [Date] passed in (or built from the date string);
    [timezone] is always supplied by the callers modelled here, so its
    default value does not come into play. *)
Definition isWithinCallingHours (dateTime : date) (timezone : string)
  : outcome bool :=
  let dt := fromJSDate dateTime (zones timezone) in
  if negb (isBusinessDay dt) then Returned false
  else
    startOfDay <- setTime dt (startHour this) (startMinute this) 0 ;;
    endOfDay <- setTime dt (endHour this) (endMinute this) 0 ;;
    Returned (ge dt startOfDay && lt dt endOfDay)%bool.

(** The [while] loop: at most [maxIterations] further days. *)
Fixpoint advance (nextDay : DateTime) (maxIterations : nat) : DateTime :=
  match maxIterations with
  | O => nextDay
  | S n =>
      if negb (isBusinessDay nextDay) then advance (plus nextDay 1 0) n
      else nextDay
  end.

Definition getNextValidCallingTime (fromDateTime : date) (timezone : string)
  : outcome date :=
  let dt := fromJSDate fromDateTime (zones timezone) in
  within <- isWithinCallingHours (toJSDate dt) timezone ;;
  if within then Returned (toJSDate dt)
  else
    todayStart <- setTime dt (startHour this) (startMinute this) 0 ;;
    if (lt dt todayStart && isBusinessDay dt)%bool
    then Returned (toJSDate todayStart)
    else
      nextDay <- setTime (plus dt 1 0) (startHour this) (startMinute this) 0 ;;
      Returned (toJSDate (advance nextDay 7)).

Record Delay : Type := {
  withinHours : bool;
  adjustedTime : date;
  originalDelay : option Z;           (* [None]: [undefined] *)
  adjustedDelay : option num
}.

(** [Math.round((new Date(a) - b) / 60000)]; not a number when a date
    is invalid.  The difference is exact here; JavaScript's is while the
    dates are less than 2^53 ms, some 285,000 years, apart. *)
Definition minutesBetween (a b : date) : num :=
  match a, b with
  | Date ta, Date tb => Num (roundDiv (ta - tb) 60000)
  | _, _ => NaN
  end.

(** [clock] is the reading of [DateTime.now()]; an undefined
    [delayMinutes] adds nothing. *)
Definition calculateDelayWithinHours (clock : Z) (delayMinutes : option Z)
    (timezone : string) : outcome Delay :=
  let now := fromJSDate (Date clock) (zones timezone) in
  let targetTime := plus now 0 (match delayMinutes with Some d => d | None => 0 end) in
  within <- isWithinCallingHours (toJSDate targetTime) timezone ;;
  if within then
    Returned {| withinHours := true;
                adjustedTime := toJSDate targetTime;
                originalDelay := delayMinutes;
                adjustedDelay := option_map Num delayMinutes |}
  else
    nextValidTime <- getNextValidCallingTime (toJSDate targetTime) timezone ;;
    let adjusted := minutesBetween nextValidTime (toJSDate now) in
    Returned {| withinHours := false;
                adjustedTime := nextValidTime;
                originalDelay := delayMinutes;
                adjustedDelay := Some adjusted |}.

Definition dayNames : list string :=
  [""; "Monday"; "Tuesday"; "Wednesday"; "Thursday"; "Friday"; "Saturday"; "Sunday"].

Record BusinessHoursInfo : Type := {
  start : string;
  end_ : string;
  days : list (option string)          (* [None]: [undefined] *)
}.

(** [`${hour.toString().padStart(2, '0')}:${minute.toString().padStart(2, '0')}`] *)
Definition clockText (hour minute : num) : string :=
  padStart (toString hour) 2 "0" ++ ":" ++ padStart (toString minute) 2 "0".

Definition getBusinessHoursInfo : BusinessHoursInfo :=
  {| start := clockText (startHour this) (startMinute this);
     end_ := clockText (endHour this) (endMinute this);
     days := map (fun d => match d with
                           | Num z => index dayNames z
                           | NaN => None
                           end) (businessDays this) |}.

End Methods.

End CallingHoursValidator.

(** ** smart-retry-calculator.js *)

Module SmartRetryCalculator.
Import Js.

(** Retry delays in minutes, by end reason: the own properties of
    [RETRY_DELAYS]. *)
Definition RETRY_DELAYS : list (string * list Z) := [
  ("customer-did-not-answer", [30; 120; 240]);
  ("customer-ended-call", [120; 360; 1440]);
  ("customer-busy", [60; 240; 720]);
  ("assistant-error", [5; 15; 30]);
  ("default", [60; 180; 360])
].

Definition MAX_ATTEMPTS : Z := 3.

Fixpoint lookup (table : list (string * list Z)) (key : string) : option (list Z) :=
  match table with
  | [] => None
  | (k, v) :: r => if String.eqb k key then Some v else lookup r key
  end.

(** What [RETRY_DELAYS[endedReason]] can be when it is truthy: one of the
    arrays of the table, or what the object inherits under that name (a
    function, or the prototype itself). *)
Inductive Delays : Type :=
| Schedule (delays : list Z)
| Inherited.

(** [RETRY_DELAYS[endedReason] || RETRY_DELAYS['default']] *)
Definition delaysFor (endedReason : string) : Delays :=
  match lookup RETRY_DELAYS endedReason with
  | Some delays => Schedule delays
  | None =>
      if inherited endedReason then Inherited
      else match lookup RETRY_DELAYS "default" with
           | Some delays => Schedule delays
           | None => Schedule []
           end
  end.

(** [delays[currentAttempts] || delays[delays.length - 1]]; an inherited
    function or object has no property under a number. *)
Definition delayAt (delays : Delays) (currentAttempts : Z) : option Z :=
  match delays with
  | Schedule delays =>
      let last := index delays (Z.of_nat (List.length delays) - 1) in
      match index delays currentAttempts with
      | Some d => if d =? 0 then last else Some d
      | None => last
      end
  | Inherited => None
  end.

Definition delayForAttempt (endedReason : string) (currentAttempts : Z) : option Z :=
  delayAt (delaysFor endedReason) currentAttempts.

(** The argument of [calculateRetry]; the attempt count is an integer. *)
Record Options : Type := {
  endedReason : string;
  currentAttempts : option Z;          (* [None]: omitted, defaults to 0 *)
  phoneNumber : arg;
  timezone : option string
}.

Module Retry.
Record t : Type := {
  attempts : Z;
  maxAttempts : Z;
  originalDelayMinutes : option Z;   (* [None]: [undefined] *)
  adjustedDelayMinutes : option num;
  nextCallTime : date;
  nextCallTimeISO : Z;               (* the instant that the text prints *)
  timezone : string;
  wasAdjustedForBusinessHours : bool;
  endedReason : string
}.
End Retry.

Module Exhausted.
Record t : Type := {
  reason : string;
  attempts : Z;
  maxAttempts : Z;
  action : string
}.
End Exhausted.

(** The two shapes of the returned object: [shouldRetry] true or false. *)
Inductive RetryInfo : Type :=
| ShouldRetry (r : Retry.t)
| ShouldNotRetry (e : Exhausted.t).

Definition shouldRetry (i : RetryInfo) : bool :=
  match i with ShouldRetry _ => true | ShouldNotRetry _ => false end.

(** What the calculator reads besides its argument. *)
Record World : Type := {
  DEFAULT_TIMEZONE : option string;            (* [process.env] *)
  timezoneMap : object;                        (* [TIMEZONE_MAP], as it stands *)
  callingHoursValidator : CallingHoursValidator.t;
  zones : string -> option Luxon.Zone;         (* the zones that luxon knows *)
  clock : Z                                    (* [DateTime.now()] *)
}.

(** [providedTimezone || timezoneDetector.detectTimezone(phoneNumber)] *)
Definition timezoneFor (w : World) (options : Options) : string :=
  let detected :=
    TimezoneDetector.detectTimezone (DEFAULT_TIMEZONE w) (timezoneMap w)
      (phoneNumber options) in
  match timezone options with
  | Some provided => if String.eqb provided "" then detected else provided
  | None => detected
  end.

Definition calculateRetry (w : World) (options : Options) : outcome RetryInfo :=
  let attemptsSoFar := match currentAttempts options with Some n => n | None => 0 end in
  let tz := timezoneFor w options in
  if MAX_ATTEMPTS <=? attemptsSoFar then
    Returned (ShouldNotRetry
      {| Exhausted.reason := "max_attempts_reached";
         Exhausted.attempts := attemptsSoFar;
         Exhausted.maxAttempts := MAX_ATTEMPTS;
         Exhausted.action := "send_sms_fallback" |})
  else
    let delayMinutes := delayForAttempt (endedReason options) attemptsSoFar in
    d <- CallingHoursValidator.calculateDelayWithinHours (zones w)
           (callingHoursValidator w) (clock w) delayMinutes tz ;;
    iso <- toISOString (CallingHoursValidator.adjustedTime d) ;;
    Returned (ShouldRetry
      {| Retry.attempts := attemptsSoFar + 1;
         Retry.maxAttempts := MAX_ATTEMPTS;
         Retry.originalDelayMinutes := delayMinutes;
         Retry.adjustedDelayMinutes := CallingHoursValidator.adjustedDelay d;
         Retry.nextCallTime := CallingHoursValidator.adjustedTime d;
         Retry.nextCallTimeISO := iso;
         Retry.timezone := tz;
         Retry.wasAdjustedForBusinessHours := negb (CallingHoursValidator.withinHours d);
         Retry.endedReason := endedReason options |}).

Definition shouldSendSMSFallback (attempts : Z) : bool := MAX_ATTEMPTS <=? attempts.

(** [retryInfo.attempts], present in both shapes. *)
Definition attemptsOf (i : RetryInfo) : Z :=
  match i with
  | ShouldRetry r => Retry.attempts r
  | ShouldNotRetry e => Exhausted.attempts e
  end.

(** [count > 1 ? 's' : ''] *)
Definition plural (count : Z) : string := if 1 <? count then "s" else "".

Definition getDelayDescription (minutes : Z) : string :=
  if minutes <? 60 then intToString minutes ++ " minutes"
  else if minutes <? 1440 then
    let hours := roundDiv minutes 60 in
    intToString hours ++ " hour" ++ plural hours
  else
    let days := roundDiv minutes 1440 in
    intToString days ++ " day" ++ plural days.

End SmartRetryCalculator.

(** ** Loading the services

    Requiring the modules parses their source, evaluates the
    [TIMEZONE_MAP] literal and runs [new CallingHoursValidator()].  No step
    inspects what it stores. *)

Module Startup.
Import Js.

Record Services : Type := {
  timezoneMap : object;
  callingHoursValidator : CallingHoursValidator.t
}.

(** How many properties of a literal are written under the name
    [__proto__].  JavaScript does not parse a literal with two of them. *)
Definition protoFields (entries : list (string * string)) : nat :=
  List.length (filter (fun kv => String.eqb (fst kv) "__proto__") entries).

Definition load (entries : list (string * string)) (env : CallingHoursValidator.Env)
  : outcome Services :=
  if (2 <=? protoFields entries)%nat then Thrown SyntaxError
  else
    Returned {| timezoneMap := literal entries;
                callingHoursValidator := CallingHoursValidator.constructor env |}.

(** The three configuration errors, as predicates on what is loaded. *)

Fixpoint hasDuplicate (codes : list string) : bool :=
  match codes with
  | [] => false
  | c :: rest => (existsb (String.eqb c) rest || hasDuplicate rest)%bool
  end.

Definition noBusinessDay (v : CallingHoursValidator.t) : bool :=
  negb (existsb (fun d => includes (CallingHoursValidator.businessDays v) (Num d))
          [1; 2; 3; 4; 5; 6; 7]).

Definition windowEmpty (v : CallingHoursValidator.t) : bool :=
  match CallingHoursValidator.startHour v, CallingHoursValidator.startMinute v,
        CallingHoursValidator.endHour v, CallingHoursValidator.endMinute v with
  | Num sh, Num sm, Num eh, Num em => eh * 60 + em <=? sh * 60 + sm
  | _, _, _, _ => false
  end.

End Startup.

(** ** Worked inputs *)

Module Examples.
Import Luxon.

(** The zones known in the examples: British time, Afghan time (four and
    a half hours ahead of UTC all year) and UTC.  Every other identifier is
    unknown, as [Europe/Pristina] is to the time zone database. *)
Definition zones (name : string) : option Zone :=
  if String.eqb name "Europe/London" then Some britishTime2024
  else if String.eqb name "Asia/Kabul" then Some (IANAZone (fun _ => 270))
  else if String.eqb name "UTC" then Some (FixedOffsetZone 0)
  else None.

(** Monday 15 January 2024, 10:00 UTC. *)
Definition mondayMorning : Z := 1705312800000.

(** Saturday 13 January 2024, 14:00 UTC. *)
Definition saturdayAfternoon : Z := 1705154400000.

(** Friday 12 January 2024, 18:45:01.234 UTC. *)
Definition fridayEvening : Z := 1705085101234.

Definition world (now : Z) : SmartRetryCalculator.World :=
  {| SmartRetryCalculator.DEFAULT_TIMEZONE := None;
     SmartRetryCalculator.timezoneMap := TimezoneDetector.TIMEZONE_MAP;
     SmartRetryCalculator.callingHoursValidator := CallingHoursValidator.byDefault;
     SmartRetryCalculator.zones := zones;
     SmartRetryCalculator.clock := now |}.

(** An event for a British number, an Afghan number and a Kosovar number. *)
Definition eventFor (phone reason : string) (attemptsSoFar : Z)
  : SmartRetryCalculator.Options :=
  {| SmartRetryCalculator.endedReason := reason;
     SmartRetryCalculator.currentAttempts := Some attemptsSoFar;
     SmartRetryCalculator.phoneNumber := Js.Str phone;
     SmartRetryCalculator.timezone := None |}.

Definition event : string -> Z -> SmartRetryCalculator.Options :=
  eventFor "+447700900123".

Definition kabulEvent : string -> Z -> SmartRetryCalculator.Options :=
  eventFor "+93701234567".

Definition pristinaEvent : string -> Z -> SmartRetryCalculator.Options :=
  eventFor "+38344123456".

(** Sunday 31 March 2024, 01:15 UTC: 02:15 on British clocks, a quarter of
    an hour after they went from 01:00 to 02:00. *)
Definition springForwardNight : Z := 1711847700000.

(** A window that opens at 01:30, every day of the week. *)
Definition nightEnv : CallingHoursValidator.Env :=
  {| CallingHoursValidator.BUSINESS_HOURS_START := Some "01:30";
     CallingHoursValidator.BUSINESS_HOURS_END := Some "19:00";
     CallingHoursValidator.BUSINESS_DAYS := Some "1,2,3,4,5,6,7" |}.

(** Sunday 31 March 2024, 00:30 UTC: half an hour before British clocks
    go forward. *)
Definition changeEve : Z := 1711845000000.

(** A window from midnight to 19:00, every day of the week. *)
Definition allWeekEnv : CallingHoursValidator.Env :=
  {| CallingHoursValidator.BUSINESS_HOURS_START := Some "00:00";
     CallingHoursValidator.BUSINESS_HOURS_END := Some "19:00";
     CallingHoursValidator.BUSINESS_DAYS := Some "1,2,3,4,5,6,7" |}.

(** A broken environment: the window closes before it opens and the list
    of days names no day. *)
Definition brokenEnv : CallingHoursValidator.Env :=
  {| CallingHoursValidator.BUSINESS_HOURS_START := Some "19:00";
     CallingHoursValidator.BUSINESS_HOURS_END := Some "09:00";
     CallingHoursValidator.BUSINESS_DAYS := Some "," |}.

(** A start hour below zero, which [parseInt] reads as it is written. *)
Definition earlyEnv : CallingHoursValidator.Env :=
  {| CallingHoursValidator.BUSINESS_HOURS_START := Some "-30:00";
     CallingHoursValidator.BUSINESS_HOURS_END := Some "19:00";
     CallingHoursValidator.BUSINESS_DAYS := None |}.

End Examples.

(** ** Vocabulary for the properties of the detector *)

Module DetectorSpec.
Import Js.

(** [code] is a key of the table that prefixes the cleaned number. *)
Definition matches (table : object) (cleaned code : string) : Prop :=
  In code (keys table) /\ startsWith cleaned code = true.

(** ... and no key that prefixes the cleaned number is longer. *)
Definition longestMatch (table : object) (cleaned code : string) : Prop :=
  matches table cleaned code /\
  forall other, matches table cleaned other ->
                (String.length other <= String.length code)%nat.

Fixpoint allChars (p : ascii -> bool) (s : string) : bool :=
  match s with
  | EmptyString => true
  | String c r => (p c && allChars p r)%bool
  end.

Definition digitOrPlus (c : ascii) : bool := (isDigit c || Ascii.eqb c "+")%bool.

End DetectorSpec.

(** ** Vocabulary for the properties of printed numbers *)

Module NumberSpec.
Import Js.

(** An integer that a JavaScript number holds exactly, so that [String]
    prints all its digits and [parseInt] reads them all back. *)
Definition safeInteger (z : Z) : Prop := - 2 ^ 53 < z < 2 ^ 53.

Definition safeNumber (v : num) : Prop :=
  match v with
  | NaN => True
  | Num z => safeInteger z
  end.

Definition notColon (c : ascii) : bool := negb (Ascii.eqb c ":").

(** An accumulator of [parseDigits] that holds no digit yet, or only
    zeros. *)
Definition fresh (acc : num) : Prop := acc = NaN \/ acc = Num 0.

End NumberSpec.

(** ** Vocabulary for the properties of the validator *)

Module CalendarSpec.
Import Js Luxon.

(** A time value well inside the range of dates: within eight thousand
    million million milliseconds (some 250,000 years) of the epoch. *)
Definition ordinary (t : Z) : Prop := - 8 * 10 ^ 15 <= t <= 8 * 10 ^ 15.

(** A zone whose offsets stay within a day of UTC; those of the time zone
    database stay within sixteen hours. *)
Definition plausible (z : Zone) : Prop := forall x, - 1440 <= offset z x <= 1440.

(** A wall-clock time [hour:minute] from 00:00 to 24:00. *)
Definition withinDay (hour minute : Z) : Prop := 0 <= hour * 60 + minute <= 1440.

(** The instants at most four days from [t]. *)
Definition near (t x : Z) : Prop := t - 4 * msPerDay <= x <= t + 4 * msPerDay.

(** Around [t] the offsets of the zone differ by at most [minutes]: 0
    when the clocks do not change, 60 around the usual change to or from
    summer time. *)
Definition spreadNear (z : Zone) (t minutes : Z) : Prop :=
  forall x y, near t x -> near t y -> offset z x - offset z y <= minutes.

Definition minuteOfDay (z : Zone) (t : Z) : Z := timeOfDay z t / 60000.

(** The boundary [hour:minute] of the local day of [t] is clear of the
    clock changes around [t]: no change separates it from [t], or the wall
    clock at [t] shows a time at least [minutes] past the boundary, or
    more than [minutes] before it. *)
Definition clearOf (z : Zone) (t minutes hour minute : Z) : Prop :=
  settledAt (Valid t z) hour minute
  \/ hour * 60 + minute + minutes <= minuteOfDay z t
  \/ minuteOfDay z t + minutes < hour * 60 + minute.

(** From [lo] to [hi] the clocks of the zone change at most once: at the
    instant [change], from the offset [before] to the offset [after]. *)
Definition changesOnce (z : Zone) (lo hi change before after : Z) : Prop :=
  forall x, lo <= x <= hi -> offset z x = if x <? change then before else after.

(** The zone stays [m] minutes ahead of UTC. *)
Definition keepsOffset (z : Zone) (m : Z) : Prop := forall x, offset z x = m.

End CalendarSpec.

Module FixedZoneSpec.
Import Js Luxon.

(** An instance whose four time fields are numbers. *)
Definition validator (sh sm eh em : Z) (days : list num) : CallingHoursValidator.t :=
  {| CallingHoursValidator.startHour := Num sh;
     CallingHoursValidator.startMinute := Num sm;
     CallingHoursValidator.endHour := Num eh;
     CallingHoursValidator.endMinute := Num em;
     CallingHoursValidator.businessDays := days |}.

(** In a zone that stays [m] minutes ahead of UTC: the start of business
    on the local day [k] days after the day of [instant], carrying the
    millisecond of [instant]. *)
Definition startOn (m sh sm instant k : Z) : Z :=
  let l := instant + m * 60000 in
  l - l mod msPerDay + k * msPerDay + sh * 3600000 + sm * 60000 + l mod 1000
  - m * 60000.

End FixedZoneSpec.

(** ** The webhook handlers: the pure steps around the services *)

(** [formatPhoneNumber] is the same method in [ghl-trigger-handler.js] and
    [ghl-confirmation-handler.js]. *)
Module GHLTriggerHandler.
Import Js.

(** The class [[^\d+]]. *)
Definition notDigitOrPlus (c : ascii) : bool :=
  negb (isDigit c || Ascii.eqb c "+").

Definition formatPhoneNumber (phone : arg) : option string :=
  match phone with
  | Str s =>
      if falsy phone then None
      else
        let cleaned := removeAll notDigitOrPlus s in
        let cleaned :=
          if (startsWith cleaned "0" && Nat.eqb (String.length cleaned) 11)%bool
          then "+44" ++ substring1 cleaned
          else cleaned in
        let cleaned :=
          if negb (startsWith cleaned "+") then "+44" ++ cleaned else cleaned in
        Some cleaned
  | _ => None
  end.

End GHLTriggerHandler.

Module EndOfCallHandler.
Import Js.

(** [parseInt(contact.customFields?.call_attempts || '0')] *)
Definition currentAttempts (call_attempts : option string) : num :=
  parseInt (orElse call_attempts "0").

(** The [callAttempts] field written back: [String(retryInfo.attempts)]. *)
Definition callAttempts (retryInfo : SmartRetryCalculator.RetryInfo) : string :=
  intToString (SmartRetryCalculator.attemptsOf retryInfo).

End EndOfCallHandler.

(** * Properties *)

(** ** Strings, sorting and object literals *)

Module JsFacts.
Import Js.

Lemma prefix_nil (s : string) : String.prefix "" s = true.
Proof. destruct s; reflexivity. Qed.

Lemma prefix_cons (a b : ascii) (p s : string) :
  String.prefix (String a p) (String b s) = true <-> a = b /\ String.prefix p s = true.
Proof.
  simpl. destruct (ascii_dec a b) as [->|Hne].
  - tauto.
  - split; [discriminate | intros [E _]; contradiction].
Qed.

(** Two prefixes of one string: the shorter is a prefix of the longer. *)
Lemma prefix_chain (p q s : string) :
  String.prefix p s = true -> String.prefix q s = true ->
  (String.length p <= String.length q)%nat ->
  String.prefix p q = true.
Proof.
  revert q s. induction p as [|a p IH]; intros q s Hp Hq Hlen.
  - apply prefix_nil.
  - destruct q as [|b q]; [simpl in Hlen; lia|].
    destruct s as [|c s]; [discriminate Hp|].
    apply prefix_cons in Hp as [-> Hp].
    apply prefix_cons in Hq as [-> Hq].
    apply prefix_cons. split; [reflexivity|].
    apply (IH q s Hp Hq). simpl in Hlen. lia.
Qed.

Lemma prefix_same_length (p q : string) :
  String.prefix p q = true -> String.length p = String.length q -> p = q.
Proof.
  revert q. induction p as [|a p IH]; intros [|b q] H Hlen; try discriminate.
  - reflexivity.
  - apply prefix_cons in H as [-> H]. f_equal. apply IH; [exact H|].
    simpl in Hlen. lia.
Qed.

Lemma prefix_length (p q : string) :
  String.prefix p q = true -> (String.length p <= String.length q)%nat.
Proof.
  revert q. induction p as [|a p IH]; intros [|b q] H; simpl; try lia.
  - discriminate.
  - apply prefix_cons in H as [_ H]. apply IH in H. lia.
Qed.

Section Sorting.
Context {A : Type} (cmp : A -> A -> Z).

Lemma insertSorted_In (x y : A) (l : list A) :
  In y (insertSorted cmp x l) <-> y = x \/ In y l.
Proof.
  induction l as [|z l IH]; simpl.
  - intuition congruence.
  - destruct (0 <? cmp x z); simpl; rewrite ?IH; intuition congruence.
Qed.

Lemma sort_In (y : A) (l : list A) : In y (sort cmp l) <-> In y l.
Proof.
  induction l as [|x l IH]; simpl; [tauto|].
  rewrite insertSorted_In, IH. intuition congruence.
Qed.
End Sorting.

(** The first hit of a search through a list in descending order of a
    measure has the largest measure among all hits. *)
Lemma find_first_is_largest {A : Type} (size : A -> nat) (p : A -> bool)
    (l : list A) (x : A) :
  StronglySorted (fun a b => (size b <= size a)%nat) l ->
  find p l = Some x ->
  forall y, In y l -> p y = true -> (size y <= size x)%nat.
Proof.
  induction 1 as [|a l Hs IH Ha]; intros Hfind y Hin Hy; [contradiction|].
  simpl in Hfind. destruct (p a) eqn:Hpa.
  - injection Hfind as <-. destruct Hin as [<-|Hin]; [lia|].
    rewrite Forall_forall in Ha. now apply Ha.
  - destruct Hin as [<-|Hin]; [congruence|]. now apply IH.
Qed.

(** [Object.keys] lists the names of the own properties, each once per
    property, in an order of its own. *)
Lemma sort_Permutation {A : Type} (cmp : A -> A -> Z) (l : list A) :
  Permutation (sort cmp l) l.
Proof.
  induction l as [|x l IH]; simpl; [constructor|].
  transitivity (x :: sort cmp l); [|now constructor].
  generalize (sort cmp l) as m. clear. intros m.
  induction m as [|y m IH]; simpl; [reflexivity|].
  destruct (0 <? cmp x y); [|reflexivity].
  transitivity (y :: x :: m); [now constructor | constructor].
Qed.

Lemma filter_partition {A : Type} (p : A -> bool) (l : list A) :
  Permutation (filter p l ++ filter (fun x => negb (p x)) l) l.
Proof.
  induction l as [|x l IH]; simpl; [constructor|].
  destruct (p x); simpl.
  - now constructor.
  - symmetry. apply Permutation_cons_app. now symmetry.
Qed.

Lemma keys_Permutation (o : object) : Permutation (keys o) (map fst o).
Proof.
  unfold keys. etransitivity; [|apply (filter_partition isArrayIndex)].
  apply Permutation_app_tail, sort_Permutation.
Qed.

Lemma keys_In (o : object) (k : string) : In k (keys o) <-> In k (map fst o).
Proof.
  split; apply Permutation_in; [|symmetry]; apply keys_Permutation.
Qed.

Lemma keys_NoDup (o : object) : NoDup (keys o) <-> NoDup (map fst o).
Proof.
  split; apply Permutation_NoDup; [|symmetry]; apply keys_Permutation.
Qed.

Lemma getProp_of_key (o : object) (k : string) :
  In k (keys o) -> exists v, getProp o k = Some v.
Proof.
  rewrite keys_In.
  induction o as [|[k' v'] o IH]; simpl; [contradiction|].
  intros [->|Hin].
  - rewrite String.eqb_refl. eauto.
  - destruct (String.eqb k' k); eauto.
Qed.

Lemma getProp_defineProp (o : object) (k v k0 : string) :
  getProp (defineProp o k v) k0 = if String.eqb k k0 then Some v else getProp o k0.
Proof.
  induction o as [|[k' v'] o IH]; simpl.
  - reflexivity.
  - destruct (String.eqb k' k) eqn:E; simpl.
    + apply String.eqb_eq in E. subst k'. destruct (String.eqb k k0); reflexivity.
    + rewrite IH. destruct (String.eqb k' k0) eqn:E0; [|reflexivity].
      apply String.eqb_eq in E0. subst k0. now rewrite String.eqb_sym, E.
Qed.

Lemma names_defineProp (o : object) (k v : string) :
  map fst (defineProp o k v)
  = if existsb (String.eqb k) (map fst o) then map fst o else (map fst o ++ [k])%list.
Proof.
  induction o as [|[k' v'] o IH]; simpl; [reflexivity|].
  rewrite (String.eqb_sym k k').
  destruct (String.eqb k' k); simpl; [reflexivity|].
  rewrite IH.
  destruct (existsb (String.eqb k) (map fst o)); reflexivity.
Qed.

Lemma names_defineProp_In (o : object) (k v k0 : string) :
  In k0 (map fst (defineProp o k v)) <-> In k0 (map fst o) \/ k0 = k.
Proof.
  rewrite names_defineProp.
  destruct (existsb (String.eqb k) (map fst o)) eqn:E.
  - split; [auto|]. intros [H | ->]; [exact H|].
    apply existsb_exists in E as (x & Hx & Heq).
    apply String.eqb_eq in Heq. now subst x.
  - rewrite in_app_iff. simpl. intuition congruence.
Qed.

Lemma names_defineProp_NoDup (o : object) (k v : string) :
  NoDup (map fst o) -> NoDup (map fst (defineProp o k v)).
Proof.
  intros H. rewrite names_defineProp.
  destruct (existsb (String.eqb k) (map fst o)) eqn:E; [exact H|].
  apply NoDup_app; [exact H | repeat constructor; intros [] | ].
  intros x Hin [Hx|[]]. subst x.
  assert (existsb (String.eqb k) (map fst o) = true) as C; [|congruence].
  apply existsb_exists. exists k. split; [exact Hin | apply String.eqb_refl].
Qed.

(** Assigning to [__proto__] stores nothing. *)
Lemma setProp_proto (o : object) (v : string) : setProp o "__proto__" v = o.
Proof. reflexivity. Qed.

Lemma setProp_defines (o : object) (k v : string) :
  k <> "__proto__" -> setProp o k v = defineProp o k v.
Proof.
  intros H. unfold setProp. now apply String.eqb_neq in H as ->.
Qed.

(** A name that is no array index joins the end of the list of keys; a
    name already present leaves the list as it is. *)
Lemma keys_defineProp_present (o : object) (k v : string) :
  In k (keys o) -> keys (defineProp o k v) = keys o.
Proof.
  rewrite keys_In. intros Hin. unfold keys. rewrite names_defineProp.
  replace (existsb (String.eqb k) (map fst o)) with true; [reflexivity|].
  symmetry. apply existsb_exists. exists k. split; [exact Hin | apply String.eqb_refl].
Qed.

Lemma keys_defineProp_new (o : object) (k v : string) :
  ~ In k (keys o) -> isArrayIndex k = false ->
  keys (defineProp o k v) = (keys o ++ [k])%list.
Proof.
  rewrite keys_In. intros Hnot Hk. unfold keys. rewrite names_defineProp.
  destruct (existsb (String.eqb k) (map fst o)) eqn:E.
  - apply existsb_exists in E as (x & Hx & Heq).
    apply String.eqb_eq in Heq. subst x. contradiction.
  - rewrite !filter_app. simpl. rewrite Hk. simpl.
    now rewrite app_nil_r, app_assoc.
Qed.

Lemma keys_defineProp_NoDup (o : object) (k v : string) :
  NoDup (keys o) -> NoDup (keys (defineProp o k v)).
Proof. rewrite !keys_NoDup. apply names_defineProp_NoDup. Qed.

Lemma keys_setProp_NoDup (o : object) (k v : string) :
  NoDup (keys o) -> NoDup (keys (setProp o k v)).
Proof.
  unfold setProp. destruct (String.eqb k "__proto__"); [auto|].
  apply keys_defineProp_NoDup.
Qed.

Lemma literal_snoc (entries : list (string * string)) (k v : string) :
  literal ((entries ++ [(k, v)])%list) = setProp (literal entries) k v.
Proof. unfold literal. now rewrite fold_left_app. Qed.

Lemma literal_NoDup (entries : list (string * string)) : NoDup (keys (literal entries)).
Proof.
  induction entries as [|[k v] entries IH] using rev_ind.
  - constructor.
  - rewrite literal_snoc. now apply keys_setProp_NoDup.
Qed.

(** Reading a property of a literal yields the last value written for it. *)
Lemma literal_last_wins (entries : list (string * string)) (k : string) :
  k <> "__proto__" -> getProp (literal entries) k = getProp (rev entries) k.
Proof.
  intros Hk. induction entries as [|[k' v'] entries IH] using rev_ind.
  - reflexivity.
  - rewrite literal_snoc, rev_app_distr. simpl. unfold setProp.
    destruct (String.eqb k' "__proto__") eqn:E.
    + apply String.eqb_eq in E. subst k'.
      replace (String.eqb "__proto__" k) with false; [exact IH|].
      symmetry. apply String.eqb_neq. congruence.
    + rewrite getProp_defineProp. now rewrite IH.
Qed.

(** A literal has no property of its own under [__proto__]. *)
Lemma literal_proto (entries : list (string * string)) :
  getProp (literal entries) "__proto__" = None.
Proof.
  induction entries as [|[k' v'] entries IH] using rev_ind.
  - reflexivity.
  - rewrite literal_snoc. unfold setProp.
    destruct (String.eqb k' "__proto__") eqn:E; [exact IH|].
    rewrite getProp_defineProp.
    replace (String.eqb k' "__proto__") with false; exact IH.
Qed.

Lemma index_last (l : list Z) :
  l <> [] -> index l (Z.of_nat (List.length l) - 1) = Some (List.last l 0).
Proof.
  intros Hne. unfold index.
  destruct (Z.of_nat (List.length l) - 1 <? 0) eqn:E.
  - destruct l; [congruence|]. apply Z.ltb_lt in E. cbn [List.length] in E. lia.
  - replace (Z.to_nat (Z.of_nat (List.length l) - 1)) with (List.length l - 1)%nat by lia.
    clear E. induction l as [|a l IH]; [congruence|].
    destruct l as [|b l]; [reflexivity|].
    change (List.last (a :: b :: l) 0) with (List.last (b :: l) 0).
    rewrite <- IH by discriminate. simpl. now rewrite Nat.sub_0_r.
Qed.

Lemma index_beyond (l : list Z) (i : Z) :
  Z.of_nat (List.length l) <= i -> index l i = None.
Proof.
  intros H. unfold index. destruct (i <? 0) eqn:E; [reflexivity|].
  apply nth_error_None. lia.
Qed.

Lemma roundDiv_nearest (n m : Z) :
  roundDiv n 60000 = m <-> 60000 * m - 30000 <= n < 60000 * m + 30000.
Proof.
  unfold roundDiv. split.
  - intros <-. pose proof (Z.div_mod (2 * n + 60000) (2 * 60000) ltac:(lia)).
    pose proof (Z.mod_pos_bound (2 * n + 60000) (2 * 60000) ltac:(lia)). lia.
  - intros H. symmetry. apply (Z.div_unique _ _ m (2 * n + 60000 - 120000 * m)); lia.
Qed.

End JsFacts.

(** ** The timezone detector *)

Module TimezoneDetectorFacts.
Import Js JsFacts TimezoneDetector.

Lemma insertSorted_longestFirst (x : string) (l : list string) :
  StronglySorted longerFirst l ->
  StronglySorted longerFirst (insertSorted longestFirst x l).
Proof.
  induction 1 as [|y l Hs IH Hy]; simpl.
  - repeat constructor.
  - rewrite Forall_forall in Hy.
    destruct (0 <? longestFirst x y) eqn:E.
    + apply Z.ltb_lt in E. unfold longestFirst in E.
      constructor; [exact IH|]. apply Forall_forall. intros z Hz.
      apply insertSorted_In in Hz as [->|Hz]; [unfold longerFirst; lia | now apply Hy].
    + apply Z.ltb_ge in E. unfold longestFirst in E.
      constructor; [now constructor; [|apply Forall_forall]|].
      constructor; [unfold longerFirst; lia|].
      apply Forall_forall. intros z Hz. specialize (Hy z Hz).
      unfold longerFirst in *. lia.
Qed.

Lemma sortedCodes_sorted (table : object) :
  StronglySorted longerFirst (sortedCodes table).
Proof.
  unfold sortedCodes, sort. induction (keys table) as [|x l IH]; simpl.
  - constructor.
  - now apply insertSorted_longestFirst.
Qed.

Lemma sortedCodes_In (table : object) (code : string) :
  In code (sortedCodes table) <-> In code (keys table).
Proof. apply sort_In. Qed.

Lemma clean_nonempty (s : string) : clean s <> "" -> String.eqb s "" = false.
Proof. destruct s; [intros H; now elim H | reflexivity]. Qed.

(** The code that the loop stops at: a key that prefixes the cleaned number
    and is at least as long as every other such key. *)
Lemma first_match_is_longest (table : object) (cleaned code : string) :
  find (startsWith cleaned) (sortedCodes table) = Some code ->
  In code (keys table) /\ startsWith cleaned code = true /\
  forall other, In other (keys table) -> startsWith cleaned other = true ->
                (String.length other <= String.length code)%nat.
Proof.
  intros Hfind. pose proof (find_some _ _ Hfind) as [Hin Hp].
  split; [now apply sortedCodes_In|]. split; [exact Hp|].
  intros other Ho Hpo.
  apply (find_first_is_largest String.length (startsWith cleaned)
           (sortedCodes table) code (sortedCodes_sorted table) Hfind);
    [now apply sortedCodes_In | exact Hpo].
Qed.

Lemma some_match_found (table : object) (cleaned code : string) :
  In code (keys table) -> startsWith cleaned code = true ->
  exists best, find (startsWith cleaned) (sortedCodes table) = Some best.
Proof.
  intros Hin Hp. destruct (find (startsWith cleaned) (sortedCodes table)) eqn:E; [eauto|].
  pose proof (find_none _ _ E code (proj2 (sortedCodes_In table code) Hin)). congruence.
Qed.

(** In the shipped table, the only key that extends [+1809] is [+1809]
    itself, and the only keys that extend [+1] are [+1] and [+1809]. *)
Lemma keys_extending_1809 (code : string) :
  In code (keys TIMEZONE_MAP) -> String.prefix "+1809" code = true -> code = "+1809".
Proof.
  intros Hin Hp.
  assert (forallb (fun c => implb (String.prefix "+1809" c) (String.eqb c "+1809"))
            (keys TIMEZONE_MAP) = true) as H by (vm_compute; reflexivity).
  rewrite forallb_forall in H. specialize (H code Hin). rewrite Hp in H.
  now apply String.eqb_eq.
Qed.

Lemma keys_extending_1 (code : string) :
  In code (keys TIMEZONE_MAP) -> String.prefix "+1" code = true ->
  code = "+1" \/ code = "+1809".
Proof.
  intros Hin Hp.
  assert (forallb (fun c => implb (String.prefix "+1" c)
                              (String.eqb c "+1" || String.eqb c "+1809"))
            (keys TIMEZONE_MAP) = true) as H by (vm_compute; reflexivity).
  rewrite forallb_forall in H. specialize (H code Hin). rewrite Hp in H.
  simpl in H. apply orb_true_iff in H as [H|H]; apply String.eqb_eq in H; auto.
Qed.

Lemma detectTimezone_found (dflt : option string) (table : object)
    (phoneNumber code timezone : string) :
  String.eqb phoneNumber "" = false ->
  find (startsWith (clean phoneNumber)) (sortedCodes table) = Some code ->
  getProp table code = Some timezone ->
  detectTimezone dflt table (Str phoneNumber) = timezone.
Proof.
  intros Hne Hfind Hget. unfold detectTimezone. simpl falsy.
  now rewrite Hne, Hfind, Hget.
Qed.

End TimezoneDetectorFacts.

(** C2: the cleaned number is matched against the dialing codes from the
    longest to the shortest, so among the codes that prefix it the longest
    one decides the timezone.  With the shipped table a number beginning
    [+1809] resolves to America/Santo_Domingo, and a number beginning [+1]
    but not [+1809] resolves to America/New_York. *)
Theorem detectTimezone_longest_prefix_wins :
  forall (dflt : option string) (phoneNumber : string),
    let cleaned := TimezoneDetector.clean phoneNumber in
    (forall (table : Js.object) (code : string),
        phoneNumber <> "" ->
        In code (Js.keys table) ->
        Js.startsWith cleaned code = true ->
        exists best timezone,
          In best (Js.keys table) /\
          Js.startsWith cleaned best = true /\
          (forall other, In other (Js.keys table) ->
                         Js.startsWith cleaned other = true ->
                         (String.length other <= String.length best)%nat) /\
          Js.getProp table best = Some timezone /\
          TimezoneDetector.detectTimezone dflt table (Js.Str phoneNumber) = timezone)
    /\ (Js.startsWith cleaned "+1809" = true ->
        TimezoneDetector.detectTimezone dflt TimezoneDetector.TIMEZONE_MAP
          (Js.Str phoneNumber) = "America/Santo_Domingo")
    /\ (Js.startsWith cleaned "+1" = true ->
        Js.startsWith cleaned "+1809" = false ->
        TimezoneDetector.detectTimezone dflt TimezoneDetector.TIMEZONE_MAP
          (Js.Str phoneNumber) = "America/New_York").
Proof.
  intros dflt phoneNumber cleaned.
  assert (forall table code, phoneNumber <> "" ->
            In code (Js.keys table) -> Js.startsWith cleaned code = true ->
            exists best timezone,
              (In best (Js.keys table) /\ Js.startsWith cleaned best = true /\
               forall other, In other (Js.keys table) ->
                             Js.startsWith cleaned other = true ->
                             (String.length other <= String.length best)%nat) /\
              Js.getProp table best = Some timezone /\
              TimezoneDetector.detectTimezone dflt table (Js.Str phoneNumber) = timezone)
    as General.
  { intros table code Hne Hin Hp.
    destruct (TimezoneDetectorFacts.some_match_found table cleaned code Hin Hp)
      as [best Hfind].
    pose proof (TimezoneDetectorFacts.first_match_is_longest _ _ _ Hfind) as Hbest.
    destruct (JsFacts.getProp_of_key table best (proj1 Hbest)) as [timezone Hget].
    exists best, timezone. split; [exact Hbest|]. split; [exact Hget|].
    apply (TimezoneDetectorFacts.detectTimezone_found dflt table phoneNumber best);
      [|exact Hfind|exact Hget].
    destruct phoneNumber; [now elim Hne | reflexivity]. }
  assert (forall p, Js.startsWith cleaned p = true -> p <> "" -> phoneNumber <> "")
    as Nonempty.
  { intros p Hp Hne ->. unfold cleaned in Hp. simpl in Hp.
    destruct p; [now elim Hne | discriminate]. }
  split; [|split].
  - intros table code Hne Hin Hp.
    destruct (General table code Hne Hin Hp) as (best & tz & (H1 & H2 & H3) & H4 & H5).
    exists best, tz. auto.
  - intros H1809.
    destruct (General TimezoneDetector.TIMEZONE_MAP "+1809") as
      (best & tz & (Hin & Hp & Hmax) & Hget & Hdet);
      [now apply (Nonempty "+1809") | vm_compute; tauto | exact H1809 |].
    assert (best = "+1809") as ->.
    { apply TimezoneDetectorFacts.keys_extending_1809; [exact Hin|].
      apply (JsFacts.prefix_chain _ _ cleaned H1809 Hp).
      apply Hmax; [vm_compute; tauto | exact H1809]. }
    rewrite Hdet. vm_compute in Hget. congruence.
  - intros H1 Hnot.
    destruct (General TimezoneDetector.TIMEZONE_MAP "+1") as
      (best & tz & (Hin & Hp & Hmax) & Hget & Hdet);
      [now apply (Nonempty "+1") | vm_compute; tauto | exact H1 |].
    assert (best = "+1") as ->.
    { destruct (TimezoneDetectorFacts.keys_extending_1 best Hin) as [E|E];
        [|exact E|subst best; unfold cleaned in *; congruence].
      apply (JsFacts.prefix_chain _ _ cleaned H1 Hp).
      apply Hmax; [vm_compute; tauto | exact H1]. }
    rewrite Hdet. vm_compute in Hget. congruence.
Qed.

Lemma detectTimezone_longest_prefix_wins_witness :
  TimezoneDetector.detectTimezone None TimezoneDetector.TIMEZONE_MAP
    (Js.Str "+1 (809) 555-0100") = "America/Santo_Domingo"
  /\ TimezoneDetector.detectTimezone None TimezoneDetector.TIMEZONE_MAP
       (Js.Str "+1 212-555-0100") = "America/New_York"
  /\ exists best timezone,
       Js.startsWith "+18095550100" best = true /\
       Js.getProp TimezoneDetector.TIMEZONE_MAP best = Some timezone /\
       TimezoneDetector.detectTimezone None TimezoneDetector.TIMEZONE_MAP
         (Js.Str "+1 (809) 555-0100") = timezone.
Proof.
  split; [|split].
  - apply (proj1 (proj2 (detectTimezone_longest_prefix_wins None "+1 (809) 555-0100"))).
    reflexivity.
  - apply (proj2 (proj2 (detectTimezone_longest_prefix_wins None "+1 212-555-0100")));
      reflexivity.
  - destruct (proj1 (detectTimezone_longest_prefix_wins None "+1 (809) 555-0100")
                TimezoneDetector.TIMEZONE_MAP "+1")
      as (best & tz & _ & Hp & _ & Hget & Hdet).
    + discriminate.
    + vm_compute. tauto.
    + reflexivity.
    + exists best, tz. auto.
Defined.

(** C10: an absent, null or empty phone number never reaches the prefix
    search: [detectTimezone] answers the configured default, which is
    Europe/London when [DEFAULT_TIMEZONE] is unset (or empty), and
    [getCountryCode] answers null. *)
Theorem detector_total_on_absent_input :
  forall (dflt : option string) (table : Js.object),
    let configured :=
      match dflt with
      | Some tz => if String.eqb tz "" then "Europe/London" else tz
      | None => "Europe/London"
      end in
    (TimezoneDetector.detectTimezone dflt table Js.Undefined = configured
     /\ TimezoneDetector.detectTimezone dflt table Js.Null = configured
     /\ TimezoneDetector.detectTimezone dflt table (Js.Str "") = configured)
    /\ (TimezoneDetector.detectTimezone None table Js.Undefined = "Europe/London"
        /\ TimezoneDetector.detectTimezone None table Js.Null = "Europe/London"
        /\ TimezoneDetector.detectTimezone None table (Js.Str "") = "Europe/London")
    /\ (TimezoneDetector.getCountryCode table Js.Undefined = None
        /\ TimezoneDetector.getCountryCode table Js.Null = None
        /\ TimezoneDetector.getCountryCode table (Js.Str "") = None).
Proof.
  intros dflt table configured. repeat split; reflexivity.
Qed.
(** ** Wall-clock arithmetic *)

Module LuxonFacts.
Import Js Luxon CalendarSpec.

Lemma inRange_iff (t : Z) : inRange t = true <-> - maxTime <= t <= maxTime.
Proof. unfold inRange. rewrite andb_true_iff, !Z.leb_le. tauto. Qed.

Lemma ordinary_inRange (t : Z) : ordinary t -> inRange t = true.
Proof. unfold ordinary. rewrite inRange_iff. unfold maxTime. lia. Qed.

Lemma timeClip_inRange (t : Z) : inRange t = true -> timeClip t = Date t.
Proof. unfold timeClip. now intros ->. Qed.

Lemma offsetAt_Some (z : Zone) (t o : Z) : offsetAt z t = Some o -> o = offset z t.
Proof.
  destruct z as [f|m]; simpl.
  - destruct (inRange t); [congruence | discriminate].
  - congruence.
Qed.

Lemma offsetAt_inRange (z : Zone) (t : Z) :
  inRange t = true -> offsetAt z t = Some (offset z t).
Proof. destruct z as [f|m]; simpl; [now intros ->|reflexivity]. Qed.

(** ** Which [DateTime]s are valid *)

Lemma make_Valid (t : Z) (z : Zone) :
  inRange t = true -> inRange (localTS z t) = true -> make t z = Valid t z.
Proof.
  intros Ht Hl. unfold make. rewrite (offsetAt_inRange z t Ht).
  unfold localTS in Hl. now rewrite Hl.
Qed.

Lemma make_inv (t t' : Z) (z z' : Zone) :
  make t z = Valid t' z' ->
  t' = t /\ z' = z /\ offsetAt z t = Some (offset z t)
  /\ inRange (localTS z t) = true.
Proof.
  unfold make. destruct (offsetAt z t) as [o|] eqn:E; [|discriminate].
  pose proof (offsetAt_Some z t o E) as ->.
  unfold localTS. destruct (inRange _) eqn:R; [|discriminate].
  intros H. injection H as <- <-. auto.
Qed.

Lemma make_cases (t : Z) (z : Zone) : make t z = Valid t z \/ make t z = Invalid.
Proof.
  unfold make. destruct (offsetAt z t); [|now right].
  destruct (inRange _); [now left | now right].
Qed.

Lemma fromJSDate_inv (d : date) (zone : option Zone) (t : Z) (z : Zone) :
  fromJSDate d zone = Valid t z ->
  d = Date t /\ zone = Some z /\ inRange t = true
  /\ offsetAt z t = Some (offset z t) /\ inRange (localTS z t) = true.
Proof.
  unfold fromJSDate. destruct d as [|t0]; [discriminate|].
  destruct zone as [z0|]; [|discriminate].
  destruct (inRange t0) eqn:R; [|discriminate].
  intros H. apply make_inv in H as (-> & -> & Ho & Hl). auto.
Qed.

Lemma fromJSDate_cases (d : date) (zone : option Zone) :
  fromJSDate d zone = Invalid
  \/ exists t z, d = Date t /\ zone = Some z /\ fromJSDate d zone = Valid t z.
Proof.
  unfold fromJSDate. destruct d as [|t]; [now left|].
  destruct zone as [z|]; [|now left].
  destruct (inRange t); [|now left].
  destruct (make_cases t z) as [E|E]; rewrite E; [right; eauto | now left].
Qed.

(** A [DateTime] that came out of a [Date] goes back to that [Date]. *)
Lemma toJSDate_fromJSDate (d : date) (zone : option Zone) (t : Z) (z : Zone) :
  fromJSDate d zone = Valid t z -> toJSDate (fromJSDate d zone) = d.
Proof.
  intros H. rewrite H. apply fromJSDate_inv in H as (-> & _ & R & _).
  simpl. now apply timeClip_inRange.
Qed.

Lemma fromJSDate_ordinary (t : Z) (zone : option Zone) (z : Zone) :
  zone = Some z -> plausible z -> ordinary t ->
  fromJSDate (Date t) zone = Valid t z.
Proof.
  intros -> Hz Ht. unfold fromJSDate. rewrite (ordinary_inRange t Ht).
  apply make_Valid; [now apply ordinary_inRange|].
  apply inRange_iff. unfold localTS, ordinary, maxTime in *.
  specialize (Hz t). lia.
Qed.

(** ** [fixOffset] *)

Lemma fixOffset_settled (l o : Z) (tz : Zone) :
  offsetAt tz (l - o * 60000) = Some o -> fixOffset l o tz = Some (l - o * 60000).
Proof. intros H. unfold fixOffset. now rewrite H, Z.eqb_refl. Qed.

(** Whatever the zone does, the instant found is the local time minus one
    of three offsets: the guess, the offset in force at the first guess, or
    the offset in force at the second. *)
Lemma fixOffset_result (l o y : Z) (tz : Zone) :
  fixOffset l o tz = Some y ->
  let g1 := l - o * 60000 in
  let g2 := l - offset tz g1 * 60000 in
  (y = g1 /\ offset tz g1 = o)
  \/ (y = g2 /\ offset tz g1 <> o /\ offset tz g2 = offset tz g1)
  \/ (y = l - Z.min (offset tz g1) (offset tz g2) * 60000
      /\ offset tz g1 <> o /\ offset tz g2 <> offset tz g1).
Proof.
  unfold fixOffset. intros H. cbv zeta.
  destruct (offsetAt tz (l - o * 60000)) as [o2|] eqn:E1; [|discriminate].
  pose proof (offsetAt_Some _ _ _ E1) as ->.
  destruct (Z.eqb_spec o (offset tz (l - o * 60000))) as [Eo|No].
  - left. injection H as <-. auto.
  - right.
    replace (l - o * 60000 - (offset tz (l - o * 60000) - o) * 60000)
      with (l - offset tz (l - o * 60000) * 60000) in H by ring.
    destruct (offsetAt tz (l - offset tz (l - o * 60000) * 60000)) as [o3|] eqn:E2;
      [|discriminate].
    pose proof (offsetAt_Some _ _ _ E2) as ->.
    destruct (Z.eqb_spec (offset tz (l - o * 60000))
                (offset tz (l - offset tz (l - o * 60000) * 60000))) as [E3|N3].
    + left. injection H as <-. auto.
    + right. injection H as <-. auto.
Qed.

(** Where both guesses are dates, [fixOffset] finds an instant. *)
Lemma fixOffset_Some (l o : Z) (tz : Zone) :
  inRange (l - o * 60000) = true ->
  inRange (l - offset tz (l - o * 60000) * 60000) = true ->
  exists y, fixOffset l o tz = Some y.
Proof.
  intros R1 R2. unfold fixOffset. rewrite (offsetAt_inRange _ _ R1).
  destruct (o =? _); [eauto|].
  replace (l - o * 60000 - (offset tz (l - o * 60000) - o) * 60000)
    with (l - offset tz (l - o * 60000) * 60000) by ring.
  rewrite (offsetAt_inRange _ _ R2). destruct (_ =? _); eauto.
Qed.

(** With numbers for the fields, [set] does not throw. *)
Lemma setTime_numeric (dt : DateTime) (h m s : Z) :
  setTime dt (Num h) (Num m) s = Returned (set dt h m s).
Proof. destruct dt; reflexivity. Qed.

Lemma weekdayOf_range (z : Zone) (t : Z) : 1 <= weekdayOf z t <= 7.
Proof.
  unfold weekdayOf.
  pose proof (Z.mod_pos_bound (localTS z t / msPerDay + 4) 7 ltac:(lia)).
  destruct (_ =? 0) eqn:E; [lia|]. apply Z.eqb_neq in E. lia.
Qed.

(** Comparing an instant with a settled same-day boundary is comparing the
    time of day with the boundary's time of day. *)
Lemma sameDayInstant_le (z : Zone) (t hour minute : Z) :
  sameDayInstant z t hour minute <= t <->
  hour * 3600000 + minute * 60000 <= timeOfDay z t.
Proof.
  unfold sameDayInstant, timeOfDay, msPerDay.
  set (l := localTS z t).
  assert (t = l - offset z t * 60000) as E by (unfold l, localTS; ring).
  clearbody l. Z.div_mod_to_equations. lia.
Qed.

Lemma sameDayInstant_gt (z : Zone) (t hour minute : Z) :
  t < sameDayInstant z t hour minute <->
  timeOfDay z t < hour * 3600000 + minute * 60000.
Proof. pose proof (sameDayInstant_le z t hour minute). lia. Qed.

End LuxonFacts.
(** ** The calling-hours validator *)

Module ValidatorFacts.
Import Js Luxon LuxonFacts CalendarSpec CallingHoursValidator.

Lemma includes_In (days : list num) (d : Z) :
  includes days (Num d) = true <-> In (Num d) days.
Proof.
  unfold includes. rewrite existsb_exists. split.
  - intros (x & Hin & Hx). destruct x as [|z]; [discriminate|].
    apply Z.eqb_eq in Hx. now subst.
  - intros Hin. exists (Num d). split; [exact Hin | apply Z.eqb_refl].
Qed.

Lemma numeric_fields (v : t) :
  numeric v = true ->
  exists sh sm eh em,
    startHour v = Num sh /\ startMinute v = Num sm /\
    endHour v = Num eh /\ endMinute v = Num em.
Proof.
  unfold numeric.
  destruct (startHour v) as [|sh], (startMinute v) as [|sm],
           (endHour v) as [|eh], (endMinute v) as [|em]; try discriminate.
  intros _. exists sh, sm, eh, em. auto.
Qed.

(** ** Invalid dates and unknown zones *)

Section Invalid.
Variable zones : string -> option Zone.
Variable this : t.

Lemma advance_Invalid (n : nat) : advance this Invalid n = Invalid.
Proof. induction n as [|n IH]; simpl; [reflexivity|]. now destruct (negb _). Qed.

(** Nothing is within calling hours at an invalid date or in a zone that
    luxon does not know; no field of the validator is looked at. *)
Lemma isWithinCallingHours_Invalid (d : date) (timezone : string) :
  fromJSDate d (zones timezone) = Invalid ->
  isWithinCallingHours zones this d timezone = Returned false.
Proof.
  intros H. unfold isWithinCallingHours. rewrite H.
  destruct (negb _); reflexivity.
Qed.

Lemma fromJSDate_InvalidDate (zone : option Zone) : fromJSDate InvalidDate zone = Invalid.
Proof. reflexivity. Qed.

(** ... and the next valid calling time is then the invalid date. *)
Lemma getNextValidCallingTime_Invalid (d : date) (timezone : string) :
  fromJSDate d (zones timezone) = Invalid ->
  getNextValidCallingTime zones this d timezone = Returned InvalidDate.
Proof.
  intros H. unfold getNextValidCallingTime. rewrite H. cbn [toJSDate].
  rewrite (isWithinCallingHours_Invalid InvalidDate timezone eq_refl).
  cbn [bind setTime lt andb plus]. now rewrite advance_Invalid.
Qed.

(** The validator asks about the date it was given. *)
Lemma getNextValidCallingTime_asks (d : date) (timezone : string) :
  isWithinCallingHours zones this
    (toJSDate (fromJSDate d (zones timezone))) timezone
  = isWithinCallingHours zones this d timezone.
Proof.
  destruct (fromJSDate_cases d (zones timezone)) as [E | (t0 & z & _ & _ & E)].
  - rewrite E. cbn [toJSDate].
    now rewrite (isWithinCallingHours_Invalid InvalidDate timezone eq_refl),
                (isWithinCallingHours_Invalid d timezone E).
  - now rewrite (toJSDate_fromJSDate d _ t0 z E).
Qed.

Lemma isWithinCallingHours_true (d : date) (timezone : string) :
  isWithinCallingHours zones this d timezone = Returned true ->
  exists t0 z, d = Date t0 /\ zones timezone = Some z
               /\ fromJSDate d (zones timezone) = Valid t0 z.
Proof.
  intros H.
  destruct (fromJSDate_cases d (zones timezone)) as [E | (t0 & z & Hd & Hz & E)].
  - rewrite (isWithinCallingHours_Invalid d timezone E) in H. discriminate.
  - eauto.
Qed.
End Invalid.

Section Total.
Variable zones : string -> option Zone.
Variable this : t.
Hypothesis Hnum : numeric this = true.

Lemma setTime_returns (dt : DateTime) (hour minute : num) :
  (exists h, hour = Num h) -> (exists m, minute = Num m) ->
  exists dt', setTime dt hour minute 0 = Returned dt'.
Proof.
  intros [h ->] [m ->]. destruct dt; simpl; eauto.
Qed.

(** With numbers in every time field no call into luxon throws. *)
Lemma isWithinCallingHours_returns (dateTime : date) (timezone : string) :
  exists b, isWithinCallingHours zones this dateTime timezone = Returned b.
Proof.
  destruct (numeric_fields this Hnum) as (sh & sm & eh & em & E1 & E2 & E3 & E4).
  unfold isWithinCallingHours. rewrite E1, E2, E3, E4.
  destruct (negb _); [eauto|].
  destruct (fromJSDate _ _); simpl; eauto.
Qed.

Lemma getNextValidCallingTime_returns (fromDateTime : date) (timezone : string) :
  exists d, getNextValidCallingTime zones this fromDateTime timezone = Returned d.
Proof.
  destruct (numeric_fields this Hnum) as (sh & sm & eh & em & E1 & E2 & E3 & E4).
  unfold getNextValidCallingTime.
  destruct (isWithinCallingHours_returns
              (toJSDate (fromJSDate fromDateTime (zones timezone))) timezone)
    as [b ->].
  cbn [bind]. destruct b; [eauto|].
  rewrite E1, E2.
  destruct (setTime_returns (fromJSDate fromDateTime (zones timezone))
              (Num sh) (Num sm)) as [d1 ->]; eauto.
  cbn [bind]. destruct (_ && _)%bool; [eauto|].
  destruct (setTime_returns (plus (fromJSDate fromDateTime (zones timezone)) 1 0)
              (Num sh) (Num sm)) as [d2 ->]; eauto.
  cbn [bind]. eauto.
Qed.

Lemma calculateDelayWithinHours_returns (clock : Z) (delayMinutes : option Z)
    (timezone : string) :
  exists d, calculateDelayWithinHours zones this clock delayMinutes timezone = Returned d.
Proof.
  unfold calculateDelayWithinHours.
  match goal with
  | |- context [isWithinCallingHours zones this ?d timezone] =>
      destruct (isWithinCallingHours_returns d timezone) as [b ->];
      cbn [bind]; destruct b; [eauto|];
      destruct (getNextValidCallingTime_returns d timezone) as [t' ->]
  end.
  cbn [bind]. eauto.
Qed.
End Total.

End ValidatorFacts.

(** ** The boundaries of the window *)

Module BoundaryFacts.
Import Js Luxon LuxonFacts CalendarSpec CallingHoursValidator ValidatorFacts.

(** What [set] gives at a settled boundary, when it gives a [DateTime] at
    all. *)
Lemma set_settled (z : Zone) (t hour minute : Z) :
  settledAt (Valid t z) hour minute ->
  set (Valid t z) hour minute 0 = Invalid
  \/ set (Valid t z) hour minute 0 = Valid (sameDayInstant z t hour minute) z.
Proof.
  cbn [settledAt]. intros Hs. unfold set, resolve.
  destruct (inRange _); [|now left].
  unfold fixOffset.
  match goal with
  | |- context [offsetAt z ?g] =>
      replace g with (sameDayInstant z t hour minute)
        by (unfold sameDayInstant; ring)
  end.
  destruct (offsetAt z (sameDayInstant z t hour minute)) as [o2|] eqn:E; [|now left].
  apply offsetAt_Some in E. subst o2. rewrite Hs, Z.eqb_refl.
  match goal with
  | |- context [make ?y z] =>
      replace y with (sameDayInstant z t hour minute)
        by (unfold sameDayInstant; ring)
  end.
  destruct (make_cases (sameDayInstant z t hour minute) z) as [-> | ->]; auto.
Qed.

Section Sane.
Variable z : Zone.
Variable t : Z.
Hypothesis Hz : plausible z.
Hypothesis Ht : ordinary t.

(** Within a day, whatever the clocks do, [set] gives a valid [DateTime]:
    the local time of the boundary minus one of the offsets in force
    near [t]. *)
Lemma set_withinDay (hour minute : Z) :
  withinDay hour minute ->
  exists y x,
    set (Valid t z) hour minute 0 = Valid y z
    /\ near t x
    /\ y = sameDayInstant z t hour minute + (offset z t - offset z x) * 60000.
Proof.
  intros Hb. unfold withinDay in Hb.
  unfold set, resolve.
  set (l := localTS z t).
  set (l' := l - l mod msPerDay + hour * 3600000 + minute * 60000 + 0 * 1000
             + l mod 1000).
  pose proof (Hz t) as Ho.
  pose proof (Z.mod_pos_bound l msPerDay ltac:(unfold msPerDay; lia)) as Hd.
  pose proof (Z.mod_pos_bound l 1000 ltac:(lia)) as Hms.
  assert (l = t + offset z t * 60000) as El by reflexivity.
  unfold ordinary in Ht. unfold msPerDay in *.
  assert (t - 2 * 86400000 < l' - offset z t * 60000 <= t + 86400000 + 1000) as Hg1
    by (unfold l'; lia).
  assert (inRange l' = true) as R by (apply inRange_iff; unfold maxTime, l'; lia).
  rewrite R.
  set (g1 := l' - offset z t * 60000) in *.
  pose proof (Hz g1) as Ho1.
  set (g2 := l' - offset z g1 * 60000).
  pose proof (Hz g2) as Ho2.
  assert (inRange g1 = true) as R1 by (apply inRange_iff; unfold maxTime; lia).
  assert (inRange g2 = true) as R2
    by (apply inRange_iff; unfold maxTime, g2; lia).
  destruct (fixOffset_Some l' (offset z t) z R1 R2) as [y Hy].
  rewrite Hy. rewrite Z.add_0_r.
  assert (exists x, near t x /\ y = l' - offset z x * 60000) as (x & Hx & Ey).
  { destruct (fixOffset_result _ _ _ _ Hy) as [[E _]|[[E _]|[E _]]]; fold g1 g2 in E.
    - exists t. split; [unfold near, msPerDay; lia | exact E].
    - exists g1. split; [unfold near, msPerDay; lia | exact E].
    - destruct (Z.min_spec (offset z g1) (offset z g2)) as [[_ Em]|[_ Em]];
        rewrite Em in E; [exists g1 | exists g2];
        (split; [unfold near, msPerDay, g2; lia | exact E]). }
  exists y, x. split; [|split; [exact Hx|]].
  - pose proof (Hz x) as Hox. pose proof (Hz y) as Hoy.
    apply make_Valid; apply inRange_iff; unfold maxTime, localTS; lia.
  - rewrite Ey. unfold sameDayInstant. fold l. unfold l', msPerDay. ring.
Qed.

(** At a boundary that is clear of the clock changes, the instant that
    [set] finds compares with [t] as the wall-clock times do. *)
Lemma set_clear (dm hour minute : Z) :
  withinDay hour minute ->
  spreadNear z t dm ->
  clearOf z t dm hour minute ->
  exists y,
    set (Valid t z) hour minute 0 = Valid y z
    /\ (y <= t <-> hour * 3600000 + minute * 60000 <= timeOfDay z t).
Proof.
  intros Hb Hspread Hclear.
  destruct (set_withinDay hour minute Hb) as (y & x & Hset & Hx & Ey).
  exists y. split; [exact Hset|].
  destruct Hclear as [Hs | Hfar].
  - destruct (set_settled z t hour minute Hs) as [E|E]; rewrite E in Hset;
      [discriminate|].
    injection Hset as <-. apply sameDayInstant_le.
  - assert (near t t) as Htt by (unfold near, msPerDay; lia).
    pose proof (Hspread x t Hx Htt) as H1.
    pose proof (Hspread t x Htt Hx) as H2.
    pose proof (sameDayInstant_le z t hour minute) as Hle.
    unfold minuteOfDay in Hfar.
    assert (sameDayInstant z t hour minute - t
            = hour * 3600000 + minute * 60000 + localTS z t mod 1000
              - timeOfDay z t) as Ed.
    { unfold sameDayInstant, timeOfDay, localTS. ring. }
    unfold timeOfDay, msPerDay in *.
    generalize dependent (localTS z t). intros l Ed Hle Hfar.
    subst y. Z.div_mod_to_equations. lia.
Qed.
End Sane.

End BoundaryFacts.

(** ** A zone whose clocks change at most once *)

Module OneChangeFacts.
Import Js Luxon LuxonFacts CalendarSpec CallingHoursValidator ValidatorFacts.

Section OneChange.
Variable z : Zone.
Variables t change before after : Z.
Hypothesis Hz : plausible z.
Hypothesis Ht : ordinary t.
Hypothesis Hwin :
  changesOnce z (t - 4 * msPerDay) (t + 32 * msPerDay) change before after.

(** The instant that luxon finds for a local time [l] later than the
    wall clock at [t], guessing with the offset of an instant [x0] no
    earlier than [t]: it lies after [t], and its wall clock shows [l] or,
    where [l] is skipped, a later time. *)
Lemma resolve_later (l x0 : Z) :
  t <= x0 <= t + 29 * msPerDay ->
  localTS z t < l <= localTS z t + 28 * msPerDay ->
  exists y,
    resolve l (offset z x0) z 0 = Valid y z
    /\ t < y
    /\ l <= localTS z y <= l + 2 * msPerDay.
Proof.
  intros Hx0 Hl. unfold resolve, localTS in *. unfold msPerDay in *.
  unfold ordinary in Ht.
  pose proof (Hz t) as Bt.
  pose proof (Hwin t ltac:(unfold msPerDay; lia)) as Pt.
  pose proof (Hz x0) as Bx0.
  pose proof (Hwin x0 ltac:(unfold msPerDay; lia)) as Px0.
  remember (offset z t) as ot eqn:Eot.
  remember (offset z x0) as ox eqn:Eox.
  pose proof (Hz (l - ox * 60000)) as B1.
  pose proof (Hwin (l - ox * 60000) ltac:(unfold msPerDay; lia)) as P1.
  remember (offset z (l - ox * 60000)) as o1 eqn:Eo1.
  pose proof (Hz (l - o1 * 60000)) as B2.
  pose proof (Hwin (l - o1 * 60000) ltac:(unfold msPerDay; lia)) as P2.
  remember (offset z (l - o1 * 60000)) as o2 eqn:Eo2.
  assert (inRange l = true) as R by (apply inRange_iff; unfold maxTime; lia).
  assert (inRange (l - ox * 60000) = true) as R1
    by (apply inRange_iff; unfold maxTime; lia).
  assert (inRange (l - o1 * 60000) = true) as R2
    by (apply inRange_iff; unfold maxTime; lia).
  rewrite R.
  destruct (fixOffset_Some l ox z R1 ltac:(now rewrite <- Eo1)) as [y Hy].
  rewrite Hy, Z.add_0_r. exists y.
  apply fixOffset_result in Hy. cbv zeta in Hy. rewrite <- Eo1, <- Eo2 in Hy.
  assert (t - 4 * 86400000 <= y <= t + 32 * 86400000) as Wy.
  { destruct Hy as [[E _]|[[E _]|[E _]]]; [lia | lia |].
    destruct (Z.min_spec o1 o2) as [[_ Em]|[_ Em]]; rewrite Em in E; lia. }
  pose proof (Hz y) as By.
  pose proof (Hwin y ltac:(unfold msPerDay; lia)) as Py.
  remember (offset z y) as oy eqn:Eoy.
  assert (t < y /\ l <= y + oy * 60000 <= l + 2 * 86400000) as [Hty Hloc].
  { clear Eot Eox Eo1 Eo2 Eoy R R1 R2 Hwin Hz.
    destruct (Z.ltb_spec t change), (Z.ltb_spec x0 change),
             (Z.ltb_spec y change), (Z.ltb_spec (l - ox * 60000) change),
             (Z.ltb_spec (l - o1 * 60000) change);
      subst ot ox o1 o2 oy; lia. }
  split; [|split; [exact Hty | exact Hloc]].
  apply make_Valid; apply inRange_iff; unfold maxTime, localTS;
    rewrite <- ?Eoy; lia.
Qed.

Lemma later_bounds (y k : Z) :
  0 <= k ->
  localTS z t - msPerDay < localTS z y <= localTS z t + k * msPerDay ->
  t - 3 * msPerDay <= y <= t + (k + 2) * msPerDay.
Proof.
  intros Hk H. unfold localTS, msPerDay in *.
  pose proof (Hz t). pose proof (Hz y). lia.
Qed.

(** One more local day, from an instant no earlier than [t]. *)
Lemma plus_day_later (y : Z) :
  t <= y ->
  localTS z t <= localTS z y <= localTS z t + 27 * msPerDay ->
  exists y',
    plus (Valid y z) 1 0 = Valid y' z
    /\ t < y'
    /\ localTS z y + msPerDay <= localTS z y' <= localTS z y + 3 * msPerDay.
Proof.
  intros Hy Hl. cbn [plus]. change (0 * 60000) with 0.
  pose proof (later_bounds y 27 ltac:(lia) ltac:(unfold msPerDay in *; lia)) as Hb.
  destruct (resolve_later (localTS z y + 1 * msPerDay) y) as (y' & E & H1 & H2).
  - unfold msPerDay in *. lia.
  - unfold msPerDay in *. lia.
  - exists y'. split; [exact E|]. split; [exact H1|]. unfold msPerDay in *. lia.
Qed.

(** The start time on the local day of an instant whose wall clock is at
    least a day ahead of the wall clock at [t]. *)
Lemma set_later (y hour minute : Z) :
  t <= y ->
  localTS z t + msPerDay <= localTS z y <= localTS z t + 27 * msPerDay ->
  0 <= hour < 24 -> 0 <= minute < 60 ->
  exists y',
    set (Valid y z) hour minute 0 = Valid y' z
    /\ t < y'
    /\ localTS z t < localTS z y' <= localTS z y + 3 * msPerDay.
Proof.
  intros Hy Hl Hh Hm. cbn [set].
  pose proof (later_bounds y 27 ltac:(lia) ltac:(unfold msPerDay in *; lia)) as Hb.
  pose proof (Z.mod_pos_bound (localTS z y) msPerDay ltac:(unfold msPerDay; lia)).
  pose proof (Z.mod_pos_bound (localTS z y) 1000 ltac:(lia)).
  pose proof (Z.mod_pos_bound (localTS z t) msPerDay ltac:(unfold msPerDay; lia)).
  assert (localTS z t < localTS z y - localTS z y mod msPerDay) as Hday.
  { unfold msPerDay in *. lia. }
  match goal with
  | |- context [resolve ?l _ _ _] =>
      destruct (resolve_later l y) as (y' & E & H2 & H3)
  end.
  - unfold msPerDay in *. lia.
  - unfold msPerDay in *. lia.
  - exists y'. split; [exact E|]. split; [exact H2|]. unfold msPerDay in *. lia.
Qed.

(** The search for a business day keeps moving forward. *)
Lemma advance_later (this : CallingHoursValidator.t) (n : nat) (y : Z) :
  t < y ->
  localTS z t < localTS z y <= localTS z t + (27 - 3 * Z.of_nat n) * msPerDay ->
  exists y',
    advance this (Valid y z) n = Valid y' z
    /\ t < y'
    /\ localTS z t < localTS z y' <= localTS z t + 27 * msPerDay.
Proof.
  revert y. induction n as [|n IH]; intros y Hy Hl.
  - exists y. split; [reflexivity|]. split; [exact Hy|]. unfold msPerDay in *. lia.
  - cbn [advance]. destruct (negb _).
    + destruct (plus_day_later y) as (y1 & -> & H1 & H2).
      * lia.
      * unfold msPerDay in *. lia.
      * apply IH; [exact H1|]. unfold msPerDay in *. lia.
    + exists y. split; [reflexivity|]. split; [exact Hy|]. unfold msPerDay in *. lia.
Qed.

(** From a date that is not within calling hours, the days that follow:
    the start time on the next local day, then the search. *)
Lemma next_day_later (this : CallingHoursValidator.t) (hour minute : Z) :
  0 <= hour < 24 -> 0 <= minute < 60 ->
  exists y,
    advance this (set (plus (Valid t z) 1 0) hour minute 0) 7 = Valid y z
    /\ t < y /\ inRange y = true.
Proof.
  intros Hh Hm.
  destruct (plus_day_later t) as (y1 & -> & H1 & H2);
    [lia | unfold msPerDay; lia |].
  destruct (set_later y1 hour minute) as (y2 & -> & H3 & H4);
    [lia | unfold msPerDay in *; lia | exact Hh | exact Hm |].
  destruct (advance_later this 7 y2) as (y3 & -> & H5 & H6);
    [exact H3 | unfold msPerDay in *; lia |].
  exists y3. split; [reflexivity|]. split; [exact H5|].
  pose proof (later_bounds y3 27 ltac:(lia) ltac:(unfold msPerDay in *; lia)).
  apply inRange_iff. unfold maxTime, msPerDay, ordinary in *. lia.
Qed.

End OneChange.

End OneChangeFacts.

(** ** Dates that stay dates *)

Module ValidityFacts.
Import Js Luxon LuxonFacts CalendarSpec CallingHoursValidator ValidatorFacts.

(** Adding minutes moves the instant by exactly that much. *)
Lemma plus_minutes (d : date) (zone : option Zone) (t : Z) (z : Zone) (minutes : Z) :
  fromJSDate d zone = Valid t z ->
  plus (Valid t z) 0 minutes = make (t + minutes * 60000) z.
Proof.
  intros H. apply fromJSDate_inv in H as (_ & _ & _ & Ho & Hl).
  cbn [plus]. unfold resolve. rewrite Z.mul_0_l, Z.add_0_r, Hl.
  assert (localTS z t - offset z t * 60000 = t) as E by (unfold localTS; ring).
  rewrite fixOffset_settled; rewrite E; [reflexivity | exact Ho].
Qed.

Section Room.
Variable z : Zone.
Hypothesis Hz : plausible z.

(** Well inside the range of dates every local time resolves to a valid
    [DateTime], within two days of the local time read as UTC. *)
Lemma resolve_Valid (l x : Z) :
  - 84 * 10 ^ 14 <= l <= 84 * 10 ^ 14 ->
  exists y,
    resolve l (offset z x) z 0 = Valid y z
    /\ l - msPerDay <= y <= l + msPerDay
    /\ l - 2 * msPerDay <= localTS z y <= l + 2 * msPerDay.
Proof.
  intros Hl. unfold resolve, msPerDay.
  pose proof (Hz x) as Bx.
  pose proof (Hz (l - offset z x * 60000)) as B1.
  pose proof (Hz (l - offset z (l - offset z x * 60000) * 60000)) as B2.
  assert (inRange l = true) as R by (apply inRange_iff; unfold maxTime; lia).
  assert (inRange (l - offset z x * 60000) = true) as R1
    by (apply inRange_iff; unfold maxTime; lia).
  assert (inRange (l - offset z (l - offset z x * 60000) * 60000) = true) as R2
    by (apply inRange_iff; unfold maxTime; lia).
  rewrite R. destruct (fixOffset_Some l (offset z x) z R1 R2) as [y Hy].
  rewrite Hy, Z.add_0_r. exists y.
  assert (l - 86400000 <= y <= l + 86400000) as Hb.
  { destruct (fixOffset_result _ _ _ _ Hy) as [[E _]|[[E _]|[E _]]]; [lia | lia |].
    match type of E with
    | context [Z.min ?a ?b] =>
        destruct (Z.min_spec a b) as [[_ Em]|[_ Em]]; rewrite Em in E; lia
    end. }
  pose proof (Hz y) as By.
  split; [|split; [exact Hb | unfold localTS; lia]].
  apply make_Valid; apply inRange_iff; unfold maxTime, localTS; lia.
Qed.

Lemma set_Valid (t hour minute : Z) :
  - 83 * 10 ^ 14 <= t <= 83 * 10 ^ 14 ->
  0 <= hour < 24 -> 0 <= minute < 60 ->
  exists y,
    set (Valid t z) hour minute 0 = Valid y z
    /\ t - 3 * msPerDay <= y <= t + 3 * msPerDay.
Proof.
  intros Ht Hh Hm. cbn [set].
  pose proof (Hz t).
  pose proof (Z.mod_pos_bound (localTS z t) msPerDay ltac:(unfold msPerDay; lia)).
  pose proof (Z.mod_pos_bound (localTS z t) 1000 ltac:(lia)).
  match goal with
  | |- context [resolve ?l _ _ _] =>
      destruct (resolve_Valid l t) as (y & E & H2 & _)
  end.
  - unfold localTS, msPerDay in *. lia.
  - exists y. split; [exact E|]. unfold localTS, msPerDay in *. lia.
Qed.

Lemma plus_day_Valid (t : Z) :
  - 83 * 10 ^ 14 <= t <= 83 * 10 ^ 14 ->
  exists y,
    plus (Valid t z) 1 0 = Valid y z
    /\ t - 3 * msPerDay <= y <= t + 3 * msPerDay.
Proof.
  intros Ht. cbn [plus]. change (0 * 60000) with 0.
  pose proof (Hz t).
  destruct (resolve_Valid (localTS z t + 1 * msPerDay) t) as (y & E & H2 & _).
  - unfold localTS, msPerDay in *. lia.
  - exists y. split; [exact E|]. unfold localTS, msPerDay in *. lia.
Qed.

Lemma advance_Valid (this : CallingHoursValidator.t) (n : nat) (t : Z) :
  - 83 * 10 ^ 14 + 3 * Z.of_nat n * msPerDay <= t
    <= 83 * 10 ^ 14 - 3 * Z.of_nat n * msPerDay ->
  exists y,
    advance this (Valid t z) n = Valid y z
    /\ t - 3 * Z.of_nat n * msPerDay <= y <= t + 3 * Z.of_nat n * msPerDay.
Proof.
  revert t. induction n as [|n IH]; intros t Ht.
  - exists t. split; [reflexivity | lia].
  - cbn [advance]. destruct (negb _).
    + destruct (plus_day_Valid t) as (y1 & -> & H1);
        [unfold msPerDay in *; lia|].
      destruct (IH y1) as (y2 & E & H2); [unfold msPerDay in *; lia|].
      exists y2. split; [exact E|]. unfold msPerDay in *. lia.
    + exists t. split; [reflexivity|]. unfold msPerDay in *. lia.
Qed.
End Room.

(** With a zone that luxon knows, a start time that is a time of day and
    numbers for the end time, the next valid calling time of a date well
    inside the range of dates is a date. *)
Lemma getNextValidCallingTime_Date (zones : string -> option Zone)
    (days : list num) (sh sm eh em t : Z) (timezone : string) (z : Zone) :
  zones timezone = Some z -> plausible z ->
  - 8 * 10 ^ 15 - msPerDay <= t <= 8 * 10 ^ 15 + msPerDay ->
  0 <= sh < 24 -> 0 <= sm < 60 ->
  exists next,
    getNextValidCallingTime zones (FixedZoneSpec.validator sh sm eh em days)
      (Date t) timezone = Returned (Date next).
Proof.
  intros Hzone Hz Ht Hsh Hsm.
  destruct (isWithinCallingHours_returns zones
              (FixedZoneSpec.validator sh sm eh em days) eq_refl (Date t) timezone)
    as [b Hb].
  unfold getNextValidCallingTime.
  rewrite getNextValidCallingTime_asks, Hb. cbn [bind].
  assert (fromJSDate (Date t) (zones timezone) = Valid t z) as Edt.
  { rewrite Hzone. unfold fromJSDate.
    replace (inRange t) with true
      by (symmetry; apply inRange_iff; unfold maxTime, msPerDay in *; lia).
    pose proof (Hz t).
    apply make_Valid; apply inRange_iff; unfold maxTime, localTS, msPerDay in *; lia. }
  rewrite Edt.
  assert (forall y, - 84 * 10 ^ 14 <= y <= 84 * 10 ^ 14 -> timeClip y = Date y) as Hclip.
  { intros y Hy. apply timeClip_inRange, inRange_iff. unfold maxTime. lia. }
  destruct b.
  - exists t. cbn [toJSDate]. rewrite Hclip; [reflexivity|]. unfold msPerDay in *. lia.
  - cbn [startHour startMinute FixedZoneSpec.validator].
    rewrite !setTime_numeric. cbn [bind].
    destruct (_ && _)%bool.
    + destruct (set_Valid z Hz t sh sm) as (y & -> & Hy);
        [unfold msPerDay in *; lia | exact Hsh | exact Hsm |].
      exists y. cbn [toJSDate]. rewrite Hclip; [reflexivity|].
      unfold msPerDay in *. lia.
    + destruct (plus_day_Valid z Hz t) as (y1 & -> & H1);
        [unfold msPerDay in *; lia|].
      destruct (set_Valid z Hz y1 sh sm) as (y2 & -> & H2);
        [unfold msPerDay in *; lia | exact Hsh | exact Hsm |].
      destruct (advance_Valid z Hz (FixedZoneSpec.validator sh sm eh em days) 7 y2)
        as (y3 & -> & H3); [unfold msPerDay in *; lia|].
      exists y3. cbn [toJSDate]. rewrite Hclip; [reflexivity|].
      unfold msPerDay in *. lia.
Qed.

End ValidityFacts.

(** ** The answer is not earlier than the question *)

Module MonotoneFacts.
Import Js Luxon LuxonFacts CalendarSpec CallingHoursValidator ValidatorFacts.

Lemma changesOnce_within (z : Zone) (lo hi lo' hi' change before after : Z) :
  lo <= lo' -> hi' <= hi ->
  changesOnce z lo hi change before after ->
  changesOnce z lo' hi' change before after.
Proof. intros Hlo Hhi H x Hx. apply H. lia. Qed.

(** With a zone that luxon knows and whose clocks change at most once
    around the date, and a start time that is a time of day, the next valid
    calling time is a date, and not an earlier one. *)
Lemma next_valid_later (zones : string -> option Zone) (days : list num)
    (sh sm eh em t : Z) (timezone : string) (z : Zone) (change before after : Z) :
  zones timezone = Some z ->
  plausible z ->
  ordinary t ->
  changesOnce z (t - 4 * msPerDay) (t + 32 * msPerDay) change before after ->
  0 <= sh < 24 ->
  0 <= sm < 60 ->
  exists next,
    getNextValidCallingTime zones (FixedZoneSpec.validator sh sm eh em days)
      (Date t) timezone = Returned (Date next)
    /\ t <= next.
Proof.
  intros Hzone Hz Ht Hwin Hsh Hsm.
  set (this := FixedZoneSpec.validator sh sm eh em days).
  destruct (isWithinCallingHours_returns zones this eq_refl (Date t) timezone)
    as [b Hb].
  unfold getNextValidCallingTime.
  rewrite getNextValidCallingTime_asks, Hb. cbn [bind].
  rewrite (fromJSDate_ordinary t _ z Hzone Hz Ht).
  assert (timeClip t = Date t) as Ect
    by (apply timeClip_inRange, ordinary_inRange, Ht).
  destruct b.
  - exists t. cbn [toJSDate]. rewrite Ect. split; [reflexivity | lia].
  - cbn [startHour startMinute this FixedZoneSpec.validator].
    rewrite !setTime_numeric. cbn [bind].
    destruct (_ && _)%bool eqn:E.
    + apply andb_true_iff in E as [E _].
      assert (withinDay sh sm) as Hb' by (unfold withinDay; lia).
      destruct (BoundaryFacts.set_withinDay z t Hz Ht sh sm Hb')
        as (y & x & Hset & Hx & Ey).
      rewrite Hset in *. cbn [lt] in E. apply Z.ltb_lt in E.
      exists y. cbn [toJSDate]. split; [|lia].
      rewrite timeClip_inRange; [reflexivity|].
      apply inRange_iff.
      pose proof (Hz t). pose proof (Hz x).
      pose proof (Z.mod_pos_bound (localTS z t) msPerDay
                    ltac:(unfold msPerDay; lia)).
      pose proof (Z.mod_pos_bound (localTS z t) 1000 ltac:(lia)).
      unfold sameDayInstant, localTS, ordinary, maxTime, msPerDay in *. lia.
    + destruct (OneChangeFacts.next_day_later z t change before after Hz Ht Hwin
                  this sh sm Hsh Hsm) as (y & Hy & Hlt & Hr).
      exists y. rewrite Hy. cbn [toJSDate].
      rewrite (timeClip_inRange y Hr). split; [reflexivity | lia].
Qed.

End MonotoneFacts.

Module ExamplesFacts.
Import Js Luxon CalendarSpec.

Lemma british_plausible : plausible britishTime2024.
Proof. intros x. cbn [offset britishTime2024]. destruct (_ && _)%bool; lia. Qed.

Lemma kabul_plausible : plausible (IANAZone (fun _ => 270)).
Proof. intros x. cbn [offset]. lia. Qed.

(** Around the change to summer time the British offsets differ by an
    hour. *)
Lemma british_spread (t : Z) : spreadNear britishTime2024 t 60.
Proof.
  intros x y _ _. cbn [offset britishTime2024].
  destruct (_ && _)%bool, (_ && _)%bool; lia.
Qed.

(** British clocks change once between October 2023 and October 2024. *)
Lemma british_changesOnce (lo hi : Z) :
  1700000000000 <= lo -> hi < 1729990800000 ->
  changesOnce britishTime2024 lo hi 1711846800000 0 60.
Proof.
  intros Hlo Hhi x Hx. cbn [offset britishTime2024].
  destruct (Z.leb_spec 1711846800000 x), (Z.ltb_spec x 1729990800000),
           (Z.ltb_spec x 1711846800000); simpl; lia.
Qed.

End ExamplesFacts.




(** C6: an instant that is already within calling hours is its own next
    valid calling time. *)
Theorem getNextValidCallingTime_idempotent :
  forall (zones : string -> option Luxon.Zone) (this : CallingHoursValidator.t)
         (dateTime : Js.date) (timezone : string),
    CallingHoursValidator.isWithinCallingHours zones this dateTime timezone
      = Js.Returned true ->
    CallingHoursValidator.getNextValidCallingTime zones this dateTime timezone
      = Js.Returned dateTime.
Proof.
  intros zones this dateTime timezone H.
  unfold CallingHoursValidator.getNextValidCallingTime.
  rewrite ValidatorFacts.getNextValidCallingTime_asks, H. cbn [Js.bind].
  destruct (ValidatorFacts.isWithinCallingHours_true zones this dateTime timezone H)
    as (t0 & z & _ & _ & E).
  now rewrite (LuxonFacts.toJSDate_fromJSDate dateTime _ t0 z E).
Qed.

Lemma getNextValidCallingTime_idempotent_witness :
  CallingHoursValidator.getNextValidCallingTime Examples.zones
    CallingHoursValidator.byDefault (Js.Date Examples.mondayMorning) "Europe/London"
    = Js.Returned (Js.Date Examples.mondayMorning).
Proof.
  apply getNextValidCallingTime_idempotent. reflexivity.
Defined.




(** ** The retry calculator *)

Module RetryFacts.
Import Js JsFacts Luxon LuxonFacts CalendarSpec SmartRetryCalculator.

(** Every reason gets one of the five schedules, three delays in
    ascending order and of a day at most, unless it is a name that every
    object inherits. *)
Lemma delaysFor_cases (reason : string) :
  (inherited reason = true /\ delaysFor reason = Inherited)
  \/ (inherited reason = false
      /\ exists a b c, delaysFor reason = Schedule [a; b; c]
                       /\ 0 < a <= b /\ b <= c <= 1440).
Proof.
  unfold delaysFor, RETRY_DELAYS. cbn [lookup].
  repeat match goal with
         | |- context [String.eqb ?a reason] =>
             let E := fresh "E" in
             destruct (String.eqb a reason) eqn:E;
             [apply String.eqb_eq in E; subst reason; right;
              split; [reflexivity|]; do 3 eexists; split; [reflexivity | lia]|]
         end.
  destruct (inherited reason); [left; auto|].
  right. split; [reflexivity|]. do 3 eexists. split; [reflexivity | lia].
Qed.

Lemma delayAt_outside (delays : list Z) (i : Z) :
  delays <> [] -> i < 0 \/ Z.of_nat (List.length delays) <= i ->
  delayAt (Schedule delays) i = Some (List.last delays 0).
Proof.
  intros Hne Hi. unfold delayAt. rewrite (index_last delays Hne).
  replace (index delays i) with (@None Z); [reflexivity|].
  destruct Hi as [Hi|Hi].
  - unfold index. apply Z.ltb_lt in Hi. now rewrite Hi.
  - symmetry. now apply index_beyond.
Qed.

(** A schedule of three delays, read at any index. *)
Lemma delayAt_three (a b c i : Z) :
  0 < a -> 0 < b -> 0 < c ->
  delayAt (Schedule [a; b; c]) i
  = Some (if i =? 0 then a else if i =? 1 then b else c).
Proof.
  intros Ha Hb Hc.
  assert (i = 0 \/ i = 1 \/ i = 2 \/ i < 0 \/ 3 <= i) as [-> | [-> | [-> | H3]]] by lia.
  - unfold delayAt, index. cbn. destruct a; try lia; reflexivity.
  - unfold delayAt, index. cbn. destruct b; try lia; reflexivity.
  - unfold delayAt, index. cbn. destruct c; try lia; reflexivity.
  - rewrite delayAt_outside; [|discriminate | cbn; lia].
    replace (i =? 0) with false by (symmetry; apply Z.eqb_neq; lia).
    replace (i =? 1) with false by (symmetry; apply Z.eqb_neq; lia).
    reflexivity.
Qed.

(** The delay is undefined for an inherited name, and otherwise a positive
    number of minutes, a day at most. *)
Lemma delayForAttempt_cases (reason : string) (n : Z) :
  (inherited reason = true /\ delayForAttempt reason n = None)
  \/ (inherited reason = false
      /\ exists d, delayForAttempt reason n = Some d /\ 0 < d <= 1440).
Proof.
  unfold delayForAttempt.
  destruct (delaysFor_cases reason) as [[Hi ->] | (Hi & a & b & c & -> & H1 & H2)].
  - left. auto.
  - right. split; [exact Hi|]. rewrite delayAt_three by lia.
    eexists. split; [reflexivity|].
    destruct (n =? 0); [lia|]. destruct (n =? 1); lia.
Qed.

Lemma delayForAttempt_minutes (reason : string) (n : Z) :
  0 <= match delayForAttempt reason n with Some d => d | None => 0 end <= 1440.
Proof.
  destruct (delayForAttempt_cases reason n) as [[_ ->] | (_ & d & -> & H)]; lia.
Qed.

Lemma calculateRetry_exhausted (w : World) (options : Options) (n : Z) :
  currentAttempts options = Some n -> MAX_ATTEMPTS <= n ->
  calculateRetry w options =
    Returned (ShouldNotRetry
      {| Exhausted.reason := "max_attempts_reached";
         Exhausted.attempts := n;
         Exhausted.maxAttempts := MAX_ATTEMPTS;
         Exhausted.action := "send_sms_fallback" |}).
Proof.
  intros Hn Hmax. unfold calculateRetry. rewrite Hn.
  apply Z.leb_le in Hmax. now rewrite Hmax.
Qed.

(** What a returned retry decision tells: the calculator was below the
    ceiling, luxon knew the zone, and the target, the clock reading plus
    the delay, was a date; the decision then follows what the validator
    says about the target. *)
Lemma calculateRetry_retry (w : World) (options : Options) (r : Retry.t) :
  calculateRetry w options = Returned (ShouldRetry r) ->
  let n := match currentAttempts options with Some n => n | None => 0 end in
  let tz := timezoneFor w options in
  let delayMinutes := delayForAttempt (endedReason options) n in
  let target := clock w + match delayMinutes with Some d => d | None => 0 end * 60000 in
  n < MAX_ATTEMPTS
  /\ Retry.attempts r = n + 1
  /\ Retry.timezone r = tz
  /\ Retry.originalDelayMinutes r = delayMinutes
  /\ (exists z, zones w tz = Some z
                /\ fromJSDate (Date (clock w)) (zones w tz) = Valid (clock w) z)
  /\ exists within,
       CallingHoursValidator.isWithinCallingHours (zones w) (callingHoursValidator w)
         (Date target) tz = Returned within
       /\ Retry.wasAdjustedForBusinessHours r = negb within
       /\ if within then
            Retry.nextCallTime r = Date target
            /\ Retry.adjustedDelayMinutes r = option_map Num delayMinutes
          else
            exists next,
              CallingHoursValidator.getNextValidCallingTime (zones w)
                (callingHoursValidator w) (Date target) tz = Returned (Date next)
              /\ Retry.nextCallTime r = Date next
              /\ Retry.adjustedDelayMinutes r
                 = Some (Num (roundDiv (next - clock w) 60000)).
Proof.
  intros H n tz delayMinutes target.
  unfold calculateRetry in H. fold n tz in H.
  destruct (MAX_ATTEMPTS <=? n) eqn:Hmax; [discriminate|].
  apply Z.leb_gt in Hmax. fold delayMinutes in H.
  set (v := callingHoursValidator w) in *.
  (* an invalid date for the validator ends in a thrown error *)
  assert (forall d b : date,
            fromJSDate d (zones w tz) = Invalid ->
            (within <- CallingHoursValidator.isWithinCallingHours (zones w) v d tz ;;
             if within then
               Returned {| CallingHoursValidator.withinHours := true;
                           CallingHoursValidator.adjustedTime := d;
                           CallingHoursValidator.originalDelay := delayMinutes;
                           CallingHoursValidator.adjustedDelay :=
                             option_map Num delayMinutes |}
             else
               nextValidTime <- CallingHoursValidator.getNextValidCallingTime
                                  (zones w) v d tz ;;
               Returned {| CallingHoursValidator.withinHours := false;
                           CallingHoursValidator.adjustedTime := nextValidTime;
                           CallingHoursValidator.originalDelay := delayMinutes;
                           CallingHoursValidator.adjustedDelay :=
                             Some (CallingHoursValidator.minutesBetween nextValidTime
                                     b) |})
            = Returned {| CallingHoursValidator.withinHours := false;
                          CallingHoursValidator.adjustedTime := InvalidDate;
                          CallingHoursValidator.originalDelay := delayMinutes;
                          CallingHoursValidator.adjustedDelay :=
                            Some (CallingHoursValidator.minutesBetween InvalidDate
                                    b) |}) as Hbad.
  { intros d b Hd.
    rewrite (ValidatorFacts.isWithinCallingHours_Invalid (zones w) v d tz Hd).
    cbn [bind].
    now rewrite (ValidatorFacts.getNextValidCallingTime_Invalid (zones w) v d tz Hd). }
  unfold CallingHoursValidator.calculateDelayWithinHours in H.
  destruct (fromJSDate_cases (Date (clock w)) (zones w tz))
    as [Enow | (c & z & Ec & Ez & Enow)].
  { rewrite Enow in H. cbn [plus toJSDate] in H.
    rewrite (Hbad InvalidDate InvalidDate eq_refl) in H. discriminate H. }
  injection Ec as <-.
  rewrite Enow in H.
  rewrite (ValidityFacts.plus_minutes _ _ _ _ _ Enow) in H. fold target in H.
  assert (toJSDate (make target z) = Date target
          \/ fromJSDate (toJSDate (make target z)) (zones w tz) = Invalid) as [Et|Et].
  { destruct (make_cases target z) as [E|E]; rewrite E; cbn [toJSDate]; [|now right].
    unfold timeClip. destruct (inRange target); [now left | now right]. }
  2:{ rewrite (Hbad _ _ Et) in H. discriminate H. }
  rewrite Et in H.
  assert (toJSDate (Valid (clock w) z) = Date (clock w)) as Eclock.
  { pose proof Enow as Hinv. apply fromJSDate_inv in Hinv as (_ & _ & R & _).
    cbn [toJSDate]. now rewrite (timeClip_inRange _ R). }
  rewrite Eclock in H.
  split; [exact Hmax|].
  destruct (CallingHoursValidator.isWithinCallingHours (zones w) v (Date target) tz)
    as [within|e] eqn:Hw; [|discriminate H].
  cbn [bind] in H. destruct within.
  - cbn [bind toISOString CallingHoursValidator.adjustedTime] in H.
    injection H as <-. cbn.
    split; [reflexivity|]. split; [reflexivity|]. split; [reflexivity|].
    split; [exists z; auto|].
    exists true. auto.
  - destruct (CallingHoursValidator.getNextValidCallingTime (zones w) v (Date target) tz)
      as [d|e] eqn:Hn; [|discriminate H].
    cbn [bind CallingHoursValidator.adjustedTime] in H.
    destruct d as [|next]; [discriminate H|].
    cbn [bind toISOString] in H. injection H as <-. cbn.
    split; [reflexivity|]. split; [reflexivity|]. split; [reflexivity|].
    split; [exists z; auto|].
    exists false. split; [reflexivity|]. split; [reflexivity|].
    exists next. auto.
Qed.

(** Below the ceiling the calculator never reports exhaustion: what it
    returns, when it returns, is a retry numbered one above the count. *)
Lemma calculateRetry_below (w : World) (options : Options) (n : Z)
    (info : RetryInfo) :
  currentAttempts options = Some n -> n < MAX_ATTEMPTS ->
  calculateRetry w options = Returned info ->
  exists r, info = ShouldRetry r /\ Retry.attempts r = n + 1.
Proof.
  intros Hn Hlt. unfold calculateRetry. rewrite Hn.
  apply Z.leb_gt in Hlt. rewrite Hlt.
  destruct (CallingHoursValidator.calculateDelayWithinHours _ _ _ _ _) as [d|e];
    [|discriminate].
  cbn [bind]. destruct (toISOString _) as [iso|e]; [|discriminate].
  cbn [bind]. intros H. injection H as <-. eexists. split; reflexivity.
Qed.

(** With a zone that luxon knows, a clock well inside the range of dates,
    a start time that is a time of day and numbers for the end time, the
    calculator schedules a retry whenever it is below the ceiling. *)
Lemma calculateRetry_schedules (w : World) (options : Options) (n : Z)
    (z : Zone) (sh sm eh em : Z) (days : list num) :
  currentAttempts options = Some n -> n < MAX_ATTEMPTS ->
  callingHoursValidator w = FixedZoneSpec.validator sh sm eh em days ->
  0 <= sh < 24 -> 0 <= sm < 60 ->
  zones w (timezoneFor w options) = Some z -> plausible z ->
  ordinary (clock w) -> ordinary (clock w + msPerDay) ->
  exists r, calculateRetry w options = Returned (ShouldRetry r).
Proof.
  intros Hn Hlt Hv Hsh Hsm Hzone Hz Hc Hc'.
  unfold calculateRetry. rewrite Hn.
  apply Z.leb_gt in Hlt. rewrite Hlt. rewrite Hv.
  set (tz := timezoneFor w options) in *.
  pose proof (delayForAttempt_minutes (endedReason options) n) as Hd.
  set (delayMinutes := delayForAttempt (endedReason options) n) in *.
  unfold CallingHoursValidator.calculateDelayWithinHours.
  pose proof (fromJSDate_ordinary (clock w) _ z Hzone Hz Hc) as Enow.
  rewrite Enow. rewrite (ValidityFacts.plus_minutes _ _ _ _ _ Enow).
  set (target := clock w + match delayMinutes with Some d => d | None => 0 end * 60000).
  assert (clock w <= target <= clock w + msPerDay) as Ht
    by (unfold target, msPerDay; lia).
  assert (ordinary target) as Hto by (unfold ordinary, msPerDay in *; lia).
  rewrite (make_Valid target z);
    [|now apply ordinary_inRange
     |apply inRange_iff; pose proof (Hz target);
      unfold localTS, ordinary, maxTime in *; lia].
  cbn [toJSDate]. rewrite (timeClip_inRange _ (ordinary_inRange _ Hto)).
  destruct (ValidatorFacts.isWithinCallingHours_returns (zones w)
              (FixedZoneSpec.validator sh sm eh em days) eq_refl (Date target) tz)
    as [within ->].
  cbn [bind]. destruct within.
  - cbn [bind toISOString CallingHoursValidator.adjustedTime]. eauto.
  - destruct (ValidityFacts.getNextValidCallingTime_Date (zones w) days sh sm eh em
                target tz z Hzone Hz) as [next ->];
      [unfold ordinary, msPerDay in *; lia | exact Hsh | exact Hsm |].
    cbn [bind toISOString CallingHoursValidator.adjustedTime]. eauto.
Qed.

End RetryFacts.






(** C3: in every retry decision the raw target is the clock reading plus the
    delay of the schedule.  When the target is within calling hours the
    decision is not marked as adjusted and the target is the next call time.
    When it is not, the decision is marked as adjusted, the next call time is
    the next valid calling time after the target, and the delay reported is
    the gap between the clock reading and that time, rounded to the minute,
    not the delay of the schedule. *)
Theorem retry_reports_adjusted_gap :
  forall (w : SmartRetryCalculator.World) (options : SmartRetryCalculator.Options)
         (r : SmartRetryCalculator.Retry.t),
    SmartRetryCalculator.calculateRetry w options
      = Js.Returned (SmartRetryCalculator.ShouldRetry r) ->
    let now := SmartRetryCalculator.clock w in
    let validator := SmartRetryCalculator.callingHoursValidator w in
    let tz := SmartRetryCalculator.Retry.timezone r in
    let delayMinutes :=
      SmartRetryCalculator.delayForAttempt (SmartRetryCalculator.endedReason options)
        (SmartRetryCalculator.Retry.attempts r - 1) in
    let target := now + match delayMinutes with Some d => d | None => 0 end * 60000 in
    SmartRetryCalculator.Retry.originalDelayMinutes r = delayMinutes
    /\ exists within,
         CallingHoursValidator.isWithinCallingHours (SmartRetryCalculator.zones w)
           validator (Js.Date target) tz = Js.Returned within
         /\ SmartRetryCalculator.Retry.wasAdjustedForBusinessHours r = negb within
         /\ if within then
              SmartRetryCalculator.Retry.nextCallTime r = Js.Date target
            else
              CallingHoursValidator.getNextValidCallingTime (SmartRetryCalculator.zones w)
                validator (Js.Date target) tz
                = Js.Returned (SmartRetryCalculator.Retry.nextCallTime r)
              /\ exists next gap,
                   SmartRetryCalculator.Retry.nextCallTime r = Js.Date next
                   /\ SmartRetryCalculator.Retry.adjustedDelayMinutes r
                      = Some (Js.Num gap)
                   /\ gap = Js.roundDiv (next - now) 60000
                   /\ 60000 * gap - 30000 <= next - now < 60000 * gap + 30000.
Proof.
  intros w options r H now validator tz delayMinutes target.
  destruct (RetryFacts.calculateRetry_retry w options r H)
    as (_ & Ha & Etz & Ed & _ & within & Hw & Hadj & Hrest).
  subst delayMinutes target tz. rewrite Ha, Etz.
  replace (_ + 1 - 1) with
    (match SmartRetryCalculator.currentAttempts options with Some n => n | None => 0 end)
    by lia.
  split; [exact Ed|]. exists within. split; [exact Hw|]. split; [exact Hadj|].
  destruct within.
  - apply Hrest.
  - destruct Hrest as (next & Hn & Enext & Egap).
    split; [now rewrite Enext|].
    exists next, (Js.roundDiv (next - now) 60000).
    split; [exact Enext|]. split; [exact Egap|]. split; [reflexivity|].
    now apply JsFacts.roundDiv_nearest.
Qed.

Lemma retry_reports_adjusted_gap_witness :
  SmartRetryCalculator.delayForAttempt "customer-did-not-answer" 0 = Some 30
  /\ CallingHoursValidator.isWithinCallingHours Examples.zones
       CallingHoursValidator.byDefault (Js.Date (Examples.fridayEvening + 30 * 60000))
       "Europe/London" = Js.Returned false
  /\ CallingHoursValidator.getNextValidCallingTime Examples.zones
       CallingHoursValidator.byDefault (Js.Date (Examples.fridayEvening + 30 * 60000))
       "Europe/London" = Js.Returned (Js.Date 1705309200234)
  /\ 60000 * 3735 - 30000 <= 1705309200234 - Examples.fridayEvening
     < 60000 * 3735 + 30000.
Proof.
  pose proof (retry_reports_adjusted_gap (Examples.world Examples.fridayEvening)
                (Examples.event "customer-did-not-answer" 0)
                {| SmartRetryCalculator.Retry.attempts := 1;
                   SmartRetryCalculator.Retry.maxAttempts := 3;
                   SmartRetryCalculator.Retry.originalDelayMinutes := Some 30;
                   SmartRetryCalculator.Retry.adjustedDelayMinutes := Some (Js.Num 3735);
                   SmartRetryCalculator.Retry.nextCallTime := Js.Date 1705309200234;
                   SmartRetryCalculator.Retry.nextCallTimeISO := 1705309200234;
                   SmartRetryCalculator.Retry.timezone := "Europe/London";
                   SmartRetryCalculator.Retry.wasAdjustedForBusinessHours := true;
                   SmartRetryCalculator.Retry.endedReason := "customer-did-not-answer" |}
                eq_refl) as [Hd [within [Hw [Ha Hrest]]]].
  cbn [SmartRetryCalculator.Retry.wasAdjustedForBusinessHours] in Ha.
  destruct within; [discriminate Ha|].
  destruct Hrest as [Hn [next [gap [En [Hg [_ Hb]]]]]].
  injection En as <-. injection Hg as <-.
  split; [symmetry; exact Hd|]. split; [exact Hw|]. split; [exact Hn|]. exact Hb.
Defined.




(** ** Loading with a broken configuration *)

Module StartupFacts.
Import Js Luxon CallingHoursValidator.

Lemma noBusinessDay_never_includes (v : t) (ts : Z) (z : Zone) :
  Startup.noBusinessDay v = true -> isBusinessDay v (Valid ts z) = false.
Proof.
  unfold Startup.noBusinessDay, isBusinessDay. intros H. cbn [weekday].
  apply negb_true_iff in H. cbn [existsb] in H.
  repeat (apply orb_false_iff in H; destruct H as [? H]).
  pose proof (LuxonFacts.weekdayOf_range z ts) as Hr.
  assert (weekdayOf z ts = 1 \/ weekdayOf z ts = 2 \/ weekdayOf z ts = 3
          \/ weekdayOf z ts = 4 \/ weekdayOf z ts = 5 \/ weekdayOf z ts = 6
          \/ weekdayOf z ts = 7) as Hcases by lia.
  repeat destruct Hcases as [->|Hcases]; try assumption.
  now rewrite Hcases.
Qed.

(** With no weekday among the business days nothing is within calling
    hours, whatever the date and the zone. *)
Lemma noBusinessDay_never_within (zones : string -> option Zone) (v : t)
    (d : date) (timezone : string) :
  Startup.noBusinessDay v = true ->
  isWithinCallingHours zones v d timezone = Returned false.
Proof.
  intros Hno.
  destruct (LuxonFacts.fromJSDate_cases d (zones timezone))
    as [E | (t0 & z & _ & _ & E)].
  - now apply ValidatorFacts.isWithinCallingHours_Invalid.
  - unfold isWithinCallingHours. rewrite E.
    now rewrite (noBusinessDay_never_includes v t0 z Hno).
Qed.

Lemma windowEmpty_fields (v : t) :
  Startup.windowEmpty v = true ->
  exists sh sm eh em,
    startHour v = Num sh /\ startMinute v = Num sm /\
    endHour v = Num eh /\ endMinute v = Num em /\
    eh * 3600000 + em * 60000 <= sh * 3600000 + sm * 60000.
Proof.
  unfold Startup.windowEmpty.
  destruct (startHour v) as [|sh], (startMinute v) as [|sm],
           (endHour v) as [|eh], (endMinute v) as [|em]; try discriminate.
  intros H. apply Z.leb_le in H. exists sh, sm, eh, em. repeat split; lia.
Qed.

End StartupFacts.




(** * Further properties *)

(** ** Prefix search, mappings and phone formats *)

Module DetectorMore.
Import Js JsFacts TimezoneDetector TimezoneDetectorFacts DetectorSpec.

Lemma longestMatch_unique (table : object) (cleaned a b : string) :
  longestMatch table cleaned a -> longestMatch table cleaned b -> a = b.
Proof.
  intros [[Ha Hpa] Hmaxa] [[Hb Hpb] Hmaxb].
  pose proof (Hmaxa b (conj Hb Hpb)). pose proof (Hmaxb a (conj Ha Hpa)).
  apply prefix_same_length; [|lia].
  apply (prefix_chain a b cleaned); [exact Hpa | exact Hpb | lia].
Qed.

Lemma find_longestMatch (table : object) (cleaned code : string) :
  find (startsWith cleaned) (sortedCodes table) = Some code <->
  longestMatch table cleaned code.
Proof.
  split.
  - intros H. destruct (first_match_is_longest _ _ _ H) as (H1 & H2 & H3).
    split; [split; assumption|]. intros other [Ho Hp]. now apply H3.
  - intros Hl. pose proof Hl as [[Hin Hp] Hmax].
    destruct (some_match_found table cleaned code Hin Hp) as [best Hbest].
    rewrite Hbest. f_equal.
    destruct (first_match_is_longest _ _ _ Hbest) as (H1 & H2 & H3).
    apply (longestMatch_unique table cleaned); [|exact Hl].
    split; [split; assumption|]. intros other [Ho Hpo]. now apply H3.
Qed.

Lemma find_no_match (table : object) (cleaned : string) :
  find (startsWith cleaned) (sortedCodes table) = None <->
  forall code, In code (keys table) -> startsWith cleaned code = false.
Proof.
  split.
  - intros H code Hin. apply (find_none _ _ H). now apply sortedCodes_In.
  - intros H. destruct (find _ _) as [code|] eqn:E; [|reflexivity].
    apply find_longestMatch in E. destruct E as [[Hin Hp] _].
    rewrite (H code Hin) in Hp. discriminate.
Qed.

Lemma keys_addMapping (table : object) (c tz code : string) :
  c <> "__proto__" ->
  In code (keys (addMapping table c tz)) <-> In code (keys table) \/ code = c.
Proof.
  intros Hc. unfold addMapping. rewrite (setProp_defines _ _ _ Hc).
  rewrite !keys_In. apply names_defineProp_In.
Qed.

Lemma getProp_addMapping (table : object) (c tz : string) :
  c <> "__proto__" -> getProp (addMapping table c tz) c = Some tz.
Proof.
  intros Hc. unfold addMapping. rewrite (setProp_defines _ _ _ Hc).
  rewrite getProp_defineProp. now rewrite String.eqb_refl.
Qed.

Lemma getProp_addMapping_other (table : object) (c tz code : string) :
  code <> c -> getProp (addMapping table c tz) code = getProp table code.
Proof.
  intros Hne. unfold addMapping, setProp.
  destruct (String.eqb c "__proto__"); [reflexivity|].
  rewrite getProp_defineProp.
  destruct (String.eqb c code) eqn:E; [|reflexivity].
  apply String.eqb_eq in E. congruence.
Qed.

Lemma clean_idempotent (s : string) : clean (clean s) = clean s.
Proof.
  unfold clean. induction s as [|c s IH]; simpl; [reflexivity|].
  destruct (separator c) eqn:E; [exact IH|]. simpl. now rewrite E, IH.
Qed.

Lemma removeAll_kept (cls : ascii -> bool) (s : string) :
  allChars (fun c => negb (cls c)) (removeAll cls s) = true.
Proof.
  induction s as [|c s IH]; simpl; [reflexivity|].
  destruct (cls c) eqn:E; [exact IH|]. simpl. now rewrite E, IH.
Qed.

Lemma removeAll_nothing (cls : ascii -> bool) (s : string) :
  allChars (fun c => negb (cls c)) s = true -> removeAll cls s = s.
Proof.
  induction s as [|c s IH]; simpl; [reflexivity|].
  intros H. apply andb_true_iff in H as [Hc Hs].
  apply negb_true_iff in Hc. rewrite Hc. now rewrite IH.
Qed.

Lemma allChars_weaken (p q : ascii -> bool) (s : string) :
  (forall c, p c = true -> q c = true) -> allChars p s = true -> allChars q s = true.
Proof.
  intros Hpq. induction s as [|c s IH]; simpl; [reflexivity|].
  intros H. apply andb_true_iff in H as [Hc Hs].
  now rewrite (Hpq c Hc), IH.
Qed.

Lemma allChars_append (p : ascii -> bool) (a b : string) :
  allChars p (a ++ b) = (allChars p a && allChars p b)%bool.
Proof.
  induction a as [|c a IH]; simpl; [reflexivity|]. now rewrite IH, andb_assoc.
Qed.

Lemma digitOrPlus_not_separator (c : ascii) :
  digitOrPlus c = true -> negb (separator c) = true.
Proof.
  destruct c as [[] [] [] [] [] [] [] []]; vm_compute; congruence.
Qed.

(** In the shipped table no other key extends [+44]. *)
Lemma keys_extending_44 (code : string) :
  In code (keys TIMEZONE_MAP) -> String.prefix "+44" code = true -> code = "+44".
Proof.
  intros Hin Hp.
  assert (forallb (fun c => implb (String.prefix "+44" c) (String.eqb c "+44"))
            (keys TIMEZONE_MAP) = true) as H by (vm_compute; reflexivity).
  rewrite forallb_forall in H. specialize (H code Hin). rewrite Hp in H.
  now apply String.eqb_eq.
Qed.

Lemma british_prefix_found (cleaned : string) :
  startsWith cleaned "+44" = true ->
  find (startsWith cleaned) (sortedCodes TIMEZONE_MAP) = Some "+44".
Proof.
  intros H.
  destruct (some_match_found TIMEZONE_MAP cleaned "+44") as [best Hbest];
    [vm_compute; tauto | exact H |].
  rewrite Hbest. f_equal.
  destruct (first_match_is_longest _ _ _ Hbest) as (Hin & Hp & Hmax).
  apply keys_extending_44; [exact Hin|].
  apply (prefix_chain _ _ cleaned H Hp).
  apply Hmax; [vm_compute; tauto | exact H].
Qed.

End DetectorMore.

(** X1: for a non-empty phone number, [getCountryCode] returns a code exactly
    when that code is the longest key of the table that prefixes the cleaned
    number, and returns null exactly when no key prefixes it;
    [detectTimezone] answers the timezone stored under that code, or the
    default when there is none. *)
Theorem getCountryCode_is_longest_match :
  forall (dflt : option string) (table : Js.object) (phoneNumber : string),
    phoneNumber <> "" ->
    let cleaned := TimezoneDetector.clean phoneNumber in
    (forall code,
        TimezoneDetector.getCountryCode table (Js.Str phoneNumber) = Some code
        <-> DetectorSpec.longestMatch table cleaned code)
    /\ (TimezoneDetector.getCountryCode table (Js.Str phoneNumber) = None
        <-> forall code, In code (Js.keys table) -> Js.startsWith cleaned code = false)
    /\ match TimezoneDetector.getCountryCode table (Js.Str phoneNumber) with
       | Some code =>
           Js.getProp table code
             = Some (TimezoneDetector.detectTimezone dflt table (Js.Str phoneNumber))
       | None =>
           TimezoneDetector.detectTimezone dflt table (Js.Str phoneNumber)
             = TimezoneDetector.defaultTimezone dflt
       end.
Proof.
  intros dflt table phoneNumber Hne cleaned.
  assert (String.eqb phoneNumber "" = false) as Hf
    by (destruct phoneNumber; [now elim Hne | reflexivity]).
  unfold TimezoneDetector.getCountryCode, TimezoneDetector.detectTimezone.
  cbn [Js.falsy]. rewrite Hf. fold cleaned.
  split; [|split].
  - intros code. apply DetectorMore.find_longestMatch.
  - apply DetectorMore.find_no_match.
  - destruct (find _ _) as [code|] eqn:E; [|reflexivity].
    apply DetectorMore.find_longestMatch in E. destruct E as [[Hin _] _].
    destruct (JsFacts.getProp_of_key table code Hin) as [v ->]. reflexivity.
Qed.

Lemma getCountryCode_is_longest_match_witness :
  TimezoneDetector.getCountryCode TimezoneDetector.TIMEZONE_MAP
    (Js.Str "+1 (809) 555-0100") = Some "+1809"
  /\ Js.getProp TimezoneDetector.TIMEZONE_MAP "+1809"
     = Some (TimezoneDetector.detectTimezone None TimezoneDetector.TIMEZONE_MAP
               (Js.Str "+1 (809) 555-0100")).
Proof.
  pose proof (getCountryCode_is_longest_match None TimezoneDetector.TIMEZONE_MAP
                "+1 (809) 555-0100" ltac:(discriminate)) as (_ & _ & H).
  split; [reflexivity|].
  change (TimezoneDetector.getCountryCode TimezoneDetector.TIMEZONE_MAP
            (Js.Str "+1 (809) 555-0100")) with (Some "+1809") in H.
  exact H.
Defined.

(** X2: only the cleaned form of a phone number matters.  Two non-empty
    numbers that differ in white space, hyphens and parentheses alone get the
    same timezone and the same country code, and cleaning twice changes
    nothing. *)
Theorem detection_ignores_separators :
  forall (dflt : option string) (table : Js.object) (a b : string),
    a <> "" -> b <> "" ->
    TimezoneDetector.clean a = TimezoneDetector.clean b ->
    TimezoneDetector.detectTimezone dflt table (Js.Str a)
      = TimezoneDetector.detectTimezone dflt table (Js.Str b)
    /\ TimezoneDetector.getCountryCode table (Js.Str a)
       = TimezoneDetector.getCountryCode table (Js.Str b)
    /\ TimezoneDetector.clean (TimezoneDetector.clean a) = TimezoneDetector.clean a.
Proof.
  intros dflt table a b Ha Hb Hclean.
  assert (forall s, s <> "" -> String.eqb s "" = false) as Hf
    by (intros s Hs; destruct s; [now elim Hs | reflexivity]).
  unfold TimezoneDetector.detectTimezone, TimezoneDetector.getCountryCode.
  cbn [Js.falsy]. rewrite (Hf a Ha), (Hf b Hb), Hclean.
  repeat split. rewrite <- Hclean. apply DetectorMore.clean_idempotent.
Qed.

Lemma detection_ignores_separators_witness :
  TimezoneDetector.detectTimezone None TimezoneDetector.TIMEZONE_MAP
    (Js.Str "+93 (70) 123-4567")
  = TimezoneDetector.detectTimezone None TimezoneDetector.TIMEZONE_MAP
      (Js.Str "+93701234567").
Proof.
  apply (detection_ignores_separators None TimezoneDetector.TIMEZONE_MAP
           "+93 (70) 123-4567" "+93701234567"); [discriminate | discriminate | reflexivity].
Defined.

(** X3: [addMapping] stores the timezone under the code and touches nothing
    else.  Under the name [__proto__] nothing is stored at all.  Under any
    other code the table then reads back that timezone and lists the code;
    every other code reads as before.  A code already present keeps its
    place in the list of supported codes, a new code that is no array index
    is listed last, and no code is ever listed twice. *)
Theorem addMapping_reads_back :
  forall (table : Js.object) (countryCode timezone : string),
    (countryCode = "__proto__" ->
     TimezoneDetector.addMapping table countryCode timezone = table)
    /\ (countryCode <> "__proto__" ->
        Js.getProp (TimezoneDetector.addMapping table countryCode timezone) countryCode
          = Some timezone
        /\ In countryCode
             (TimezoneDetector.getSupportedCountryCodes
                (TimezoneDetector.addMapping table countryCode timezone)))
    /\ (forall other, other <> countryCode ->
          Js.getProp (TimezoneDetector.addMapping table countryCode timezone) other
            = Js.getProp table other)
    /\ (In countryCode (TimezoneDetector.getSupportedCountryCodes table) ->
        TimezoneDetector.getSupportedCountryCodes
          (TimezoneDetector.addMapping table countryCode timezone)
          = TimezoneDetector.getSupportedCountryCodes table)
    /\ (countryCode <> "__proto__" ->
        ~ In countryCode (TimezoneDetector.getSupportedCountryCodes table) ->
        Js.isArrayIndex countryCode = false ->
        TimezoneDetector.getSupportedCountryCodes
          (TimezoneDetector.addMapping table countryCode timezone)
          = (TimezoneDetector.getSupportedCountryCodes table ++ [countryCode])%list)
    /\ (NoDup (TimezoneDetector.getSupportedCountryCodes table) ->
        NoDup (TimezoneDetector.getSupportedCountryCodes
                 (TimezoneDetector.addMapping table countryCode timezone))).
Proof.
  intros table c tz. unfold TimezoneDetector.getSupportedCountryCodes.
  split; [|split; [|split; [|split; [|split]]]].
  - intros ->. reflexivity.
  - intros Hc. split; [now apply DetectorMore.getProp_addMapping|].
    apply (DetectorMore.keys_addMapping table c tz c Hc). now right.
  - intros other Hne. now apply DetectorMore.getProp_addMapping_other.
  - intros Hin. unfold TimezoneDetector.addMapping, Js.setProp.
    destruct (String.eqb c "__proto__"); [reflexivity|].
    now apply JsFacts.keys_defineProp_present.
  - intros Hc Hnot Hidx. unfold TimezoneDetector.addMapping.
    rewrite (JsFacts.setProp_defines _ _ _ Hc).
    now apply JsFacts.keys_defineProp_new.
  - intros Hnd. now apply JsFacts.keys_setProp_NoDup.
Qed.

Lemma addMapping_reads_back_witness :
  TimezoneDetector.getSupportedCountryCodes
    (TimezoneDetector.addMapping TimezoneDetector.TIMEZONE_MAP "+44" "Europe/Belfast")
  = TimezoneDetector.getSupportedCountryCodes TimezoneDetector.TIMEZONE_MAP
  /\ Js.getProp
       (TimezoneDetector.addMapping [("+44", "Europe/London")] "+299" "America/Nuuk")
       "+299" = Some "America/Nuuk"
  /\ TimezoneDetector.getSupportedCountryCodes
       (TimezoneDetector.addMapping [("+44", "Europe/London")] "+299" "America/Nuuk")
     = ["+44"; "+299"]
  /\ TimezoneDetector.addMapping [("+44", "Europe/London")] "__proto__" "America/Nuuk"
     = [("+44", "Europe/London")].
Proof.
  split; [|split; [|split]].
  - apply (proj1 (proj2 (proj2 (proj2 (addMapping_reads_back
                                         TimezoneDetector.TIMEZONE_MAP
                                         "+44" "Europe/Belfast"))))).
    vm_compute. tauto.
  - apply (proj1 (proj2 (addMapping_reads_back [("+44", "Europe/London")] "+299"
                           "America/Nuuk"))).
    discriminate.
  - apply (proj1 (proj2 (proj2 (proj2 (proj2 (addMapping_reads_back
                                                [("+44", "Europe/London")] "+299"
                                                "America/Nuuk")))))).
    + discriminate.
    + simpl. intros [H|[]]. discriminate H.
    + reflexivity.
  - apply (proj1 (addMapping_reads_back [("+44", "Europe/London")] "__proto__"
                    "America/Nuuk")).
    reflexivity.
Defined.

(** X4: a mapping added at run time takes effect: under a code other than
    [__proto__], a number that the new code prefixes, and that no longer
    code of the table prefixes, resolves to the new timezone. *)
Theorem addMapping_takes_effect :
  forall (dflt : option string) (table : Js.object)
         (countryCode timezone phoneNumber : string),
    countryCode <> "__proto__" ->
    phoneNumber <> "" ->
    Js.startsWith (TimezoneDetector.clean phoneNumber) countryCode = true ->
    (forall other, In other (Js.keys table) ->
                   Js.startsWith (TimezoneDetector.clean phoneNumber) other = true ->
                   (String.length other <= String.length countryCode)%nat) ->
    TimezoneDetector.detectTimezone dflt
      (TimezoneDetector.addMapping table countryCode timezone) (Js.Str phoneNumber)
    = timezone
    /\ TimezoneDetector.getCountryCode
         (TimezoneDetector.addMapping table countryCode timezone) (Js.Str phoneNumber)
       = Some countryCode.
Proof.
  intros dflt table c tz s Hc Hne Hp Hmax.
  assert (String.eqb s "" = false) as Hf
    by (destruct s; [now elim Hne | reflexivity]).
  assert (find (Js.startsWith (TimezoneDetector.clean s))
            (TimezoneDetector.sortedCodes (TimezoneDetector.addMapping table c tz))
          = Some c) as Hfind.
  { apply DetectorMore.find_longestMatch. split; [split|].
    - apply (DetectorMore.keys_addMapping _ _ _ _ Hc). now right.
    - exact Hp.
    - intros other [Hin Hpo].
      apply (DetectorMore.keys_addMapping _ _ _ _ Hc) in Hin as [Hin | ->];
        [now apply Hmax | lia]. }
  split.
  - apply (TimezoneDetectorFacts.detectTimezone_found dflt _ s c tz Hf Hfind).
    now apply DetectorMore.getProp_addMapping.
  - unfold TimezoneDetector.getCountryCode. cbn [Js.falsy]. now rewrite Hf.
Qed.

Lemma addMapping_takes_effect_witness :
  TimezoneDetector.detectTimezone None
    (TimezoneDetector.addMapping TimezoneDetector.TIMEZONE_MAP "+1787"
       "America/Puerto_Rico") (Js.Str "+1 787 555 0100")
  = "America/Puerto_Rico".
Proof.
  apply (addMapping_takes_effect None TimezoneDetector.TIMEZONE_MAP "+1787"
           "America/Puerto_Rico" "+1 787 555 0100").
  - discriminate.
  - discriminate.
  - reflexivity.
  - intros other Hin Hp.
    assert (forallb (fun k => implb (Js.startsWith "+17875550100" k)
                                (Nat.leb (String.length k) 5))
              (Js.keys TimezoneDetector.TIMEZONE_MAP) = true) as H
      by (vm_compute; reflexivity).
    rewrite forallb_forall in H. specialize (H other Hin).
    change (TimezoneDetector.clean "+1 787 555 0100") with "+17875550100" in Hp.
    rewrite Hp in H. apply Nat.leb_le in H. exact H.
Defined.

(** X5: a mapping added at run time disturbs no other number: when the new
    code does not prefix the cleaned number, the timezone and the country
    code detected are what they were before. *)
Theorem addMapping_leaves_other_numbers :
  forall (dflt : option string) (table : Js.object)
         (countryCode timezone phoneNumber : string),
    Js.startsWith (TimezoneDetector.clean phoneNumber) countryCode = false ->
    TimezoneDetector.detectTimezone dflt
      (TimezoneDetector.addMapping table countryCode timezone) (Js.Str phoneNumber)
    = TimezoneDetector.detectTimezone dflt table (Js.Str phoneNumber)
    /\ TimezoneDetector.getCountryCode
         (TimezoneDetector.addMapping table countryCode timezone) (Js.Str phoneNumber)
       = TimezoneDetector.getCountryCode table (Js.Str phoneNumber).
Proof.
  intros dflt table c tz s Hnot.
  destruct (String.eqb c "__proto__") eqn:Hc;
    [apply String.eqb_eq in Hc; subst c; split; reflexivity|].
  apply String.eqb_neq in Hc.
  set (cleaned := TimezoneDetector.clean s) in *.
  assert (find (Js.startsWith cleaned)
            (TimezoneDetector.sortedCodes (TimezoneDetector.addMapping table c tz))
          = find (Js.startsWith cleaned) (TimezoneDetector.sortedCodes table)) as Hfind.
  { destruct (find (Js.startsWith cleaned) (TimezoneDetector.sortedCodes table))
      as [code|] eqn:E.
    - apply DetectorMore.find_longestMatch.
      apply DetectorMore.find_longestMatch in E. destruct E as [[Hin Hp] Hmax].
      split; [split; [apply (DetectorMore.keys_addMapping _ _ _ _ Hc); now left
                     | exact Hp]|].
      intros other [Ho Hpo].
      apply (DetectorMore.keys_addMapping _ _ _ _ Hc) in Ho as [Ho | ->];
        [apply Hmax; now split | congruence].
    - apply DetectorMore.find_no_match. intros code Hin.
      apply (DetectorMore.keys_addMapping _ _ _ _ Hc) in Hin as [Hin | ->];
        [|exact Hnot].
      now apply (proj1 (DetectorMore.find_no_match table cleaned) E). }
  unfold TimezoneDetector.detectTimezone, TimezoneDetector.getCountryCode.
  fold cleaned. rewrite Hfind. clear Hfind. split; [|reflexivity].
  destruct (Js.falsy (Js.Str s)); [reflexivity|].
  destruct (find (Js.startsWith cleaned) (TimezoneDetector.sortedCodes table))
    as [code|] eqn:E; [|reflexivity].
  rewrite DetectorMore.getProp_addMapping_other; [reflexivity|].
  intros ->. apply DetectorMore.find_longestMatch in E. destruct E as [[_ Hp] _].
  congruence.
Qed.

Lemma addMapping_leaves_other_numbers_witness :
  TimezoneDetector.detectTimezone None
    (TimezoneDetector.addMapping TimezoneDetector.TIMEZONE_MAP "+1787"
       "America/Puerto_Rico") (Js.Str "+1 212 555 0100")
  = TimezoneDetector.detectTimezone None TimezoneDetector.TIMEZONE_MAP
      (Js.Str "+1 212 555 0100").
Proof.
  apply (addMapping_leaves_other_numbers None TimezoneDetector.TIMEZONE_MAP "+1787"
           "America/Puerto_Rico" "+1 212 555 0100").
  reflexivity.
Defined.

(** X6: with the shipped table, [isUKNumber] is true exactly for the numbers
    whose cleaned form begins with [+44]; an absent or null number is not a
    UK number. *)
Theorem isUKNumber_is_plus44 :
  forall (phoneNumber : Js.arg),
    TimezoneDetector.isUKNumber TimezoneDetector.TIMEZONE_MAP phoneNumber
    = match phoneNumber with
      | Js.Str s => Js.startsWith (TimezoneDetector.clean s) "+44"
      | _ => false
      end.
Proof.
  intros [| |s]; try reflexivity.
  unfold TimezoneDetector.isUKNumber, TimezoneDetector.getCountryCode. cbn [Js.falsy].
  destruct (String.eqb s "") eqn:Hs.
  - apply String.eqb_eq in Hs. subst s. reflexivity.
  - destruct (Js.startsWith (TimezoneDetector.clean s) "+44") eqn:Hp.
    + now rewrite (DetectorMore.british_prefix_found _ Hp).
    + destruct (find _ _) as [code|] eqn:E; [|reflexivity].
      destruct (String.eqb code "+44") eqn:Hc; [|reflexivity].
      apply String.eqb_eq in Hc. subst code.
      apply DetectorMore.find_longestMatch in E. destruct E as [[_ Hm] _]. congruence.
Qed.

Module HandlerFacts.
Import Js JsFacts DetectorSpec DetectorMore GHLTriggerHandler.

Lemma startsWith_plus (x : string) :
  startsWith x "+" = true <-> exists r, x = String "+" r.
Proof.
  unfold startsWith. split.
  - destruct x as [|a x]; [discriminate|]. intros H.
    apply prefix_cons in H as [<- _]. eauto.
  - intros [r ->]. apply prefix_cons. split; [reflexivity | apply prefix_nil].
Qed.

Lemma startsWith_append (p rest : string) : startsWith (p ++ rest) p = true.
Proof.
  unfold startsWith. induction p as [|a p IH]; simpl append.
  - apply prefix_nil.
  - apply prefix_cons. split; [reflexivity | exact IH].
Qed.

Lemma british_form_has_plus (rest : string) : startsWith ("+44" ++ rest) "+" = true.
Proof. apply startsWith_plus. eexists. reflexivity. Qed.

Lemma kept_digitOrPlus (s : string) :
  allChars digitOrPlus (removeAll notDigitOrPlus s) = true.
Proof.
  apply (allChars_weaken (fun c => negb (notDigitOrPlus c))); [|apply removeAll_kept].
  intros c. unfold notDigitOrPlus, digitOrPlus. now rewrite negb_involutive.
Qed.

Lemma digitOrPlus_unchanged (x : string) :
  allChars digitOrPlus x = true -> removeAll notDigitOrPlus x = x.
Proof.
  intros H. apply removeAll_nothing.
  apply (allChars_weaken digitOrPlus); [|exact H].
  intros c. unfold notDigitOrPlus, digitOrPlus. now rewrite negb_involutive.
Qed.

Lemma allChars_substring1 (p : ascii -> bool) (x : string) :
  allChars p x = true -> allChars p (substring1 x) = true.
Proof.
  destruct x as [|c x]; simpl; [auto|]. intros H.
  now apply andb_true_iff in H as [_ H].
Qed.

(** The three ways a non-empty number leaves the formatter. *)
Lemma formatPhoneNumber_cases (s : string) :
  s <> "" ->
  let digits := removeAll notDigitOrPlus s in
  exists out,
    formatPhoneNumber (Str s) = Some out
    /\ allChars digitOrPlus out = true
    /\ ((startsWith digits "+" = true /\ out = digits)
        \/ (startsWith digits "+" = false /\ exists rest, out = "+44" ++ rest)).
Proof.
  intros Hne digits.
  assert (String.eqb s "" = false) as Hf
    by (destruct s; [now elim Hne | reflexivity]).
  unfold formatPhoneNumber. cbn [falsy]. rewrite Hf. fold digits.
  pose proof (kept_digitOrPlus s) as Hall. fold digits in Hall.
  destruct (startsWith digits "0" && Nat.eqb (String.length digits) 11)%bool eqn:E1.
  - rewrite british_form_has_plus. cbn [negb].
    eexists. split; [reflexivity|]. split.
    + rewrite allChars_append. now rewrite (allChars_substring1 _ _ Hall).
    + right. split; [|eauto].
      apply andb_true_iff in E1 as [E1 _].
      destruct digits as [|c r]; [discriminate|].
      unfold startsWith in *. apply prefix_cons in E1 as [<- _]. reflexivity.
  - destruct (startsWith digits "+") eqn:E2; cbn [negb].
    + eexists. split; [reflexivity|]. split; [exact Hall|]. now left.
    + eexists. split; [reflexivity|]. split.
      * rewrite allChars_append. now rewrite Hall.
      * right. split; [reflexivity|eauto].
Qed.

End HandlerFacts.

(** X7: [formatPhoneNumber] gives null for an absent, null or empty number.
    For any other input it gives a string that begins with [+] and holds only
    digits and [+]; formatting that string again changes nothing, and the
    detector's own cleaning leaves it as it is. *)
Theorem formatPhoneNumber_normal_form :
  forall (phone : string),
    (GHLTriggerHandler.formatPhoneNumber Js.Undefined = None
     /\ GHLTriggerHandler.formatPhoneNumber Js.Null = None
     /\ GHLTriggerHandler.formatPhoneNumber (Js.Str "") = None)
    /\ (phone <> "" ->
        exists out,
          GHLTriggerHandler.formatPhoneNumber (Js.Str phone) = Some out
          /\ Js.startsWith out "+" = true
          /\ DetectorSpec.allChars DetectorSpec.digitOrPlus out = true
          /\ GHLTriggerHandler.formatPhoneNumber (Js.Str out) = Some out
          /\ TimezoneDetector.clean out = out).
Proof.
  intros phone. split; [repeat split|]. intros Hne.
  destruct (HandlerFacts.formatPhoneNumber_cases phone Hne) as (out & Hout & Hall & Hcase).
  assert (Js.startsWith out "+" = true) as Hplus.
  { destruct Hcase as [[H ->]|[_ [rest ->]]];
      [exact H | apply HandlerFacts.british_form_has_plus]. }
  exists out. split; [exact Hout|]. split; [exact Hplus|]. split; [exact Hall|]. split.
  - pose proof Hplus as Hplus'.
    apply HandlerFacts.startsWith_plus in Hplus' as [r ->].
    unfold GHLTriggerHandler.formatPhoneNumber. cbn [Js.falsy].
    change (String.eqb (String "+" r) "") with false. cbv iota.
    rewrite (HandlerFacts.digitOrPlus_unchanged _ Hall).
    change (Js.startsWith (String "+" r) "0") with false. cbn [andb].
    rewrite Hplus. reflexivity.
  - apply DetectorMore.removeAll_nothing.
    apply (DetectorMore.allChars_weaken DetectorSpec.digitOrPlus); [|exact Hall].
    apply DetectorMore.digitOrPlus_not_separator.
Qed.

Lemma formatPhoneNumber_normal_form_witness :
  exists out,
    GHLTriggerHandler.formatPhoneNumber (Js.Str "07700 900123") = Some out
    /\ Js.startsWith out "+" = true
    /\ DetectorSpec.allChars DetectorSpec.digitOrPlus out = true
    /\ GHLTriggerHandler.formatPhoneNumber (Js.Str out) = Some out
    /\ TimezoneDetector.clean out = out.
Proof.
  apply (proj2 (formatPhoneNumber_normal_form "07700 900123")). discriminate.
Defined.

(** X8: a number written without a leading [+] is taken to be British: once
    formatted it begins with [+44], so with the shipped table the detector
    answers Europe/London and [isUKNumber] is true, whatever the configured
    default. *)
Theorem number_without_plus_is_british :
  forall (dflt : option string) (phone : string),
    phone <> "" ->
    Js.startsWith (Js.removeAll GHLTriggerHandler.notDigitOrPlus phone) "+" = false ->
    exists out,
      GHLTriggerHandler.formatPhoneNumber (Js.Str phone) = Some out
      /\ Js.startsWith out "+44" = true
      /\ TimezoneDetector.detectTimezone dflt TimezoneDetector.TIMEZONE_MAP (Js.Str out)
         = "Europe/London"
      /\ TimezoneDetector.isUKNumber TimezoneDetector.TIMEZONE_MAP (Js.Str out) = true.
Proof.
  intros dflt phone Hne Hplus.
  destruct (HandlerFacts.formatPhoneNumber_cases phone Hne) as (out & Hout & Hall & Hcase).
  destruct Hcase as [[H _]|[_ [rest ->]]]; [congruence|].
  assert (TimezoneDetector.clean ("+44" ++ rest) = "+44" ++ rest) as Hclean.
  { apply DetectorMore.removeAll_nothing.
    apply (DetectorMore.allChars_weaken DetectorSpec.digitOrPlus); [|exact Hall].
    apply DetectorMore.digitOrPlus_not_separator. }
  assert (find (Js.startsWith (TimezoneDetector.clean ("+44" ++ rest)))
            (TimezoneDetector.sortedCodes TimezoneDetector.TIMEZONE_MAP) = Some "+44")
    as Hfind by (apply DetectorMore.british_prefix_found; rewrite Hclean;
                 apply HandlerFacts.startsWith_append).
  exists ("+44" ++ rest). split; [exact Hout|].
  split; [apply HandlerFacts.startsWith_append|]. split.
  - apply (TimezoneDetectorFacts.detectTimezone_found dflt _ _ "+44");
      [reflexivity | exact Hfind | reflexivity].
  - unfold TimezoneDetector.isUKNumber, TimezoneDetector.getCountryCode.
    cbn [Js.falsy]. change (String.eqb ("+44" ++ rest) "") with false. cbv iota.
    now rewrite Hfind.
Qed.

Lemma number_without_plus_is_british_witness :
  exists out,
    GHLTriggerHandler.formatPhoneNumber (Js.Str "020 7946 0958") = Some out
    /\ Js.startsWith out "+44" = true
    /\ TimezoneDetector.detectTimezone (Some "Asia/Tokyo") TimezoneDetector.TIMEZONE_MAP
         (Js.Str out) = "Europe/London"
    /\ TimezoneDetector.isUKNumber TimezoneDetector.TIMEZONE_MAP (Js.Str out) = true.
Proof.
  apply (number_without_plus_is_british (Some "Asia/Tokyo") "020 7946 0958");
    [discriminate | reflexivity].
Defined.

(** ** Printing numbers and reading them back *)

Module NumberFacts.
Import Js JsFacts DetectorSpec NumberSpec.

Lemma digitValue_digitChar (d : Z) :
  0 <= d <= 9 -> digitValue (digitChar d) = Some d.
Proof.
  intros H.
  assert (d = 0 \/ d = 1 \/ d = 2 \/ d = 3 \/ d = 4 \/ d = 5 \/ d = 6 \/ d = 7
          \/ d = 8 \/ d = 9) as Hc by lia.
  repeat destruct Hc as [->|Hc]; try reflexivity. subst d. reflexivity.
Qed.

Lemma isDigit_digitChar (d : Z) : 0 <= d <= 9 -> isDigit (digitChar d) = true.
Proof.
  intros H.
  assert (d = 0 \/ d = 1 \/ d = 2 \/ d = 3 \/ d = 4 \/ d = 5 \/ d = 6 \/ d = 7
          \/ d = 8 \/ d = 9) as Hc by lia.
  repeat destruct Hc as [->|Hc]; try reflexivity. subst d. reflexivity.
Qed.

Lemma parseDigits_digit (d : Z) (rest : string) (acc : num) :
  0 <= d <= 9 -> fresh acc ->
  parseDigits 10 (String (digitChar d) rest) acc = parseDigits 10 rest (Num d).
Proof.
  intros Hd Hacc. cbn [parseDigits]. rewrite (digitValue_digitChar d Hd).
  replace (d <? 10) with true by (symmetry; apply Z.ltb_lt; lia).
  destruct Hacc as [-> | ->]; [reflexivity|]. f_equal.
Qed.

Lemma parseDigits_showDigits (fuel : nat) :
  forall (n : Z) (rest : string) (acc : num),
    0 <= n < 2 ^ Z.of_nat (S fuel) -> fresh acc ->
    parseDigits 10 (showDigits (S fuel) n rest) acc = parseDigits 10 rest (Num n).
Proof.
  induction fuel as [|fuel IH]; intros n rest acc Hn Hacc.
  - cbn [showDigits]. replace (n <? 10) with true
      by (symmetry; apply Z.ltb_lt; change (2 ^ Z.of_nat 1) with 2 in Hn; lia).
    apply parseDigits_digit; [|exact Hacc].
    change (2 ^ Z.of_nat 1) with 2 in Hn. lia.
  - change (showDigits (S (S fuel)) n rest)
      with (if n <? 10 then String (digitChar n) rest
            else showDigits (S fuel) (n / 10) (String (digitChar (n mod 10)) rest)).
    destruct (n <? 10) eqn:E.
    + apply Z.ltb_lt in E. apply parseDigits_digit; [lia | exact Hacc].
    + apply Z.ltb_ge in E.
      pose proof (Z.div_mod n 10 ltac:(lia)) as Hdm.
      pose proof (Z.mod_pos_bound n 10 ltac:(lia)) as Hmod.
      assert (0 <= n / 10 < 2 ^ Z.of_nat (S fuel)) as Hq.
      { split; [apply Z.div_pos; lia|].
        apply Z.div_lt_upper_bound; [lia|].
        replace (Z.of_nat (S (S fuel))) with (Z.succ (Z.of_nat (S fuel))) in Hn by lia.
        rewrite Z.pow_succ_r in Hn by lia. lia. }
      rewrite (IH (n / 10) _ acc Hq Hacc).
      cbn [parseDigits]. rewrite (digitValue_digitChar (n mod 10)) by lia.
      replace (n mod 10 <? 10) with true by (symmetry; apply Z.ltb_lt; lia).
      f_equal. f_equal. lia.
Qed.

Lemma showDigits_allDigits (fuel : nat) :
  forall (n : Z) (rest : string),
    0 <= n -> allChars isDigit rest = true ->
    allChars isDigit (showDigits fuel n rest) = true.
Proof.
  induction fuel as [|fuel IH]; intros n rest Hn Hrest; [exact Hrest|].
  cbn [showDigits]. destruct (n <? 10) eqn:E.
  - apply Z.ltb_lt in E. cbn [allChars]. now rewrite isDigit_digitChar by lia.
  - apply Z.ltb_ge in E. apply IH; [apply Z.div_pos; lia|].
    pose proof (Z.mod_pos_bound n 10 ltac:(lia)).
    cbn [allChars]. now rewrite isDigit_digitChar by lia.
Qed.

Lemma showDigits_nonempty (fuel : nat) :
  forall (n : Z) (rest : string), showDigits (S fuel) n rest <> "".
Proof.
  induction fuel as [|fuel IH]; intros n rest.
  - cbn [showDigits]. destruct (n <? 10); discriminate.
  - change (showDigits (S (S fuel)) n rest)
      with (if n <? 10 then String (digitChar n) rest
            else showDigits (S fuel) (n / 10) (String (digitChar (n mod 10)) rest)).
    destruct (n <? 10); [discriminate | apply IH].
Qed.

Lemma log2_fuel (n : Z) : 0 <= n -> n < 2 ^ Z.of_nat (S (Z.to_nat (Z.log2 n))).
Proof.
  intros Hn. pose proof (Z.log2_nonneg n).
  replace (Z.of_nat (S (Z.to_nat (Z.log2 n)))) with (Z.succ (Z.log2 n)) by lia.
  destruct (Z.eq_dec n 0) as [->|Hne]; [reflexivity|].
  apply Z.log2_spec. lia.
Qed.

Lemma showNat_digits (n : Z) :
  0 <= n -> allChars isDigit (showNat n) = true /\ showNat n <> "".
Proof.
  intros Hn. split; [now apply showDigits_allDigits | apply showDigits_nonempty].
Qed.

Lemma parseDigits_showNat (n : Z) (acc : num) :
  0 <= n -> fresh acc -> parseDigits 10 (showNat n) acc = Num n.
Proof.
  intros Hn Hacc. unfold showNat.
  rewrite parseDigits_showDigits; [reflexivity | | exact Hacc].
  split; [exact Hn | now apply log2_fuel].
Qed.

Lemma digit_not_space (c : ascii) : isDigit c = true -> isWhiteSpace c = false.
Proof. destruct c as [[] [] [] [] [] [] [] []]; vm_compute; congruence. Qed.

(** A string of digits is read in base 10, without a sign. *)
Lemma parseInt_digits (s : string) :
  s <> "" -> allChars isDigit s = true ->
  parseInt s = match parseDigits 10 s NaN with
               | Num v => Num (1 * v)
               | NaN => NaN
               end.
Proof.
  destruct s as [|c r]; [congruence|]. intros _ H.
  cbn [allChars] in H. apply andb_true_iff in H as [Hc Hr].
  unfold parseInt. cbn [trimStart]. rewrite (digit_not_space c Hc).
  destruct c as [[] [] [] [] [] [] [] []]; try discriminate Hc; try reflexivity.
  destruct r as [|c2 r2]; [reflexivity|].
  cbn [allChars] in Hr. apply andb_true_iff in Hr as [Hc2 _].
  destruct c2 as [[] [] [] [] [] [] [] []]; try discriminate Hc2; reflexivity.
Qed.

(** ... and with a minus sign in front, negated. *)
Lemma parseInt_minus_digits (s : string) :
  s <> "" -> allChars isDigit s = true ->
  parseInt (String "-" s) = match parseDigits 10 s NaN with
                            | Num v => Num (-1 * v)
                            | NaN => NaN
                            end.
Proof.
  destruct s as [|c r]; [congruence|]. intros _ H.
  cbn [allChars] in H. apply andb_true_iff in H as [Hc Hr].
  unfold parseInt. cbn [trimStart].
  change (isWhiteSpace "-") with false. cbv iota.
  destruct c as [[] [] [] [] [] [] [] []]; try discriminate Hc; try reflexivity.
  destruct r as [|c2 r2]; [reflexivity|].
  cbn [allChars] in Hr. apply andb_true_iff in Hr as [Hc2 _].
  destruct c2 as [[] [] [] [] [] [] [] []]; try discriminate Hc2; reflexivity.
Qed.

Lemma parseInt_intToString (n : Z) : parseInt (intToString n) = Num n.
Proof.
  unfold intToString. destruct (n <? 0) eqn:E.
  - apply Z.ltb_lt in E. destruct (showNat_digits (- n) ltac:(lia)) as [Hd Hne].
    rewrite (parseInt_minus_digits _ Hne Hd).
    rewrite parseDigits_showNat by (try lia; now left). f_equal. lia.
  - apply Z.ltb_ge in E. destruct (showNat_digits n E) as [Hd Hne].
    rewrite (parseInt_digits _ Hne Hd).
    rewrite parseDigits_showNat by (try lia; now left). f_equal. lia.
Qed.

Lemma intToString_nonempty (n : Z) : intToString n <> "".
Proof.
  unfold intToString. destruct (n <? 0); [discriminate|].
  apply showDigits_nonempty.
Qed.

End NumberFacts.

(** X9: the text written for the attempt counter reads back as the number.
    The handler hands [String(retryInfo.attempts)] to the contact update, and
    reads a contact's [call_attempts] with [parseInt(... || '0')].  Applied
    to the text written, for an attempt number that a JavaScript number
    holds exactly, the reading expression gives the number back; applied to
    a missing or an empty field it gives 0.  This is about the two
    conversions only: under which field the contact store keeps the text,
    and whether it hands it back, is not part of this program. *)
Theorem call_attempts_text_reads_back :
  forall (retryInfo : SmartRetryCalculator.RetryInfo),
    NumberSpec.safeInteger (SmartRetryCalculator.attemptsOf retryInfo) ->
    EndOfCallHandler.currentAttempts (Some (EndOfCallHandler.callAttempts retryInfo))
      = Js.Num (SmartRetryCalculator.attemptsOf retryInfo)
    /\ EndOfCallHandler.currentAttempts None = Js.Num 0
    /\ EndOfCallHandler.currentAttempts (Some "") = Js.Num 0.
Proof.
  intros retryInfo _. split; [|split; reflexivity].
  unfold EndOfCallHandler.currentAttempts, EndOfCallHandler.callAttempts, Js.orElse.
  pose proof (NumberFacts.intToString_nonempty
                (SmartRetryCalculator.attemptsOf retryInfo)) as Hne.
  destruct (String.eqb _ "") eqn:E; [apply String.eqb_eq in E; contradiction|].
  apply NumberFacts.parseInt_intToString.
Qed.

Lemma call_attempts_text_reads_back_witness :
  EndOfCallHandler.currentAttempts
    (Some (EndOfCallHandler.callAttempts
             (SmartRetryCalculator.ShouldNotRetry
                {| SmartRetryCalculator.Exhausted.reason := "max_attempts_reached";
                   SmartRetryCalculator.Exhausted.attempts := 12;
                   SmartRetryCalculator.Exhausted.maxAttempts := 3;
                   SmartRetryCalculator.Exhausted.action := "send_sms_fallback" |})))
  = Js.Num 12.
Proof.
  apply (call_attempts_text_reads_back
           (SmartRetryCalculator.ShouldNotRetry
              {| SmartRetryCalculator.Exhausted.reason := "max_attempts_reached";
                 SmartRetryCalculator.Exhausted.attempts := 12;
                 SmartRetryCalculator.Exhausted.maxAttempts := 3;
                 SmartRetryCalculator.Exhausted.action := "send_sms_fallback" |})).
  unfold NumberSpec.safeInteger. simpl. lia.
Defined.

Module ClockTextFacts.
Import Js JsFacts DetectorSpec NumberSpec NumberFacts CallingHoursValidator.

Lemma split_whole (sep : ascii) (b : string) :
  allChars (fun c => negb (Ascii.eqb c sep)) b = true -> split sep b = [b].
Proof.
  induction b as [|c r IH]; cbn [split allChars]; [reflexivity|].
  intros H. apply andb_true_iff in H as [Hc Hr]. apply negb_true_iff in Hc.
  rewrite Hc, (IH Hr). reflexivity.
Qed.

Lemma split_at (sep : ascii) (a b : string) :
  allChars (fun c => negb (Ascii.eqb c sep)) a = true ->
  split sep (a ++ String sep b) = a :: split sep b.
Proof.
  induction a as [|c r IH]; cbn [split allChars append].
  - intros _. now rewrite Ascii.eqb_refl.
  - intros H. apply andb_true_iff in H as [Hc Hr]. apply negb_true_iff in Hc.
    rewrite Hc, (IH Hr). reflexivity.
Qed.

Lemma digit_notColon (c : ascii) : isDigit c = true -> notColon c = true.
Proof. destruct c as [[] [] [] [] [] [] [] []]; vm_compute; congruence. Qed.

Lemma fillChars_zero_digits (k : nat) (s : string) :
  allChars isDigit s = true -> allChars isDigit (fillChars k "0" s) = true.
Proof. induction k as [|k IH]; cbn [fillChars allChars]; auto. Qed.

Lemma parseDigits_fill (k : nat) (n : Z) (acc : num) :
  0 <= n -> fresh acc ->
  parseDigits 10 (fillChars k "0" (showNat n)) acc = Num n.
Proof.
  intros Hn. revert acc. induction k as [|k IH]; intros acc Hacc; cbn [fillChars].
  - now apply parseDigits_showNat.
  - change "0"%char with (digitChar 0).
    rewrite parseDigits_digit by (try lia; exact Hacc).
    change (digitChar 0) with "0"%char. apply IH. now right.
Qed.

(** The text of one clock field reads back as the number printed, holds no
    colon and is not empty. *)
Lemma padded_field (v : num) :
  let text := padStart (toString v) 2 "0" in
  parseInt text = v /\ allChars notColon text = true /\ text <> "".
Proof.
  destruct v as [|n]; [repeat split; discriminate|].
  cbn [toString]. unfold intToString. destruct (n <? 0) eqn:E.
  - apply Z.ltb_lt in E. destruct (showNat_digits (- n) ltac:(lia)) as [Hd Hne].
    assert (padStart (String "-" (showNat (- n))) 2 "0" = String "-" (showNat (- n)))
      as ->.
    { unfold padStart. destruct (showNat (- n)); [congruence | reflexivity]. }
    split; [|split; [|discriminate]].
    + rewrite (parseInt_minus_digits _ Hne Hd).
      rewrite parseDigits_showNat by (try lia; now left). f_equal. lia.
    + cbn [allChars]. apply (DetectorMore.allChars_weaken isDigit); [|exact Hd].
      apply digit_notColon.
  - apply Z.ltb_ge in E. destruct (showNat_digits n E) as [Hd Hne].
    unfold padStart. set (k := (2 - String.length (showNat n))%nat).
    pose proof (fillChars_zero_digits k _ Hd) as Hall.
    assert (fillChars k "0" (showNat n) <> "") as Hne'.
    { destruct k; cbn [fillChars]; [exact Hne | discriminate]. }
    split; [|split; [|exact Hne']].
    + rewrite (parseInt_digits _ Hne' Hall).
      rewrite parseDigits_fill by (try lia; now left). f_equal. lia.
    + apply (DetectorMore.allChars_weaken isDigit); [|exact Hall].
      apply digit_notColon.
Qed.

Lemma clockText_fields (hour minute : num) (dflt0 dflt1 : string) :
  field (Some (clockText hour minute)) 0 dflt0 = padStart (toString hour) 2 "0"
  /\ field (Some (clockText hour minute)) 1 dflt1 = padStart (toString minute) 2 "0".
Proof.
  destruct (padded_field hour) as (_ & Hh & Hhne).
  destruct (padded_field minute) as (_ & Hm & Hmne).
  unfold field, clockText.
  change (":" ++ padStart (toString minute) 2 "0")
    with (String ":" (padStart (toString minute) 2 "0")).
  rewrite (split_at ":" _ _ Hh), (split_whole ":" _ Hm).
  cbn [nth_error]. unfold orElse. split.
  - destruct (String.eqb _ "") eqn:E; [|reflexivity].
    apply String.eqb_eq in E. contradiction.
  - destruct (String.eqb _ "") eqn:E; [|reflexivity].
    apply String.eqb_eq in E. contradiction.
Qed.

End ClockTextFacts.

(** X10: the window printed by [getBusinessHoursInfo] reads back.  Setting
    [BUSINESS_HOURS_START] and [BUSINESS_HOURS_END] to the [start] and [end]
    texts of an instance and constructing a new one gives the same four time
    fields, whatever the list of days. *)
Theorem business_hours_text_round_trip :
  forall (this : CallingHoursValidator.t) (daysText : option string),
    NumberSpec.safeNumber (CallingHoursValidator.startHour this) ->
    NumberSpec.safeNumber (CallingHoursValidator.startMinute this) ->
    NumberSpec.safeNumber (CallingHoursValidator.endHour this) ->
    NumberSpec.safeNumber (CallingHoursValidator.endMinute this) ->
    let info := CallingHoursValidator.getBusinessHoursInfo this in
    let that :=
      CallingHoursValidator.constructor
        {| CallingHoursValidator.BUSINESS_HOURS_START :=
             Some (CallingHoursValidator.start info);
           CallingHoursValidator.BUSINESS_HOURS_END :=
             Some (CallingHoursValidator.end_ info);
           CallingHoursValidator.BUSINESS_DAYS := daysText |} in
    CallingHoursValidator.startHour that = CallingHoursValidator.startHour this
    /\ CallingHoursValidator.startMinute that = CallingHoursValidator.startMinute this
    /\ CallingHoursValidator.endHour that = CallingHoursValidator.endHour this
    /\ CallingHoursValidator.endMinute that = CallingHoursValidator.endMinute this.
Proof.
  intros this daysText _ _ _ _ info that.
  unfold that, info, CallingHoursValidator.constructor,
    CallingHoursValidator.getBusinessHoursInfo.
  cbn [CallingHoursValidator.startHour CallingHoursValidator.startMinute
       CallingHoursValidator.endHour CallingHoursValidator.endMinute
       CallingHoursValidator.BUSINESS_HOURS_START CallingHoursValidator.BUSINESS_HOURS_END
       CallingHoursValidator.start CallingHoursValidator.end_].
  destruct (ClockTextFacts.clockText_fields (CallingHoursValidator.startHour this)
              (CallingHoursValidator.startMinute this) "9" "0") as [-> ->].
  destruct (ClockTextFacts.clockText_fields (CallingHoursValidator.endHour this)
              (CallingHoursValidator.endMinute this) "19" "0") as [-> ->].
  repeat split; apply ClockTextFacts.padded_field.
Qed.

Lemma business_hours_text_round_trip_witness :
  let that :=
    CallingHoursValidator.constructor
      {| CallingHoursValidator.BUSINESS_HOURS_START := Some "09:00";
         CallingHoursValidator.BUSINESS_HOURS_END := Some "19:00";
         CallingHoursValidator.BUSINESS_DAYS := Some "6,7" |} in
  CallingHoursValidator.startHour that = Js.Num 9
  /\ CallingHoursValidator.startMinute that = Js.Num 0
  /\ CallingHoursValidator.endHour that = Js.Num 19
  /\ CallingHoursValidator.endMinute that = Js.Num 0.
Proof.
  apply (business_hours_text_round_trip CallingHoursValidator.byDefault (Some "6,7"));
    unfold NumberSpec.safeNumber, NumberSpec.safeInteger; simpl; lia.
Defined.

(** ** Zones that keep one offset *)

Module FixedZoneFacts.
Import Js Luxon LuxonFacts CalendarSpec CallingHoursValidator ValidatorFacts.
Import FixedZoneSpec.

Section Fixed.
Variable zones : string -> option Zone.
Variable timezone : string.
Variable z : Zone.
Variable m : Z.
Hypothesis Hzone : zones timezone = Some z.
Hypothesis Hfix : keepsOffset z m.
Hypothesis Hm : - 1440 <= m <= 1440.

Variables (sh sm eh em : Z) (days : list num).

Lemma localTS_fixed (y : Z) : localTS z y = y + m * 60000.
Proof. unfold localTS. now rewrite Hfix. Qed.

Lemma fromJSDate_fixed (y : Z) :
  - 84 * 10 ^ 14 <= y <= 84 * 10 ^ 14 ->
  fromJSDate (Date y) (zones timezone) = Valid y z.
Proof.
  intros Hy. rewrite Hzone. unfold fromJSDate.
  replace (inRange y) with true
    by (symmetry; apply inRange_iff; unfold maxTime; lia).
  apply make_Valid; apply inRange_iff; rewrite ?localTS_fixed; unfold maxTime; lia.
Qed.

(** With one offset every boundary is settled. *)
Lemma set_fixed (y hour minute : Z) :
  - 84 * 10 ^ 14 <= y <= 84 * 10 ^ 14 ->
  withinDay hour minute ->
  set (Valid y z) hour minute 0 = Valid (startOn m hour minute y 0) z.
Proof.
  intros Hy Hb. unfold withinDay in Hb.
  assert (settledAt (Valid y z) hour minute) as Hs
    by (cbn [settledAt]; now rewrite !Hfix).
  assert (sameDayInstant z y hour minute = startOn m hour minute y 0) as E.
  { unfold sameDayInstant, startOn. rewrite localTS_fixed, Hfix. ring. }
  destruct (BoundaryFacts.set_settled z y hour minute Hs) as [Hbad | Hok];
    [|now rewrite Hok, E].
  exfalso. revert Hbad. cbn [set]. unfold resolve.
  rewrite localTS_fixed, Hfix.
  pose proof (Z.mod_pos_bound (y + m * 60000) msPerDay ltac:(unfold msPerDay; lia)).
  pose proof (Z.mod_pos_bound (y + m * 60000) 1000 ltac:(lia)).
  set (l' := y + m * 60000 - (y + m * 60000) mod msPerDay + hour * 3600000
             + minute * 60000 + 0 * 1000 + (y + m * 60000) mod 1000).
  assert (- 85 * 10 ^ 14 <= l' - m * 60000 <= 85 * 10 ^ 14) as Hl
    by (unfold l', msPerDay in *; lia).
  replace (inRange l') with true
    by (symmetry; apply inRange_iff; unfold maxTime; lia).
  rewrite fixOffset_settled.
  - rewrite Z.add_0_r, make_Valid; [discriminate | |];
      apply inRange_iff; rewrite ?localTS_fixed; unfold maxTime; lia.
  - rewrite offsetAt_inRange; [now rewrite Hfix|].
    apply inRange_iff. unfold maxTime. lia.
Qed.

Lemma plus_day_fixed (y : Z) :
  - 84 * 10 ^ 14 <= y <= 84 * 10 ^ 14 ->
  plus (Valid y z) 1 0 = Valid (y + msPerDay) z.
Proof.
  intros Hy. cbn [plus]. unfold resolve. rewrite localTS_fixed, Hfix.
  change (0 * 60000) with 0. unfold msPerDay.
  replace (inRange (y + m * 60000 + 1 * 86400000)) with true
    by (symmetry; apply inRange_iff; unfold maxTime; lia).
  rewrite fixOffset_settled.
  - rewrite Z.add_0_r.
    replace (y + m * 60000 + 1 * 86400000 - m * 60000) with (y + 86400000) by ring.
    apply make_Valid; apply inRange_iff; rewrite ?localTS_fixed; unfold maxTime; lia.
  - rewrite offsetAt_inRange; [now rewrite Hfix|].
    apply inRange_iff. unfold maxTime. lia.
Qed.

Lemma startOn_next_day (instant k : Z) :
  startOn m sh sm (instant + msPerDay) k = startOn m sh sm instant (k + 1).
Proof. unfold startOn, msPerDay. Z.div_mod_to_equations. lia. Qed.

Lemma startOn_plus_day (instant k : Z) :
  startOn m sh sm instant k + msPerDay = startOn m sh sm instant (k + 1).
Proof. unfold startOn. ring. Qed.

Lemma startOn_bounds (instant k : Z) :
  0 <= sh < 24 -> 0 <= sm < 60 ->
  instant + (k - 2) * msPerDay <= startOn m sh sm instant k
    <= instant + (k + 2) * msPerDay.
Proof.
  intros H1 H2. unfold startOn, msPerDay.
  pose proof (Z.mod_pos_bound (instant + m * 60000) 86400000 ltac:(lia)).
  pose proof (Z.mod_pos_bound (instant + m * 60000) 1000 ltac:(lia)).
  lia.
Qed.

(** With one offset the validator compares the weekday and the time of
    day, and nothing else. *)
Lemma isWithin_fixed (instant : Z) :
  - 84 * 10 ^ 14 <= instant <= 84 * 10 ^ 14 ->
  withinDay sh sm -> withinDay eh em ->
  isWithinCallingHours zones (validator sh sm eh em days) (Date instant) timezone
  = Returned (isBusinessDay (validator sh sm eh em days) (Valid instant z)
              && ((sh * 3600000 + sm * 60000 <=? timeOfDay z instant)
                  && (timeOfDay z instant <? eh * 3600000 + em * 60000)))%bool.
Proof.
  intros Hi Hs He. unfold isWithinCallingHours.
  rewrite (fromJSDate_fixed instant Hi).
  destruct (isBusinessDay _ _); cbn [negb andb]; [|reflexivity].
  cbn [startHour startMinute endHour endMinute validator].
  rewrite !setTime_numeric. cbn [bind].
  rewrite (set_fixed instant sh sm Hi Hs), (set_fixed instant eh em Hi He).
  cbn [ge lt]. f_equal.
  assert (forall hour minute,
            startOn m hour minute instant 0 = sameDayInstant z instant hour minute)
    as E.
  { intros. unfold sameDayInstant, startOn. rewrite localTS_fixed, Hfix. ring. }
  rewrite !E. f_equal.
  - apply eq_true_iff_eq. rewrite !Z.leb_le. apply sameDayInstant_le.
  - apply eq_true_iff_eq. rewrite !Z.ltb_lt. apply sameDayInstant_gt.
Qed.

(** Where the start of business on a later day falls: on that day, at the
    start time plus the millisecond carried along. *)
Lemma startOn_parts (instant k : Z) :
  0 <= sh < 24 -> 0 <= sm < 60 ->
  timeOfDay z (startOn m sh sm instant k)
    = sh * 3600000 + sm * 60000 + (instant + m * 60000) mod 1000
  /\ localTS z (startOn m sh sm instant k) / msPerDay
     = (instant + m * 60000) / msPerDay + k.
Proof.
  intros H0 H1. unfold timeOfDay. rewrite localTS_fixed.
  unfold startOn, msPerDay in *. Z.div_mod_to_equations. lia.
Qed.

Lemma weekday_startOn (instant k : Z) :
  0 <= sh < 24 -> 0 <= sm < 60 ->
  weekdayOf z (startOn m sh sm instant k)
  = (let js := ((instant + m * 60000) / msPerDay + k + 4) mod 7 in
     if js =? 0 then 7 else js).
Proof.
  intros H0 H1. unfold weekdayOf.
  now rewrite (proj2 (startOn_parts instant k H0 H1)).
Qed.

(** Within seven consecutive days every weekday comes up. *)
Lemma weekday_comes_up (instant k w : Z) :
  0 <= sh < 24 -> 0 <= sm < 60 ->
  1 <= w <= 7 ->
  exists i, 0 <= i < 7 /\ weekdayOf z (startOn m sh sm instant (k + i)) = w.
Proof.
  intros H0 H1 Hw.
  set (q := (instant + m * 60000) / msPerDay + k).
  exists ((w - q - 4) mod 7).
  split; [apply Z.mod_pos_bound; lia|].
  rewrite (weekday_startOn _ _ H0 H1). cbv zeta.
  replace ((instant + m * 60000) / msPerDay + (k + (w - q - 4) mod 7) + 4)
    with (q + 4 + (w - q - 4) mod 7) by (unfold q; ring).
  assert ((q + 4 + (w - q - 4) mod 7) mod 7 = w mod 7) as ->.
  { rewrite Zplus_mod_idemp_r. f_equal. ring. }
  destruct (Z.eq_dec w 7) as [->|Hne]; [reflexivity|].
  rewrite Z.mod_small by lia.
  destruct (w =? 0) eqn:E; [apply Z.eqb_eq in E; lia | reflexivity].
Qed.

(** The loop, started at the start of business of some day: it stops at
    the start of business of a later day, on a business day unless it
    ran out of iterations without meeting one. *)
Lemma advance_startOn (instant : Z) (n : nat) :
  - 8 * 10 ^ 15 - msPerDay <= instant <= 8 * 10 ^ 15 + msPerDay ->
  0 <= sh < 24 -> 0 <= sm < 60 ->
  forall k,
  0 <= k -> k + Z.of_nat n <= 20 ->
  exists j,
    0 <= j <= Z.of_nat n
    /\ advance (validator sh sm eh em days)
         (Valid (startOn m sh sm instant k) z) n
       = Valid (startOn m sh sm instant (k + j)) z
    /\ (isBusinessDay (validator sh sm eh em days)
          (Valid (startOn m sh sm instant (k + j)) z) = true
        \/ (j = Z.of_nat n
            /\ forall i, 0 <= i < Z.of_nat n ->
                 isBusinessDay (validator sh sm eh em days)
                   (Valid (startOn m sh sm instant (k + i)) z)
                 = false)).
Proof.
  intros Hi Hsh Hsm.
  induction n as [|n IH]; intros k Hk Hkn.
  - exists 0. split; [lia|]. rewrite Z.add_0_r. split; [reflexivity|].
    right. split; [reflexivity | intros i Hi'; lia].
  - cbn [advance].
    destruct (isBusinessDay (validator sh sm eh em days)
                (Valid (startOn m sh sm instant k) z)) eqn:E;
      cbn [negb].
    + exists 0. split; [lia|]. rewrite Z.add_0_r. split; [reflexivity|]. now left.
    + pose proof (startOn_bounds instant k Hsh Hsm) as Hb.
      rewrite plus_day_fixed, startOn_plus_day
        by (unfold msPerDay in *; lia).
      destruct (IH (k + 1) ltac:(lia) ltac:(lia)) as (j & Hj & Hadv & Hres).
      exists (j + 1). split; [lia|].
      replace (k + (j + 1)) with (k + 1 + j) by ring.
      split; [exact Hadv|]. destruct Hres as [Hb'|[Hjn Hnone]]; [now left|].
      right. split; [lia|]. intros i Hi'.
      destruct (Z.eq_dec i 0) as [->|Hi0]; [now rewrite Z.add_0_r|].
      replace (k + i) with (k + 1 + (i - 1)) by ring. apply Hnone. lia.
Qed.

(** The answer of [getNextValidCallingTime] outside calling hours: the
    start of business today, when that is still ahead on a business day;
    otherwise the start of business on one of the next eight days. *)
Lemma getNext_fixed (instant : Z) :
  - 8 * 10 ^ 15 - msPerDay <= instant <= 8 * 10 ^ 15 + msPerDay ->
  0 <= sh < 24 -> 0 <= sm < 60 ->
  isWithinCallingHours zones (validator sh sm eh em days) (Date instant) timezone
    = Returned false ->
  exists j,
    getNextValidCallingTime zones (validator sh sm eh em days) (Date instant)
      timezone
      = Returned (Date (startOn m sh sm instant j))
    /\ ((j = 0
         /\ isBusinessDay (validator sh sm eh em days) (Valid instant z) = true
         /\ instant < startOn m sh sm instant 0)
        \/ (1 <= j <= 8
            /\ (isBusinessDay (validator sh sm eh em days)
                  (Valid (startOn m sh sm instant j) z) = true
                \/ (j = 8
                    /\ forall i, 1 <= i < 8 ->
                         isBusinessDay (validator sh sm eh em days)
                           (Valid (startOn m sh sm instant i) z)
                         = false)))).
Proof.
  intros Hi Hsh Hsm Hout. unfold getNextValidCallingTime.
  rewrite getNextValidCallingTime_asks, Hout. cbn [bind].
  assert (withinDay sh sm) as Hs by (unfold withinDay; lia).
  rewrite (fromJSDate_fixed instant) by (unfold msPerDay in *; lia).
  cbn [startHour startMinute validator].
  rewrite !setTime_numeric. cbn [bind].
  rewrite (set_fixed instant sh sm) by (unfold msPerDay in *; lia || exact Hs).
  assert (forall k, 0 <= k <= 20 ->
            timeClip (startOn m sh sm instant k) = Date (startOn m sh sm instant k))
    as Hclip.
  { intros k Hk. apply timeClip_inRange, inRange_iff.
    pose proof (startOn_bounds instant k Hsh Hsm).
    unfold maxTime, msPerDay in *. lia. }
  cbn [lt].
  destruct ((instant <? startOn m sh sm instant 0)
            && isBusinessDay (validator sh sm eh em days) (Valid instant z))%bool
    eqn:E.
  - apply andb_true_iff in E as [E1 E2]. apply Z.ltb_lt in E1.
    exists 0. cbn [toJSDate]. rewrite Hclip by lia.
    split; [reflexivity|]. left. auto.
  - rewrite plus_day_fixed by (unfold msPerDay in *; lia).
    rewrite (set_fixed (instant + msPerDay) sh sm)
      by (unfold msPerDay in *; lia || exact Hs).
    rewrite startOn_next_day.
    destruct (advance_startOn instant 7 Hi Hsh Hsm (0 + 1) ltac:(lia) ltac:(lia))
      as (j & Hj & Hadv & Hres).
    rewrite Hadv. cbn [toJSDate]. rewrite Hclip by lia.
    exists (1 + j). split; [reflexivity|]. right. split; [lia|].
    destruct Hres as [Hb|[Hj7 Hnone]]; [now left|].
    right. split; [lia|]. intros i Hi'.
    replace i with (0 + 1 + (i - 1)) by ring. apply Hnone. lia.
Qed.
End Fixed.
End FixedZoneFacts.

Module CallableFacts.
Import Js Luxon LuxonFacts CalendarSpec CallingHoursValidator ValidatorFacts.

Lemma keepsOffset_bound (z : Zone) (m : Z) :
  keepsOffset z m -> plausible z -> - 1440 <= m <= 1440.
Proof. intros Hfix Hz. rewrite <- (Hfix 0). apply Hz. Qed.

(** In a zone that keeps one offset, what [getNextValidCallingTime]
    returns is within calling hours. *)
Lemma next_valid_callable (zones : string -> option Zone) (days : list num)
    (sh sm eh em t : Z) (timezone : string) (z : Zone) (m w : Z) :
  zones timezone = Some z ->
  keepsOffset z m ->
  plausible z ->
  - 8 * 10 ^ 15 - msPerDay <= t <= 8 * 10 ^ 15 + msPerDay ->
  0 <= sh < 24 ->
  0 <= sm < 60 ->
  withinDay eh em ->
  sh * 60 + sm < eh * 60 + em ->
  1 <= w <= 7 ->
  In (Num w) days ->
  exists next,
    getNextValidCallingTime zones (FixedZoneSpec.validator sh sm eh em days)
      (Date t) timezone = Returned (Date next)
    /\ isWithinCallingHours zones (FixedZoneSpec.validator sh sm eh em days)
         (Date next) timezone = Returned true.
Proof.
  intros Hzone Hfix Hz Ht Hsh Hsm He Hwin Hw Hin.
  pose proof (keepsOffset_bound z m Hfix Hz) as Hm.
  assert (withinDay sh sm) as Hs by (unfold withinDay; lia).
  (* the start of business on any day is within hours as soon as the day is a
     business day *)
  assert (forall j, 0 <= j <= 8 ->
            isBusinessDay (FixedZoneSpec.validator sh sm eh em days)
              (Valid (FixedZoneSpec.startOn m sh sm t j) z) = true ->
            isWithinCallingHours zones (FixedZoneSpec.validator sh sm eh em days)
              (Date (FixedZoneSpec.startOn m sh sm t j)) timezone = Returned true)
    as Hstart.
  { intros j Hj Hb.
    pose proof (FixedZoneFacts.startOn_bounds m sh sm t j Hsh Hsm) as Hbd.
    rewrite (FixedZoneFacts.isWithin_fixed zones timezone z m Hzone Hfix Hm
               sh sm eh em days);
      [|unfold msPerDay in *; lia | exact Hs | exact He].
    rewrite Hb.
    rewrite (proj1 (FixedZoneFacts.startOn_parts z m Hfix sh sm t j Hsh Hsm)).
    pose proof (Z.mod_pos_bound (t + m * 60000) 1000 ltac:(lia)).
    f_equal. cbn [andb]. apply andb_true_iff. split.
    - apply Z.leb_le. lia.
    - apply Z.ltb_lt. lia. }
  destruct (isWithinCallingHours zones (FixedZoneSpec.validator sh sm eh em days)
              (Date t) timezone) as [[|]|e] eqn:Hnow.
  - exists t. split; [|exact Hnow].
    unfold getNextValidCallingTime.
    rewrite getNextValidCallingTime_asks, Hnow. cbn [bind].
    rewrite (FixedZoneFacts.fromJSDate_fixed zones timezone z m Hzone Hfix Hm t)
      by (unfold msPerDay in *; lia).
    cbn [toJSDate]. rewrite timeClip_inRange; [reflexivity|].
    apply inRange_iff. unfold maxTime, msPerDay in *. lia.
  - destruct (FixedZoneFacts.getNext_fixed zones timezone z m Hzone Hfix Hm
                sh sm eh em days t Ht Hsh Hsm Hnow) as (j & Hnext & Hcase).
    exists (FixedZoneSpec.startOn m sh sm t j). split; [exact Hnext|].
    destruct Hcase as [(-> & Hb & _) | (Hj & [Hb | (-> & Hnone)])].
    + apply Hstart; [lia|].
      unfold isBusinessDay in *. cbn [weekday] in *.
      rewrite (FixedZoneFacts.weekday_startOn z m Hfix sh sm _ _ Hsh Hsm).
      unfold weekdayOf in Hb. rewrite (FixedZoneFacts.localTS_fixed z m Hfix) in Hb.
      now rewrite Z.add_0_r.
    + apply Hstart; [lia | exact Hb].
    + exfalso.
      destruct (FixedZoneFacts.weekday_comes_up z m Hfix sh sm t 1 w Hsh Hsm Hw)
        as (i & Hi & Hwd).
      specialize (Hnone (1 + i) ltac:(lia)).
      unfold isBusinessDay in Hnone. cbn [weekday] in Hnone.
      rewrite Hwd in Hnone.
      cbn [businessDays FixedZoneSpec.validator] in Hnone.
      apply includes_In in Hin. congruence.
  - destruct (isWithinCallingHours_returns zones
                (FixedZoneSpec.validator sh sm eh em days) eq_refl (Date t) timezone)
      as [b Hb].
    congruence.
Qed.

End CallableFacts.



(** X12: when the list of business days names no weekday, the search for the
    next valid calling time gives up after seven further days.  In a zone
    that luxon knows and that keeps one offset, for a date well inside the
    range of dates and a start time that is a time of day, it answers the
    start time on the eighth local day after the date, and that answer is
    itself not within calling hours. *)
Theorem no_business_day_answer_is_not_callable :
  forall (zones : string -> option Luxon.Zone) (days : list Js.num) (sh sm eh em : Z)
         (t : Z) (timezone : string) (z : Luxon.Zone) (m : Z),
    let this := {| CallingHoursValidator.startHour := Js.Num sh;
                   CallingHoursValidator.startMinute := Js.Num sm;
                   CallingHoursValidator.endHour := Js.Num eh;
                   CallingHoursValidator.endMinute := Js.Num em;
                   CallingHoursValidator.businessDays := days |} in
    zones timezone = Some z ->
    CalendarSpec.keepsOffset z m ->
    CalendarSpec.plausible z ->
    CalendarSpec.ordinary t ->
    0 <= sh < 24 ->
    0 <= sm < 60 ->
    Startup.noBusinessDay this = true ->
    CallingHoursValidator.getNextValidCallingTime zones this (Js.Date t) timezone
      = Js.Returned (Js.Date (FixedZoneSpec.startOn m sh sm t 8))
    /\ CallingHoursValidator.isWithinCallingHours zones this
         (Js.Date (FixedZoneSpec.startOn m sh sm t 8)) timezone
       = Js.Returned false.
Proof.
  intros zones days sh sm eh em t timezone z m this Hzone Hfix Hz Ht Hsh Hsm Hno.
  pose proof (CallableFacts.keepsOffset_bound z m Hfix Hz) as Hm.
  split; [|now apply StartupFacts.noBusinessDay_never_within].
  destruct (FixedZoneFacts.getNext_fixed zones timezone z m Hzone Hfix Hm
              sh sm eh em days t
              ltac:(unfold CalendarSpec.ordinary, Luxon.msPerDay in *; lia) Hsh Hsm
              (StartupFacts.noBusinessDay_never_within zones this (Js.Date t)
                 timezone Hno))
    as (j & Hnext & Hcase).
  change (FixedZoneSpec.validator sh sm eh em days) with this in *.
  destruct Hcase as [(_ & Hb & _) | (_ & [Hb | (-> & _)])].
  - rewrite (StartupFacts.noBusinessDay_never_includes this _ _ Hno) in Hb. discriminate.
  - rewrite (StartupFacts.noBusinessDay_never_includes this _ _ Hno) in Hb. discriminate.
  - exact Hnext.
Qed.

Lemma no_business_day_answer_is_not_callable_witness :
  CallingHoursValidator.getNextValidCallingTime Examples.zones
    (CallingHoursValidator.constructor Examples.brokenEnv)
    (Js.Date Examples.mondayMorning) "UTC"
  = Js.Returned
      (Js.Date (Examples.mondayMorning - 10 * 3600000 + 8 * 86400000 + 19 * 3600000)).
Proof.
  apply (no_business_day_answer_is_not_callable Examples.zones
           [Js.NaN; Js.NaN] 19 0 9 0 Examples.mondayMorning "UTC"
           (Luxon.FixedOffsetZone 0) 0).
  - reflexivity.
  - intros x. reflexivity.
  - intros x. cbn [Luxon.offset]. lia.
  - unfold CalendarSpec.ordinary, Examples.mondayMorning. lia.
  - lia.
  - lia.
  - reflexivity.
Defined.

(** X13: a retry is never scheduled earlier than the schedule asks.  Take a
    returned retry decision, a start time that is a time of day, a clock
    reading well inside the range of dates, and a customer zone that luxon
    knows and whose clocks change at most once from four days before the
    clock reading to thirty-three days after it.  Then the next call time is
    a date no earlier than the clock reading plus the nominal delay (plus
    nothing where the nominal delay is undefined); and unless the end reason
    is a name that every object inherits, the nominal delay is positive and
    the reported delay is no shorter. *)
Theorem retry_waits_at_least_the_nominal_delay :
  forall (w : SmartRetryCalculator.World) (options : SmartRetryCalculator.Options)
         (r : SmartRetryCalculator.Retry.t) (z : Luxon.Zone) (days : list Js.num)
         (sh sm eh em change before after : Z),
    SmartRetryCalculator.calculateRetry w options
      = Js.Returned (SmartRetryCalculator.ShouldRetry r) ->
    SmartRetryCalculator.callingHoursValidator w
      = {| CallingHoursValidator.startHour := Js.Num sh;
           CallingHoursValidator.startMinute := Js.Num sm;
           CallingHoursValidator.endHour := Js.Num eh;
           CallingHoursValidator.endMinute := Js.Num em;
           CallingHoursValidator.businessDays := days |} ->
    0 <= sh < 24 ->
    0 <= sm < 60 ->
    SmartRetryCalculator.zones w (SmartRetryCalculator.Retry.timezone r) = Some z ->
    CalendarSpec.plausible z ->
    CalendarSpec.ordinary (SmartRetryCalculator.clock w) ->
    CalendarSpec.ordinary (SmartRetryCalculator.clock w + Luxon.msPerDay) ->
    CalendarSpec.changesOnce z
      (SmartRetryCalculator.clock w - 4 * Luxon.msPerDay)
      (SmartRetryCalculator.clock w + 33 * Luxon.msPerDay) change before after ->
    exists next,
      SmartRetryCalculator.Retry.nextCallTime r = Js.Date next
      /\ SmartRetryCalculator.clock w
         + match SmartRetryCalculator.Retry.originalDelayMinutes r with
           | Some nominal => nominal
           | None => 0
           end * 60000 <= next
      /\ (Js.inherited (SmartRetryCalculator.endedReason options) = false ->
          exists nominal adjusted,
            SmartRetryCalculator.Retry.originalDelayMinutes r = Some nominal
            /\ SmartRetryCalculator.Retry.adjustedDelayMinutes r
               = Some (Js.Num adjusted)
            /\ 0 < nominal <= adjusted).
Proof.
  intros w options r z days sh sm eh em change before after H Hv Hsh Hsm Hzone Hz
         Hc Hc' Hwin.
  destruct (RetryFacts.calculateRetry_retry w options r H)
    as (_ & _ & Htz & Ho & _ & within & Hw & _ & Hcase).
  cbv zeta in *. rewrite Htz in Hzone. rewrite Ho. clear Htz Ho H.
  set (n := match SmartRetryCalculator.currentAttempts options with
            | Some n => n | None => 0 end) in *.
  pose proof (RetryFacts.delayForAttempt_minutes
                (SmartRetryCalculator.endedReason options) n) as Hd.
  pose proof (RetryFacts.delayForAttempt_cases
                (SmartRetryCalculator.endedReason options) n) as Hcases.
  set (delayMinutes := SmartRetryCalculator.delayForAttempt
                         (SmartRetryCalculator.endedReason options) n) in *.
  set (minutes := match delayMinutes with Some d => d | None => 0 end) in *.
  destruct within.
  - destruct Hcase as (Hnext & Hadj).
    exists (SmartRetryCalculator.clock w + minutes * 60000).
    split; [exact Hnext|]. split; [lia|].
    intros Hi. destruct Hcases as [[Hi' _] | (_ & d & Ed & Hpos)]; [congruence|].
    exists d, d. rewrite Hadj, Ed. cbn [option_map].
    split; [reflexivity|]. split; [reflexivity | lia].
  - destruct Hcase as (next & Hnext & Hr & Hadj).
    rewrite Hv in Hnext.
    destruct (MonotoneFacts.next_valid_later (SmartRetryCalculator.zones w) days
                sh sm eh em (SmartRetryCalculator.clock w + minutes * 60000)
                (SmartRetryCalculator.timezoneFor w options) z change before after
                Hzone Hz) as (found & Hfound & Hle).
    + unfold CalendarSpec.ordinary, Luxon.msPerDay in *. lia.
    + refine (MonotoneFacts.changesOnce_within z _ _ _ _ _ _ _ _ _ Hwin);
        unfold Luxon.msPerDay; lia.
    + exact Hsh.
    + exact Hsm.
    + change (FixedZoneSpec.validator sh sm eh em days)
        with {| CallingHoursValidator.startHour := Js.Num sh;
                CallingHoursValidator.startMinute := Js.Num sm;
                CallingHoursValidator.endHour := Js.Num eh;
                CallingHoursValidator.endMinute := Js.Num em;
                CallingHoursValidator.businessDays := days |} in Hfound.
      rewrite Hfound in Hnext. injection Hnext as <-.
      exists found. split; [exact Hr|]. split; [exact Hle|].
      intros Hi. destruct Hcases as [[Hi' _] | (_ & d & Ed & Hpos)]; [congruence|].
      exists d, (Js.roundDiv (found - SmartRetryCalculator.clock w) 60000).
      split; [exact Ed|]. split; [exact Hadj|].
      pose proof (proj1 (JsFacts.roundDiv_nearest
                           (found - SmartRetryCalculator.clock w)
                           (Js.roundDiv (found - SmartRetryCalculator.clock w) 60000))
                    eq_refl).
      unfold minutes in Hle. rewrite Ed in Hle. lia.
Qed.

Lemma retry_waits_at_least_the_nominal_delay_witness :
  exists next,
    Js.Date 1705309200234 = Js.Date next
    /\ Examples.fridayEvening + 30 * 60000 <= next
    /\ (Js.inherited "customer-did-not-answer" = false ->
        exists nominal adjusted,
          Some 30 = Some nominal
          /\ Some (Js.Num 3735) = Some (Js.Num adjusted)
          /\ 0 < nominal <= adjusted).
Proof.
  apply (retry_waits_at_least_the_nominal_delay (Examples.world Examples.fridayEvening)
           (Examples.event "customer-did-not-answer" 0)
           {| SmartRetryCalculator.Retry.attempts := 1;
              SmartRetryCalculator.Retry.maxAttempts := 3;
              SmartRetryCalculator.Retry.originalDelayMinutes := Some 30;
              SmartRetryCalculator.Retry.adjustedDelayMinutes := Some (Js.Num 3735);
              SmartRetryCalculator.Retry.nextCallTime := Js.Date 1705309200234;
              SmartRetryCalculator.Retry.nextCallTimeISO := 1705309200234;
              SmartRetryCalculator.Retry.timezone := "Europe/London";
              SmartRetryCalculator.Retry.wasAdjustedForBusinessHours := true;
              SmartRetryCalculator.Retry.endedReason := "customer-did-not-answer" |}
           Luxon.britishTime2024
           [Js.Num 1; Js.Num 2; Js.Num 3; Js.Num 4; Js.Num 5] 9 0 19 0
           1711846800000 0 60).
  - reflexivity.
  - reflexivity.
  - lia.
  - lia.
  - reflexivity.
  - exact ExamplesFacts.british_plausible.
  - unfold CalendarSpec.ordinary, Examples.world, Examples.fridayEvening.
    cbn [SmartRetryCalculator.clock]. lia.
  - unfold CalendarSpec.ordinary, Examples.world, Examples.fridayEvening,
           Luxon.msPerDay.
    cbn [SmartRetryCalculator.clock]. lia.
  - apply ExamplesFacts.british_changesOnce;
      unfold Examples.world, Examples.fridayEvening, Luxon.msPerDay;
      cbn [SmartRetryCalculator.clock]; lia.
Defined.



(** X15: the back-off never shrinks.  For an end reason that is a name every
    object inherits, the delay is undefined at every attempt index.  For
    every other end reason, known or not, and attempt indexes [i <= j] that
    are not negative, the delays exist, are positive, and the delay at [j]
    is at least the delay at [i]. *)
Theorem backoff_never_shrinks :
  forall (reason : string) (i j : Z),
    0 <= i <= j ->
    if Js.inherited reason then
      SmartRetryCalculator.delayForAttempt reason i = None
      /\ SmartRetryCalculator.delayForAttempt reason j = None
    else
      exists a b,
        SmartRetryCalculator.delayForAttempt reason i = Some a
        /\ SmartRetryCalculator.delayForAttempt reason j = Some b
        /\ 0 < a <= b.
Proof.
  intros reason i j Hij.
  unfold SmartRetryCalculator.delayForAttempt.
  destruct (RetryFacts.delaysFor_cases reason)
    as [[-> ->] | (-> & a & b & c & -> & Hab & Hbc)].
  - split; reflexivity.
  - rewrite !RetryFacts.delayAt_three by lia.
    do 2 eexists. split; [reflexivity|]. split; [reflexivity|].
    destruct (i =? 0) eqn:Ei, (j =? 0) eqn:Ej, (i =? 1) eqn:Ei1, (j =? 1) eqn:Ej1;
      rewrite ?Z.eqb_eq, ?Z.eqb_neq in *; lia.
Qed.

Lemma backoff_never_shrinks_witness :
  exists a b,
    SmartRetryCalculator.delayForAttempt "carrier-dropped" 1 = Some a
    /\ SmartRetryCalculator.delayForAttempt "carrier-dropped" 7 = Some b
    /\ 0 < a <= b.
Proof.
  apply (backoff_never_shrinks "carrier-dropped" 1 7). lia.
Defined.



(** X17: for a delay of one hour or more that a JavaScript number holds
    exactly, [getDelayDescription] prints a whole number of hours or days:
    the delay rounded to the nearest unit, never zero, the unit name in the
    singular exactly for a count of one.  Delays under a day are printed in
    hours, up to "24 hours"; longer ones in days. *)
Theorem delay_description_rounds_to_unit :
  forall minutes : Z,
    60 <= minutes ->
    NumberSpec.safeInteger minutes ->
    exists (count : Z) (unit : string),
      SmartRetryCalculator.getDelayDescription minutes
        = Js.intToString count ++ " " ++ unit ++ (if count =? 1 then "" else "s")
      /\ 1 <= count
      /\ ((minutes < 1440 /\ unit = "hour" /\ count <= 24
           /\ 60 * count - 30 <= minutes < 60 * count + 30)
          \/ (1440 <= minutes /\ unit = "day"
              /\ 1440 * count - 720 <= minutes < 1440 * count + 720)).
Proof.
  intros minutes Hm _.
  unfold SmartRetryCalculator.getDelayDescription, SmartRetryCalculator.plural.
  replace (minutes <? 60) with false by (symmetry; apply Z.ltb_ge; lia).
  destruct (minutes <? 1440) eqn:E.
  - apply Z.ltb_lt in E.
    exists (Js.roundDiv minutes 60), "hour".
    assert (1 <= Js.roundDiv minutes 60 <= 24
            /\ 60 * Js.roundDiv minutes 60 - 30 <= minutes
               < 60 * Js.roundDiv minutes 60 + 30) as [Hc Hb]
      by (unfold Js.roundDiv; Z.div_mod_to_equations; lia).
    split; [|split; [lia | left; repeat split; lia]].
    destruct (Js.roundDiv minutes 60 =? 1) eqn:E1.
    + apply Z.eqb_eq in E1. rewrite E1. reflexivity.
    + apply Z.eqb_neq in E1.
      replace (1 <? Js.roundDiv minutes 60) with true
        by (symmetry; apply Z.ltb_lt; lia).
      reflexivity.
  - apply Z.ltb_ge in E.
    exists (Js.roundDiv minutes 1440), "day".
    assert (1 <= Js.roundDiv minutes 1440
            /\ 1440 * Js.roundDiv minutes 1440 - 720 <= minutes
               < 1440 * Js.roundDiv minutes 1440 + 720) as [Hc Hb]
      by (unfold Js.roundDiv; Z.div_mod_to_equations; lia).
    split; [|split; [lia | right; repeat split; lia]].
    destruct (Js.roundDiv minutes 1440 =? 1) eqn:E1.
    + apply Z.eqb_eq in E1. rewrite E1. reflexivity.
    + apply Z.eqb_neq in E1.
      replace (1 <? Js.roundDiv minutes 1440) with true
        by (symmetry; apply Z.ltb_lt; lia).
      reflexivity.
Qed.

Lemma delay_description_rounds_to_unit_witness :
  exists (count : Z) (unit : string),
    SmartRetryCalculator.getDelayDescription 1439
      = Js.intToString count ++ " " ++ unit ++ (if count =? 1 then "" else "s")
    /\ 1 <= count
    /\ ((1439 < 1440 /\ unit = "hour" /\ count <= 24
         /\ 60 * count - 30 <= 1439 < 60 * count + 30)
        \/ (1440 <= 1439 /\ unit = "day"
            /\ 1440 * count - 720 <= 1439 < 1440 * count + 720)).
Proof.
  apply (delay_description_rounds_to_unit 1439);
    [lia | unfold NumberSpec.safeInteger; lia].
Defined.
